(** * The local configuration store and the command layer of [main.py]

    A shallow embedding of [main.py]: the naming function
    [_parse_config_file_name], the loader [_load_config] and the four
    commands [configure_vpc], [remove_vpc], [configure_subnet] and
    [remove_subnet], run against an explicit model of the [params]
    directory and of the EC2 client.

    - Strings are byte strings ([String.string]).
    - The directory [local_dir] is a finite map from file names to file
      contents, together with the names the file system does not take and
      the error it raises for each; permissions are not modelled.
    - A file content is seen through [json.load]: the document it decodes
      to, or a text that does not decode.  [json.dump] writes a text that
      decodes to the value dumped.
    - The EC2 client is an arbitrary function from the calls made so far
      and the next call to an identifier or an error.  Every function of
      [commands.py] is one request to it, appended to a trace; it reads
      the record it is handed and does not change it.
    - A command is a function from a machine (directory and trace) to a
      result and a machine, so that what a failed command left behind can
      be stated.
    - The [logger.info] lines are left out. *)

From Stdlib Require Import String Ascii List Bool Lia.
From stdpp Require Import base option gmap strings list fin_maps.

Local Open Scope string_scope.
Local Open Scope list_scope.
Import ListNotations.

#[local] Set Warnings "-register-all".

(** ** Python string primitives used by [main.py] *)

Module Py.

(** [c.lower()] on one byte: the ASCII letters [A]..[Z] move to
    [a]..[z], every other byte stays.  Python's [lower] also maps letters
    outside ASCII, which take several bytes here; [main.py] lowers only
    the resource type, which its callers give as the literals [vpc] and
    [subnet]. *)
Definition chr_lower (c : ascii) : ascii :=
  let n := nat_of_ascii c in
  if (65 <=? n)%nat && (n <=? 90)%nat then ascii_of_nat (n + 32) else c.

(** [s.lower()] *)
Fixpoint str_lower (s : string) : string :=
  match s with
  | EmptyString => EmptyString
  | String c rest => String (chr_lower c) (str_lower rest)
  end.

(** [s.replace(old, new)] for one-character [old] and [new]: each
    occurrence of [old] becomes [new], left to right. *)
Fixpoint str_replace (old new : ascii) (s : string) : string :=
  match s with
  | EmptyString => EmptyString
  | String c rest =>
      String (if Ascii.eqb c old then new else c) (str_replace old new rest)
  end.

(** [s.startswith(p)] *)
Fixpoint str_startswith (p s : string) : bool :=
  match p, s with
  | EmptyString, _ => true
  | String _ _, EmptyString => false
  | String a p', String b s' => Ascii.eqb a b && str_startswith p' s'
  end.

(** [c in s] for a character [c] *)
Fixpoint str_contains (c : ascii) (s : string) : bool :=
  match s with
  | EmptyString => false
  | String d rest => Ascii.eqb d c || str_contains c rest
  end.

End Py.

(** ** The naming function *)

Definition hyphen : ascii := "-"%char.
Definition underscore : ascii := "_"%char.

(** [resource_name.replace('-', '_')] *)
Definition canonical (resource_name : string) : string :=
  Py.str_replace hyphen underscore resource_name.

(** What the substitution does to one character. *)
Definition hyphen_to_underscore (c : ascii) : ascii :=
  if Ascii.eqb c hyphen then underscore else c.

(** [_parse_config_file_name], main.py line 164:
    [f"{resource_type.lower()}_{resource_name.replace('-', '_')}_config.json"] *)
Definition _parse_config_file_name (resource_name resource_type : string) : string :=
  Py.str_lower resource_type +:+ "_" +:+ canonical resource_name +:+ "_config.json".

(** The two type tags the commands pass. *)
Definition is_type_tag (t : string) : Prop := t = "vpc" \/ t = "subnet".

(** ** Errors

    The error kinds a command can stop with.  [NotFoundError] is what
    [open] and [os.remove] raise for a path that does not exist (Python's
    [FileNotFoundError]); [IsADirectoryError] is what they raise for a path
    that is a directory; [NameTooLongError] is their [OSError] with errno
    [ENAMETOOLONG]; [MalformedConfigError] is a config file that cannot be
    decoded into the expected record; [ValueError] is a constructor refusing
    a value; [RemoteAPIError] is whatever the EC2 client raised, carried
    unchanged; [ProfileError] is [boto3.Session] refusing the profile;
    [AttributeError] is an attribute read on a value that has no such
    attribute. *)
Inductive error : Type :=
| NotFoundError
| IsADirectoryError
| NameTooLongError
| MalformedConfigError
| ValueError
| RemoteAPIError (code : string)
| ProfileError (profile_name : string)
| AttributeError.

Inductive result (A : Type) : Type :=
| Ok (a : A)
| Error (e : error).
Arguments Ok {A} a.
Arguments Error {A} e.

(** ** The third octet

    The help text of [--cidr-substitute] asks for an "integer between 5 and
    254", and the data model constrains the value of the record to that
    range; this is that condition on the string the option receives. *)
Fixpoint digits_value (acc : nat) (s : string) : option nat :=
  match s with
  | EmptyString => Some acc
  | String c rest =>
      match Ascii.is_nat c with
      | Some d => digits_value (10 * acc + d) rest
      | None => None
      end
  end.

Definition octet_in_range (s : string) : bool :=
  match s with
  | EmptyString => false
  | _ =>
      match digits_value 0 s with
      | Some n => (5 <=? n)%nat && (n <=? 254)%nat
      | None => false
      end
  end.

(** ** JSON documents and file contents *)

(** What [json.load] returns; a Python [dict] is kept as the list of its
    items in insertion order. *)
Inductive json : Type :=
| JNull
| JBool (b : bool)
| JNum (n : Z)
| JStr (s : string)
| JArr (items : list json)
| JObj (items : list (string * json)).

(** The text of a file, seen through [json.load]: either it decodes to a
    document, or it does not decode at all.  [json.dump] writes a text that
    decodes to the value dumped. *)
Inductive content : Type :=
| Document (j : json)
| Unparsable (raw : string).

(** [d[k]] on the items of a dict *)
Fixpoint dict_get (k : string) (d : list (string * json)) : option json :=
  match d with
  | [] => None
  | (k', v) :: rest => if String.eqb k k' then Some v else dict_get k rest
  end.

(** A field that holds a string. *)
Definition get_str (d : list (string * json)) (k : string) : result string :=
  match dict_get k d with
  | Some (JStr s) => Ok s
  | _ => Error MalformedConfigError
  end.

(** A field that holds an identifier, or [None] before it is assigned. *)
Definition get_id (d : list (string * json)) (k : string) : result (option string) :=
  match dict_get k d with
  | Some (JStr s) => Ok (Some s)
  | Some JNull => Ok None
  | _ => Error MalformedConfigError
  end.

(** A field that holds the third octet, within its range. *)
Definition get_octet (d : list (string * json)) (k : string) : result string :=
  match dict_get k d with
  | Some (JStr s) => if octet_in_range s then Ok s else Error MalformedConfigError
  | _ => Error MalformedConfigError
  end.

Definition json_of_id (i : option string) : json :=
  match i with
  | Some s => JStr s
  | None => JNull
  end.

(** Binding in [result]. *)
Definition result_bind {A B : Type} (r : result A) (k : A -> result B) : result B :=
  match r with
  | Ok a => k a
  | Error e => Error e
  end.

Notation "'let?' x ':=' r 'in' k" := (result_bind r (fun x => k))
  (at level 10, x name, r at level 100, k at level 200).

(** ** The records of [configs.py] *)

Module VpcConfig.

(** Modelled from the spec: the class [VpcConfig], defined in
    [configs.py] and only imported by [main.py].  Its attributes are the
    five keyword arguments [configure_vpc] constructs it with and the three
    identifiers [configure_vpc] assigns afterwards. *)
Record t : Type := mk {
  region : string;
  vpc_cidr : string;
  vpc_name : string;
  sg_name : string;
  igw_name : string;
  vpc_id : option string;
  sg_id : option string;
  igw_id : option string
}.

(** Modelled from the spec: [VpcConfig(region=..., ...)]; identifiers are
    absent until the corresponding create call succeeds. *)
Definition init (region vpc_cidr vpc_name sg_name igw_name : string) : t :=
  mk region vpc_cidr vpc_name sg_name igw_name None None None.

(** [vpc_config.vpc_id = vpc_id] *)
Definition set_vpc_id (c : t) (i : string) : t :=
  mk (region c) (vpc_cidr c) (vpc_name c) (sg_name c) (igw_name c)
     (Some i) (sg_id c) (igw_id c).

(** [vpc_config.sg_id = sg_id] *)
Definition set_sg_id (c : t) (i : string) : t :=
  mk (region c) (vpc_cidr c) (vpc_name c) (sg_name c) (igw_name c)
     (vpc_id c) (Some i) (igw_id c).

(** [vpc_config.igw_id = igw_id] *)
Definition set_igw_id (c : t) (i : string) : t :=
  mk (region c) (vpc_cidr c) (vpc_name c) (sg_name c) (igw_name c)
     (vpc_id c) (sg_id c) (Some i).

(** Modelled from the spec: [vpc_config.__dict__], all record fields,
    identifiers included, as a flat key-value document. *)
Definition to_dict (c : t) : list (string * json) :=
  [ ("region", JStr (region c));
    ("vpc_cidr", JStr (vpc_cidr c));
    ("vpc_name", JStr (vpc_name c));
    ("sg_name", JStr (sg_name c));
    ("igw_name", JStr (igw_name c));
    ("vpc_id", json_of_id (vpc_id c));
    ("sg_id", json_of_id (sg_id c));
    ("igw_id", json_of_id (igw_id c)) ].

Definition str_keys : list string :=
  ["region"; "vpc_cidr"; "vpc_name"; "sg_name"; "igw_name"].
Definition id_keys : list string := ["vpc_id"; "sg_id"; "igw_id"].

(** Modelled from the spec: [VpcConfig.from_config(config)], the read
    side of the store, which fails with [MalformedConfigError] when the
    document does not have the shape of the record. *)
Definition from_config (config : json) : result t :=
  match config with
  | JObj d =>
      let? region := get_str d "region" in
      let? vpc_cidr := get_str d "vpc_cidr" in
      let? vpc_name := get_str d "vpc_name" in
      let? sg_name := get_str d "sg_name" in
      let? igw_name := get_str d "igw_name" in
      let? vpc_id := get_id d "vpc_id" in
      let? sg_id := get_id d "sg_id" in
      let? igw_id := get_id d "igw_id" in
      Ok (mk region vpc_cidr vpc_name sg_name igw_name vpc_id sg_id igw_id)
  | _ => Error MalformedConfigError
  end.

(** All identifiers present. *)
Definition fully_populated (c : t) : Prop :=
  is_Some (vpc_id c) /\ is_Some (sg_id c) /\ is_Some (igw_id c).

End VpcConfig.

Module SubnetConfig.

(** Modelled from the spec: the class [SubnetConfig], defined in
    [configs.py] and only imported by [main.py].  It embeds the fields of
    the parent VPC record as they were at creation time, holds the four
    further keyword arguments [configure_subnet] constructs it with, and the
    three identifiers [configure_subnet] assigns afterwards.
    [cidr_substitute] is kept as the string the command line gave, as
    [configure_subnet] types it; the data model constrains it to an integer
    from 5 to 254, which the constructor and the decoder below enforce.
    The public flag is an argument of [commands.create_route_table] only;
    [configure_subnet] does not put it in the record. *)
Record t : Type := mk {
  parent : VpcConfig.t;
  subnet_name : string;
  cidr_substitute : string;
  az_postfix : string;
  rt_name : string;
  subnet_id : option string;
  rt_id : option string;
  subnet_rt_association_id : option string
}.

(** [subnet_config.region] *)
Definition region (c : t) : string := VpcConfig.region (parent c).

(** The constraint of the data model on a record. *)
Definition valid (c : t) : Prop := octet_in_range (cidr_substitute c) = true.

(** Modelled from the spec: [SubnetConfig(vpc_config=..., ...)].  The
    constructor refuses a [cidr_substitute] that is not an integer from 5 to
    254; identifiers are absent until the create calls return. *)
Definition init (vpc_config : VpcConfig.t)
    (subnet_name cidr_substitute az_postfix rt_name : string) : result t :=
  if octet_in_range cidr_substitute
  then Ok (mk vpc_config subnet_name cidr_substitute az_postfix rt_name
              None None None)
  else Error ValueError.

(** [subnet_config.subnet_id = subnet_id] *)
Definition set_subnet_id (c : t) (i : string) : t :=
  mk (parent c) (subnet_name c) (cidr_substitute c) (az_postfix c) (rt_name c)
     (Some i) (rt_id c) (subnet_rt_association_id c).

(** [subnet_config.rt_id = rt_id] *)
Definition set_rt_id (c : t) (i : string) : t :=
  mk (parent c) (subnet_name c) (cidr_substitute c) (az_postfix c) (rt_name c)
     (subnet_id c) (Some i) (subnet_rt_association_id c).

(** [subnet_config.subnet_rt_association_id = association_id] *)
Definition set_subnet_rt_association_id (c : t) (i : string) : t :=
  mk (parent c) (subnet_name c) (cidr_substitute c) (az_postfix c) (rt_name c)
     (subnet_id c) (rt_id c) (Some i).

(** Modelled from the spec: [subnet_config.__dict__], flat, the embedded
    VPC fields first. *)
Definition to_dict (c : t) : list (string * json) :=
  VpcConfig.to_dict (parent c) ++
  [ ("subnet_name", JStr (subnet_name c));
    ("cidr_substitute", JStr (cidr_substitute c));
    ("az_postfix", JStr (az_postfix c));
    ("rt_name", JStr (rt_name c));
    ("subnet_id", json_of_id (subnet_id c));
    ("rt_id", json_of_id (rt_id c));
    ("subnet_rt_association_id", json_of_id (subnet_rt_association_id c)) ].

Definition str_keys : list string :=
  VpcConfig.str_keys ++ ["subnet_name"; "cidr_substitute"; "az_postfix"; "rt_name"].
Definition id_keys : list string :=
  VpcConfig.id_keys ++ ["subnet_id"; "rt_id"; "subnet_rt_association_id"].

(** Modelled from the spec: [SubnetConfig.from_config(config)]; a
    [cidr_substitute] outside the range of the data model is not the shape
    of the record. *)
Definition from_config (config : json) : result t :=
  match config with
  | JObj d =>
      let? parent := VpcConfig.from_config config in
      let? subnet_name := get_str d "subnet_name" in
      let? cidr_substitute := get_octet d "cidr_substitute" in
      let? az_postfix := get_str d "az_postfix" in
      let? rt_name := get_str d "rt_name" in
      let? subnet_id := get_id d "subnet_id" in
      let? rt_id := get_id d "rt_id" in
      let? association_id := get_id d "subnet_rt_association_id" in
      Ok (mk parent subnet_name cidr_substitute az_postfix rt_name
             subnet_id rt_id association_id)
  | _ => Error MalformedConfigError
  end.

Definition fully_populated (c : t) : Prop :=
  VpcConfig.fully_populated (parent c) /\
  is_Some (subnet_id c) /\ is_Some (rt_id c) /\
  is_Some (subnet_rt_association_id c).

End SubnetConfig.

(** The expected record shape of a document: a dict in which every string
    field holds a string and every identifier field a string or [null]; for
    a subnet record, the third octet is moreover within its range. *)
Definition holds_str (d : list (string * json)) (k : string) : bool :=
  match dict_get k d with
  | Some (JStr _) => true
  | _ => false
  end.

Definition holds_id (d : list (string * json)) (k : string) : bool :=
  match dict_get k d with
  | Some (JStr _) | Some JNull => true
  | _ => false
  end.

Definition has_shape (str_keys id_keys : list string) (j : json) : bool :=
  match j with
  | JObj d => forallb (holds_str d) str_keys && forallb (holds_id d) id_keys
  | _ => false
  end.

Definition vpc_shape : json -> bool :=
  has_shape VpcConfig.str_keys VpcConfig.id_keys.
Definition holds_octet (d : list (string * json)) (k : string) : bool :=
  match dict_get k d with
  | Some (JStr s) => octet_in_range s
  | _ => false
  end.

Definition subnet_shape (j : json) : bool :=
  has_shape SubnetConfig.str_keys SubnetConfig.id_keys j &&
  match j with
  | JObj d => holds_octet d "cidr_substitute"
  | _ => false
  end.

(** ** The machine: the [params] directory and the EC2 endpoint *)

(** The calls [main.py] makes into [commands.py], each with the record it
    is handed at the time of the call. *)
Inductive remote_call : Type :=
| Call_create_vpc (c : VpcConfig.t)
| Call_create_vpc_security_group (c : VpcConfig.t)
| Call_create_internet_gateway (c : VpcConfig.t)
| Call_delete_internet_gateway (c : VpcConfig.t)
| Call_delete_security_group (c : VpcConfig.t)
| Call_delete_vpc (c : VpcConfig.t)
| Call_create_subnet (c : SubnetConfig.t)
| Call_create_route_table (c : SubnetConfig.t) (is_public : bool)
| Call_create_subnet_route_table_association (c : SubnetConfig.t)
| Call_delete_subnet_route_table_association (c : SubnetConfig.t)
| Call_delete_route_table (c : SubnetConfig.t)
| Call_delete_subnet (c : SubnetConfig.t).

(** The resource a call is about, and whether it creates or deletes it. *)
Inductive resource : Type :=
| Vpc | SecurityGroup | InternetGateway | Subnet | RouteTable | Association.

Inductive action : Type := Create | Delete.

Definition resource_of (c : remote_call) : resource :=
  match c with
  | Call_create_vpc _ | Call_delete_vpc _ => Vpc
  | Call_create_vpc_security_group _ | Call_delete_security_group _ => SecurityGroup
  | Call_create_internet_gateway _ | Call_delete_internet_gateway _ => InternetGateway
  | Call_create_subnet _ | Call_delete_subnet _ => Subnet
  | Call_create_route_table _ _ | Call_delete_route_table _ => RouteTable
  | Call_create_subnet_route_table_association _
  | Call_delete_subnet_route_table_association _ => Association
  end.

Definition action_of (c : remote_call) : action :=
  match c with
  | Call_create_vpc _ | Call_create_vpc_security_group _
  | Call_create_internet_gateway _ | Call_create_subnet _
  | Call_create_route_table _ _
  | Call_create_subnet_route_table_association _ => Create
  | _ => Delete
  end.

(** [session.client("ec2")]: given the calls made so far and the next
    call, the identifier it returns or the error it raises. *)
Definition ec2_client : Type := list remote_call -> remote_call -> result string.

(** [boto3]: [Session(profile_name=..., region_name=...).client("ec2")]
    gives a client or raises. *)
Record boto3 : Type := {
  Session_client : string -> string -> result ec2_client
}.

(** The files of [local_dir], by file name; the names the file system does
    not take; the calls issued so far.  Every path the commands use is
    [local_dir.joinpath(file_name)].  [refused] gives, for a name the file
    system does not take as the name of a file of [local_dir], the error
    [open] and [os.remove] raise for it: an over-long name ([OSError],
    [ENAMETOOLONG]), the empty name (the path is [local_dir] itself:
    [IsADirectoryError]), a name that leads through a directory that is not
    there ([FileNotFoundError], also when writing).  No command changes it. *)
Record machine : Type := {
  files : gmap string content;
  refused : string -> option error;
  calls : list remote_call
}.

(** No file sits under a name the file system does not take.  Every
    command keeps a machine so; on such a machine the order in which an
    operation looks at [files] and at [refused] makes no difference. *)
Definition consistent (m : machine) : Prop :=
  forall name, is_Some (files m !! name) -> refused m name = None.

(** A command step: runs on a machine, returns or raises, and leaves a
    machine behind in both cases. *)
Definition cmd (A : Type) : Type := machine -> result A * machine.

Definition ret {A : Type} (a : A) : cmd A := fun m => (Ok a, m).

Definition raise {A : Type} (e : error) : cmd A := fun m => (Error e, m).

Definition bind {A B : Type} (c : cmd A) (k : A -> cmd B) : cmd B :=
  fun m =>
    match c m with
    | (Ok a, m') => k a m'
    | (Error e, m') => (Error e, m')
    end.

Definition lift {A : Type} (r : result A) : cmd A := fun m => (r, m).

Notation "x <- c ;; k" := (bind c (fun x => k))
  (at level 100, c at next level, right associativity).
Notation "c ;;; k" := (bind c (fun _ => k))
  (at level 100, right associativity).

(** What [open] and [os.remove] raise for a name under which there is no
    file. *)
Definition no_such_file (m : machine) (name : string) : error :=
  match refused m name with
  | Some e => e
  | None => NotFoundError
  end.

(** [open(local_dir.joinpath(name), "r")] and reading the file. *)
Definition open_read (name : string) : cmd content :=
  fun m =>
    match files m !! name with
    | Some c => (Ok c, m)
    | None => (Error (no_such_file m name), m)
    end.

(** [json.load(file)] *)
Definition json_load (c : content) : result json :=
  match c with
  | Document j => Ok j
  | Unparsable _ => Error MalformedConfigError
  end.

(** [with open(local_dir.joinpath(name), "w") as file: json.dump(d, file)]:
    [open] raises for a name the file system does not take, and nothing is
    written; otherwise the file is created or overwritten. *)
Definition json_dump (name : string) (d : list (string * json)) : cmd unit :=
  fun m =>
    match refused m name with
    | Some e => (Error e, m)
    | None => (Ok tt, {| files := <[name := Document (JObj d)]> (files m);
                         refused := refused m;
                         calls := calls m |})
    end.

(** [os.remove(local_dir.joinpath(name))] *)
Definition os_remove (name : string) : cmd unit :=
  fun m =>
    match refused m name with
    | Some e => (Error e, m)
    | None =>
        match files m !! name with
        | Some _ => (Ok tt, {| files := delete name (files m);
                               refused := refused m;
                               calls := calls m |})
        | None => (Error NotFoundError, m)
        end
    end.

(** ** [commands.py], as far as [main.py] sees it

    Each function of [commands] is one request to the client, recorded in
    the trace whether it returns or raises. *)
Module commands.

Definition request (ec2 : ec2_client) (c : remote_call) : cmd string :=
  fun m => (ec2 (calls m) c,
            {| files := files m; refused := refused m; calls := calls m ++ [c] |}).

Definition create_vpc ec2 c := request ec2 (Call_create_vpc c).
Definition create_vpc_security_group ec2 c :=
  request ec2 (Call_create_vpc_security_group c).
Definition create_internet_gateway ec2 c :=
  request ec2 (Call_create_internet_gateway c).
Definition delete_internet_gateway ec2 c :=
  request ec2 (Call_delete_internet_gateway c).
Definition delete_security_group ec2 c :=
  request ec2 (Call_delete_security_group c).
Definition delete_vpc ec2 c := request ec2 (Call_delete_vpc c).
Definition create_subnet ec2 c := request ec2 (Call_create_subnet c).
Definition create_route_table ec2 c (is_public : bool) :=
  request ec2 (Call_create_route_table c is_public).
Definition create_subnet_route_table_association ec2 c :=
  request ec2 (Call_create_subnet_route_table_association c).
Definition delete_subnet_route_table_association ec2 c :=
  request ec2 (Call_delete_subnet_route_table_association c).
Definition delete_route_table ec2 c := request ec2 (Call_delete_route_table c).
Definition delete_subnet ec2 c := request ec2 (Call_delete_subnet c).

End commands.

(** ** [_load_config] *)

(** What [_load_config] hands back: one of the two records. *)
Inductive config : Type :=
| IsVpc (c : VpcConfig.t)
| IsSubnet (c : SubnetConfig.t).

(** [_load_config], main.py lines 168-175.  A file name with neither
    prefix falls off the end of the function, which returns [None]. *)
Definition _load_config (config_file_name : string) : cmd (option config) :=
  file <- open_read config_file_name ;;
  config <- lift (json_load file) ;;
  if Py.str_startswith "vpc" config_file_name then
    c <- lift (VpcConfig.from_config config) ;; ret (Some (IsVpc c))
  else if Py.str_startswith "subnet" config_file_name then
    c <- lift (SubnetConfig.from_config config) ;; ret (Some (IsSubnet c))
  else ret None.

(** The record a VPC command goes on with.  Reading [.region] of [None] is
    an [AttributeError]; under a [vpc] file name the loader returns a VPC
    record or raises, so the other branch is never taken (and likewise for
    the subnet commands). *)
Definition the_vpc (loaded : option config) : cmd VpcConfig.t :=
  match loaded with
  | Some (IsVpc c) => ret c
  | _ => raise AttributeError
  end.

Definition the_subnet (loaded : option config) : cmd SubnetConfig.t :=
  match loaded with
  | Some (IsSubnet c) => ret c
  | _ => raise AttributeError
  end.

(** ** The four commands *)

(** [configure_vpc], main.py lines 31-65. *)
Definition configure_vpc (aws : boto3)
    (profile_name region vpc_cidr vpc_name sg_name igw_name : string) : cmd unit :=
  let vpc_config := VpcConfig.init region vpc_cidr vpc_name sg_name igw_name in
  ec2_client <- lift (Session_client aws profile_name (VpcConfig.region vpc_config)) ;;
  vpc_id <- commands.create_vpc ec2_client vpc_config ;;
  let vpc_config := VpcConfig.set_vpc_id vpc_config vpc_id in
  sg_id <- commands.create_vpc_security_group ec2_client vpc_config ;;
  let vpc_config := VpcConfig.set_sg_id vpc_config sg_id in
  igw_id <- commands.create_internet_gateway ec2_client vpc_config ;;
  let vpc_config := VpcConfig.set_igw_id vpc_config igw_id in
  let vpc_config_file_name := _parse_config_file_name vpc_name "vpc" in
  json_dump vpc_config_file_name (VpcConfig.to_dict vpc_config).

(** [remove_vpc], main.py lines 72-91. *)
Definition remove_vpc (aws : boto3) (profile_name vpc_name : string) : cmd unit :=
  let vpc_config_file_name := _parse_config_file_name vpc_name "vpc" in
  loaded <- _load_config vpc_config_file_name ;;
  vpc_config <- the_vpc loaded ;;
  ec2_client <- lift (Session_client aws profile_name (VpcConfig.region vpc_config)) ;;
  commands.delete_internet_gateway ec2_client vpc_config ;;;
  commands.delete_security_group ec2_client vpc_config ;;;
  commands.delete_vpc ec2_client vpc_config ;;;
  os_remove vpc_config_file_name.

(** [configure_subnet], main.py lines 98-135. *)
Definition configure_subnet (aws : boto3)
    (profile_name vpc_name subnet_name cidr_substitute
       availability_zone_postfix route_table_name : string)
    (is_public : bool) : cmd unit :=
  let vpc_config_file_name := _parse_config_file_name vpc_name "vpc" in
  loaded <- _load_config vpc_config_file_name ;;
  vpc_config <- the_vpc loaded ;;
  ec2_client <- lift (Session_client aws profile_name (VpcConfig.region vpc_config)) ;;
  subnet_config <-
    lift (SubnetConfig.init vpc_config subnet_name cidr_substitute
            availability_zone_postfix route_table_name) ;;
  subnet_id <- commands.create_subnet ec2_client subnet_config ;;
  let subnet_config := SubnetConfig.set_subnet_id subnet_config subnet_id in
  rt_id <- commands.create_route_table ec2_client subnet_config is_public ;;
  let subnet_config := SubnetConfig.set_rt_id subnet_config rt_id in
  association_id <-
    commands.create_subnet_route_table_association ec2_client subnet_config ;;
  let subnet_config :=
    SubnetConfig.set_subnet_rt_association_id subnet_config association_id in
  let subnet_config_file_name := _parse_config_file_name subnet_name "subnet" in
  json_dump subnet_config_file_name (SubnetConfig.to_dict subnet_config).

(** [remove_subnet], main.py lines 142-161. *)
Definition remove_subnet (aws : boto3) (profile_name subnet_name : string) : cmd unit :=
  let subnet_config_file_name := _parse_config_file_name subnet_name "subnet" in
  loaded <- _load_config subnet_config_file_name ;;
  subnet_config <- the_subnet loaded ;;
  ec2_client <-
    lift (Session_client aws profile_name (SubnetConfig.region subnet_config)) ;;
  commands.delete_subnet_route_table_association ec2_client subnet_config ;;;
  commands.delete_route_table ec2_client subnet_config ;;;
  commands.delete_subnet ec2_client subnet_config ;;;
  os_remove subnet_config_file_name.

(** ** Observing a run *)

Definition outcome {A : Type} (c : cmd A) (m : machine) : result A := fst (c m).

Definition after {A : Type} (c : cmd A) (m : machine) : machine := snd (c m).

(** The calls a run added to the trace. *)
Definition issued {A : Type} (c : cmd A) (m : machine) : list remote_call :=
  drop (length (calls m)) (calls (after c m)).

(** The [k]-th call of [sent], issued from a machine whose trace was
    [before], made [ec2] raise [e]. *)
Definition raised_at (ec2 : ec2_client) (before sent : list remote_call)
    (k : nat) (e : error) : Prop :=
  exists call, sent !! k = Some call /\ ec2 (before ++ take k sent) call = Error e.

(** Every call of [sent] returned an identifier. *)
Definition all_returned (ec2 : ec2_client) (before sent : list remote_call) : Prop :=
  forall k call, sent !! k = Some call ->
    exists i, ec2 (before ++ take k sent) call = Ok i.

(** The delete calls of the two removal commands, for a loaded record. *)
Definition vpc_removal (c : VpcConfig.t) : list remote_call :=
  [ Call_delete_internet_gateway c; Call_delete_security_group c; Call_delete_vpc c ].

Definition subnet_removal (c : SubnetConfig.t) : list remote_call :=
  [ Call_delete_subnet_route_table_association c; Call_delete_route_table c;
    Call_delete_subnet c ].

(** Three requests in a row, each built from the identifiers returned so
    far, then a change of the file [name]; the first request that raises
    stops the run, and so does a [name] the file system does not take.  Each
    of the four commands, once it has its record and its client, is such a
    run. *)
Definition chain (ec2 : ec2_client) (k1 : remote_call)
    (k2 : string -> remote_call) (k3 : string -> string -> remote_call)
    (name : string)
    (update : string -> string -> string -> gmap string content -> gmap string content)
    : cmd unit :=
  fun m =>
    let stop sent :=
      {| files := files m; refused := refused m; calls := calls m ++ sent |} in
    match ec2 (calls m) k1 with
    | Error e => (Error e, stop [k1])
    | Ok i1 =>
        match ec2 (calls m ++ [k1]) (k2 i1) with
        | Error e => (Error e, stop [k1; k2 i1])
        | Ok i2 =>
            match ec2 (calls m ++ [k1; k2 i1]) (k3 i1 i2) with
            | Error e => (Error e, stop [k1; k2 i1; k3 i1 i2])
            | Ok i3 =>
                match refused m name with
                | Some e => (Error e, stop [k1; k2 i1; k3 i1 i2])
                | None =>
                    (Ok tt, {| files := update i1 i2 i3 (files m);
                               refused := refused m;
                               calls := calls m ++ [k1; k2 i1; k3 i1 i2] |})
                end
            end
        end
    end.

(** ** Sample worlds, for running the commands *)

Definition sample_id (c : remote_call) : string :=
  match resource_of c with
  | Vpc => "vpc-0a1"
  | SecurityGroup => "sg-0b2"
  | InternetGateway => "igw-0c3"
  | Subnet => "subnet-0d4"
  | RouteTable => "rtb-0e5"
  | Association => "rtbassoc-0f6"
  end.

(** A client that answers every call. *)
Definition ec2_ok : ec2_client := fun _ c => Ok (sample_id c).

(** A client that raises on the call made after [n] earlier ones. *)
Definition ec2_failing_at (n : nat) : ec2_client :=
  fun before c =>
    if Nat.eqb (length before) n then Error (RemoteAPIError "RequestLimitExceeded")
    else Ok (sample_id c).

Definition aws_ok : boto3 := {| Session_client := fun _ _ => Ok ec2_ok |}.

Definition aws_failing_at (n : nat) : boto3 :=
  {| Session_client := fun _ _ => Ok (ec2_failing_at n) |}.

(** A sample file system: a Linux directory without subdirectories.  It
    does not take the empty name, [.] or [..] (each is a directory), a name
    with a slash that does not begin with a dot or a slash (it leads through
    a subdirectory, and there is none), or a name over 255 bytes. *)
Definition linux_names (name : string) : option error :=
  match name with
  | "" | "." | ".." => Some IsADirectoryError
  | String c _ =>
      if Py.str_contains "/" name && negb (Ascii.eqb c "." || Ascii.eqb c "/")
      then Some NotFoundError
      else if (255 <? String.length name)%nat then Some NameTooLongError
      else None
  end.

(** The sample directory holding the files [fs], before any call. *)
Definition on_disk (fs : gmap string content) : machine :=
  {| files := fs; refused := linux_names; calls := [] |}.

Definition empty_machine : machine := on_disk ∅.

(** A name of [n] times the character [c]. *)
Fixpoint str_repeat (c : ascii) (n : nat) : string :=
  match n with
  | O => EmptyString
  | S n' => String c (str_repeat c n')
  end.

(** A name the sample file system finds too long, and one that leads
    through a subdirectory. *)
Definition long_name : string := str_repeat "a" 300.
Definition nested_name : string := "a/b".

(** A fully populated VPC record under the nested name. *)
Definition nested_vpc : VpcConfig.t :=
  VpcConfig.mk "eu-west-1" "10.0.0.0/16" nested_name "demo-sg" "demo-igw"
    (Some "vpc-0a1") (Some "sg-0b2") (Some "igw-0c3").

Definition demo_vpc : VpcConfig.t :=
  VpcConfig.mk "eu-west-1" "10.0.0.0/16" "demo" "demo-sg" "demo-igw"
    (Some "vpc-0a1") (Some "sg-0b2") (Some "igw-0c3").

Definition demo_subnet : SubnetConfig.t :=
  SubnetConfig.mk demo_vpc "demo-net" "7" "a" "demo-rt"
    (Some "subnet-0d4") (Some "rtb-0e5") (Some "rtbassoc-0f6").

(** The machine left by [configure-vpc --vpc-name demo ...]. *)
Definition demo_machine : machine :=
  after (configure_vpc aws_ok "admin" "eu-west-1" "10.0.0.0/16" "demo"
           "demo-sg" "demo-igw") empty_machine.

(** A directory whose VPC file was cut short while it was written. *)
Definition truncated_machine : machine :=
  on_disk {[ "vpc_demo_config.json" := Unparsable "{" ]}.

(** A directory whose files hold JSON of another shape: a list under the
    VPC name, a VPC document under the subnet name. *)
Definition misshapen_machine : machine :=
  on_disk {[ "vpc_demo_config.json" := Document (JArr []);
             "subnet_demo_net_config.json" :=
               Document (JObj (VpcConfig.to_dict demo_vpc)) ]}.

(** The machine left by [configure-subnet --subnet-name demo-net ...] after
    [configure-vpc --vpc-name demo ...]. *)
Definition demo_subnet_machine : machine :=
  after (configure_subnet aws_ok "admin" "demo" "demo-net" "7" "a" "demo-rt" true)
    demo_machine.

(** The sample invocations. *)
Definition demo_configure_vpc (aws : boto3) : cmd unit :=
  configure_vpc aws "admin" "eu-west-1" "10.0.0.0/16" "demo" "demo-sg" "demo-igw".

Definition demo_configure_subnet (aws : boto3) : cmd unit :=
  configure_subnet aws "admin" "demo" "demo-net" "7" "a" "demo-rt" true.

Definition demo_remove_vpc (aws : boto3) : cmd unit := remove_vpc aws "admin" "demo".

Definition demo_remove_subnet (aws : boto3) : cmd unit :=
  remove_subnet aws "admin" "demo-net".

(** The records the sample creations start from. *)
Definition demo_vpc_init : VpcConfig.t :=
  VpcConfig.mk "eu-west-1" "10.0.0.0/16" "demo" "demo-sg" "demo-igw" None None None.

Definition demo_subnet_init : SubnetConfig.t :=
  SubnetConfig.mk demo_vpc "demo-net" "7" "a" "demo-rt" None None None.

(** What the failing sample clients raise. *)
Definition throttled : error := RemoteAPIError "RequestLimitExceeded".

(** ** Further sample worlds *)

(** [boto3] with no usable profile: every session is refused. *)
Definition aws_no_profile : boto3 :=
  {| Session_client := fun profile_name _ => Error (ProfileError profile_name) |}.

(** A directory holding files the tool did not write: a JSON file and a
    text file, under names with neither prefix. *)
Definition stray_machine : machine :=
  on_disk {[ "notes.json" := Document (JArr [JStr "todo"]);
             "README" := Unparsable "params of the demo account" ]}.

(** A directory whose subnet file was cut short while it was written. *)
Definition truncated_subnet_machine : machine :=
  on_disk {[ "subnet_demo_net_config.json" := Unparsable "{" ]}.

(** A directory holding a VPC document under a name in capitals. *)
Definition capitals_machine : machine :=
  on_disk {[ "VPC_demo_config.json" := Document (JObj (VpcConfig.to_dict demo_vpc)) ]}.

(** A subnet document whose third octet is out of range, as an edited file
    could hold. *)
Definition out_of_range_document : json :=
  JObj (SubnetConfig.to_dict
          (SubnetConfig.mk demo_vpc "demo-net" "300" "a" "demo-rt"
             (Some "subnet-0d4") (Some "rtb-0e5") (Some "rtbassoc-0f6"))).


(** * Properties *)

(** ** Strings *)

Section Strings.

Implicit Types s t n : string.

Lemma length_append s t :
  String.length (s +:+ t) = String.length s + String.length t.
Proof. induction s as [|a s IH]; simpl; [reflexivity | now rewrite IH]. Qed.

(** A common suffix can be cancelled. *)
Lemma append_inv_tail s1 s2 t : s1 +:+ t = s2 +:+ t -> s1 = s2.
Proof.
  revert s2. induction s1 as [|a s1 IH]; intros [|b s2] H.
  - reflexivity.
  - apply (f_equal String.length) in H.
    rewrite (length_append "" t), (length_append (String b s2) t) in H.
    simpl in H. lia.
  - apply (f_equal String.length) in H.
    rewrite (length_append "" t), (length_append (String a s1) t) in H.
    simpl in H. lia.
  - injection H as -> H. f_equal. now apply IH.
Qed.

Lemma append_inv_head s t1 t2 : s +:+ t1 = s +:+ t2 -> t1 = t2.
Proof. induction s as [|a s IH]; simpl; intros H; [assumption|]. injection H. auto. Qed.

Lemma canonical_length n : String.length (canonical n) = String.length n.
Proof.
  unfold canonical. induction n as [|a n IH]; cbn [Py.str_replace String.length];
    [reflexivity | now f_equal].
Qed.

Lemma canonical_get n i :
  String.get i (canonical n) = hyphen_to_underscore <$> String.get i n.
Proof.
  unfold canonical. revert i.
  induction n as [|a n IH]; intros i; cbn [Py.str_replace String.get];
    [reflexivity|].
  destruct i as [|i]; [reflexivity | apply IH].
Qed.

(** No hyphen is left after the substitution. *)
Lemma canonical_no_hyphen n : Py.str_contains hyphen (canonical n) = false.
Proof.
  unfold canonical.
  induction n as [|a n IH]; cbn [Py.str_replace Py.str_contains];
    [reflexivity|].
  rewrite IH, orb_false_r.
  destruct (Ascii.eqb a hyphen) eqn:E; [reflexivity | exact E].
Qed.

(** A name without hyphens is its own canonical form. *)
Lemma canonical_fixed n : Py.str_contains hyphen n = false -> canonical n = n.
Proof.
  unfold canonical.
  induction n as [|a n IH]; cbn [Py.str_replace Py.str_contains];
    [reflexivity|].
  intros [Ha Hn]%orb_false_iff. rewrite Ha. f_equal. now apply IH.
Qed.

Lemma canonical_idempotent n : canonical (canonical n) = canonical n.
Proof. apply canonical_fixed, canonical_no_hyphen. Qed.

Lemma lower_type_tag t : is_type_tag t -> Py.str_lower t = t.
Proof. now intros [-> | ->]. Qed.

(** A file name begins with its type tag, and with no other. *)
Lemma vpc_name_prefix n :
  Py.str_startswith "vpc" (_parse_config_file_name n "vpc") = true.
Proof. reflexivity. Qed.

Lemma subnet_name_prefix n :
  Py.str_startswith "vpc" (_parse_config_file_name n "subnet") = false /\
  Py.str_startswith "subnet" (_parse_config_file_name n "subnet") = true.
Proof. split; reflexivity. Qed.

Lemma file_name_inj t t' n n' :
  is_type_tag t -> is_type_tag t' ->
  _parse_config_file_name n t = _parse_config_file_name n' t' ->
  t = t' /\ canonical n = canonical n'.
Proof.
  unfold _parse_config_file_name.
  intros [-> | ->] [-> | ->] H.
  - split; [reflexivity|].
    apply (append_inv_head "vpc_") in H. now apply append_inv_tail in H.
  - apply (f_equal (String.get 0)) in H. discriminate H.
  - apply (f_equal (String.get 0)) in H. discriminate H.
  - split; [reflexivity|].
    apply (append_inv_head "subnet_") in H. now apply append_inv_tail in H.
Qed.

End Strings.

(** ** The naming function *)

(** C1.  For a type tag [vpc] or [subnet] and any name, the file name is
    the tag, an underscore, the name with every hyphen replaced by an
    underscore (same length, every other character kept), and
    [_config.json].  Two (tag, name) pairs get the same file name exactly
    when the tags are equal and the names have the same canonical form: so
    the function is deterministic, and names whose canonical forms differ
    never share a file name. *)
Theorem parse_config_file_name_spec (t n : string) :
  is_type_tag t ->
  _parse_config_file_name n t = t +:+ "_" +:+ canonical n +:+ "_config.json" /\
  String.length (canonical n) = String.length n /\
  (forall i, String.get i (canonical n) = hyphen_to_underscore <$> String.get i n) /\
  (forall t' n', is_type_tag t' ->
     _parse_config_file_name n t = _parse_config_file_name n' t' <->
     t = t' /\ canonical n = canonical n').
Proof.
  intros Ht. split; [|split; [|split]].
  - unfold _parse_config_file_name. now rewrite lower_type_tag.
  - apply canonical_length.
  - apply canonical_get.
  - intros t' n' Ht'. split.
    + now apply file_name_inj.
    + intros [<- Hn]. unfold _parse_config_file_name. now rewrite Hn.
Qed.

Lemma parse_config_file_name_spec_witness :
  is_type_tag "subnet" /\
  _parse_config_file_name "web-tier-a" "subnet" = "subnet_web_tier_a_config.json" /\
  (_parse_config_file_name "web-tier-a" "subnet" =
     _parse_config_file_name "web_tier-a" "subnet") /\
  (_parse_config_file_name "web-tier-a" "subnet" <>
     _parse_config_file_name "web-tier-b" "subnet") /\
  (_parse_config_file_name "web-tier-a" "subnet" <>
     _parse_config_file_name "web-tier-a" "vpc").
Proof.
  assert (Ht : is_type_tag "subnet") by (right; reflexivity).
  destruct (parse_config_file_name_spec "subnet" "web-tier-a" Ht)
    as (Hform & _ & _ & Hinj).
  split; [exact Ht|]. split; [exact Hform|]. split; [|split].
  - apply (Hinj "subnet" "web_tier-a" Ht). split; reflexivity.
  - intros H. apply (Hinj "subnet" "web-tier-b" Ht) in H as [_ H]. discriminate H.
  - intros H. apply (Hinj "vpc" "web-tier-a" (or_introl eq_refl)) in H as [H _].
    discriminate H.
Defined.

(** The collision the substitution leaves: [my-vpc] and [my_vpc] are
    different names with one file. *)
Example hyphen_underscore_collision :
  "my-vpc" <> "my_vpc" /\
  _parse_config_file_name "my-vpc" "vpc" = _parse_config_file_name "my_vpc" "vpc".
Proof. split; [discriminate | reflexivity]. Qed.

(** ** The store: documents and records *)

(** Case analysis on the fields a decoder reads, one key after the other. *)
Ltac split_fields d :=
  repeat match goal with
    | |- context [dict_get ?k d] =>
        destruct (dict_get k d) as [[ | | | | | ]|];
        cbn [result_bind andb];
        try (discriminate || reflexivity || (intros; discriminate))
    | |- context [octet_in_range ?s] =>
        destruct (octet_in_range s) eqn:?;
        cbn [result_bind andb];
        try (discriminate || reflexivity || (intros; discriminate))
    end.

Section Store.

Lemma vpc_from_config_to_dict (c : VpcConfig.t) :
  VpcConfig.from_config (JObj (VpcConfig.to_dict c)) = Ok c.
Proof. destruct c as [? ? ? ? ? [?|] [?|] [?|]]; reflexivity. Qed.

Lemma subnet_from_config_to_dict (c : SubnetConfig.t) :
  SubnetConfig.valid c ->
  SubnetConfig.from_config (JObj (SubnetConfig.to_dict c)) = Ok c.
Proof.
  unfold SubnetConfig.valid.
  destruct c as [[? ? ? ? ? [?|] [?|] [?|]] ? cs ? ? [?|] [?|] [?|]];
    cbn [SubnetConfig.cidr_substitute]; intros H;
    unfold SubnetConfig.from_config, get_octet; cbn; rewrite H; reflexivity.
Qed.

(** A document of an out-of-range record is refused. *)
Lemma subnet_from_config_out_of_range (c : SubnetConfig.t) :
  octet_in_range (SubnetConfig.cidr_substitute c) = false ->
  SubnetConfig.from_config (JObj (SubnetConfig.to_dict c))
    = Error MalformedConfigError.
Proof.
  destruct c as [[? ? ? ? ? [?|] [?|] [?|]] ? cs ? ? [?|] [?|] [?|]];
    cbn [SubnetConfig.cidr_substitute]; intros H;
    unfold SubnetConfig.from_config, get_octet; cbn; rewrite H; reflexivity.
Qed.

(** What is written has the shape that is expected back. *)
Lemma vpc_to_dict_shape (c : VpcConfig.t) :
  vpc_shape (JObj (VpcConfig.to_dict c)) = true.
Proof. destruct c as [? ? ? ? ? [?|] [?|] [?|]]; reflexivity. Qed.

Lemma subnet_to_dict_shape (c : SubnetConfig.t) :
  SubnetConfig.valid c ->
  subnet_shape (JObj (SubnetConfig.to_dict c)) = true.
Proof.
  unfold SubnetConfig.valid.
  destruct c as [[? ? ? ? ? [?|] [?|] [?|]] ? cs ? ? [?|] [?|] [?|]];
    cbn [SubnetConfig.cidr_substitute]; intros H;
    unfold subnet_shape, holds_octet; cbn; exact H.
Qed.

(** The decoders accept exactly the documents of the expected shape. *)
Lemma vpc_from_config_malformed (j : json) :
  vpc_shape j = false -> VpcConfig.from_config j = Error MalformedConfigError.
Proof.
  destruct j as [ | | | | |d]; try reflexivity.
  unfold vpc_shape, has_shape, VpcConfig.from_config, get_str, get_id,
    holds_str, holds_id.
  cbn [forallb VpcConfig.str_keys VpcConfig.id_keys].
  split_fields d.
Qed.

Lemma vpc_from_config_well_formed (j : json) :
  vpc_shape j = true -> exists c, VpcConfig.from_config j = Ok c.
Proof.
  destruct j as [ | | | | |d]; try discriminate.
  unfold vpc_shape, has_shape, VpcConfig.from_config, get_str, get_id,
    holds_str, holds_id.
  cbn [forallb VpcConfig.str_keys VpcConfig.id_keys].
  split_fields d; intros _; eexists; reflexivity.
Qed.

Lemma subnet_from_config_malformed (j : json) :
  subnet_shape j = false -> SubnetConfig.from_config j = Error MalformedConfigError.
Proof.
  destruct j as [ | | | | |d]; try reflexivity.
  unfold subnet_shape, has_shape, SubnetConfig.from_config,
    VpcConfig.from_config, get_str, get_id, get_octet, holds_str, holds_id,
    holds_octet.
  cbn [forallb SubnetConfig.str_keys SubnetConfig.id_keys
         VpcConfig.str_keys VpcConfig.id_keys app].
  split_fields d.
Qed.

Lemma subnet_from_config_well_formed (j : json) :
  subnet_shape j = true -> exists c, SubnetConfig.from_config j = Ok c.
Proof.
  destruct j as [ | | | | |d]; try discriminate.
  unfold subnet_shape, has_shape, SubnetConfig.from_config,
    VpcConfig.from_config, get_str, get_id, get_octet, holds_str, holds_id,
    holds_octet.
  cbn [forallb SubnetConfig.str_keys SubnetConfig.id_keys
         VpcConfig.str_keys VpcConfig.id_keys app].
  split_fields d; intros _; eexists; reflexivity.
Qed.

(** Every record the constructor builds, and every record the decoder
    reads, has its third octet in range. *)
Lemma subnet_init_valid (v : VpcConfig.t) (subnet_name cidr_substitute az rt : string)
    (c : SubnetConfig.t) :
  SubnetConfig.init v subnet_name cidr_substitute az rt = Ok c ->
  SubnetConfig.valid c /\
  c = SubnetConfig.mk v subnet_name cidr_substitute az rt None None None.
Proof.
  unfold SubnetConfig.init, SubnetConfig.valid.
  destruct (octet_in_range cidr_substitute) eqn:E; [|discriminate].
  intros [= <-]. split; [exact E | reflexivity].
Qed.

Lemma subnet_init_out_of_range (v : VpcConfig.t)
    (subnet_name cidr_substitute az rt : string) :
  octet_in_range cidr_substitute = false ->
  SubnetConfig.init v subnet_name cidr_substitute az rt = Error ValueError.
Proof. intros H. unfold SubnetConfig.init. now rewrite H. Qed.

Lemma subnet_from_config_valid (j : json) (c : SubnetConfig.t) :
  SubnetConfig.from_config j = Ok c -> SubnetConfig.valid c.
Proof.
  destruct j as [ | | | | |d]; try discriminate.
  unfold SubnetConfig.from_config, VpcConfig.from_config, get_str, get_id,
    get_octet.
  split_fields d; intros [= <-]; unfold SubnetConfig.valid;
    cbn [SubnetConfig.cidr_substitute]; assumption.
Qed.

End Store.

(** ** The loader *)

Section Loader.

Implicit Types (m : machine) (name : string).

(** What [_load_config] does, by the state of the file. *)
Lemma load_config_missing name m :
  files m !! name = None -> _load_config name m = (Error (no_such_file m name), m).
Proof. intros H. unfold _load_config, bind, open_read. now rewrite H. Qed.

Lemma load_config_not_found name m :
  files m !! name = None -> refused m name = None ->
  _load_config name m = (Error NotFoundError, m).
Proof.
  intros H R. rewrite (load_config_missing name m H).
  unfold no_such_file. now rewrite R.
Qed.

Lemma load_config_refused name m e :
  files m !! name = None -> refused m name = Some e ->
  _load_config name m = (Error e, m).
Proof.
  intros H R. rewrite (load_config_missing name m H).
  unfold no_such_file. now rewrite R.
Qed.

Lemma load_config_unparsable name m raw :
  files m !! name = Some (Unparsable raw) ->
  _load_config name m = (Error MalformedConfigError, m).
Proof. intros H. unfold _load_config, bind, open_read. now rewrite H. Qed.

Lemma load_config_vpc name m j :
  files m !! name = Some (Document j) ->
  Py.str_startswith "vpc" name = true ->
  _load_config name m =
    match VpcConfig.from_config j with
    | Ok c => (Ok (Some (IsVpc c)), m)
    | Error e => (Error e, m)
    end.
Proof.
  intros H Hp. unfold _load_config, bind, open_read, lift, ret.
  rewrite H. cbn [json_load]. rewrite Hp.
  now destruct (VpcConfig.from_config j).
Qed.

Lemma load_config_subnet name m j :
  files m !! name = Some (Document j) ->
  Py.str_startswith "vpc" name = false ->
  Py.str_startswith "subnet" name = true ->
  _load_config name m =
    match SubnetConfig.from_config j with
    | Ok c => (Ok (Some (IsSubnet c)), m)
    | Error e => (Error e, m)
    end.
Proof.
  intros H Hv Hs. unfold _load_config, bind, open_read, lift, ret.
  rewrite H. cbn [json_load]. rewrite Hv, Hs.
  now destruct (SubnetConfig.from_config j).
Qed.

(** A file name with neither prefix: the document is decoded and
    dropped, and the caller gets [None]. *)
Lemma load_config_other name m j :
  files m !! name = Some (Document j) ->
  Py.str_startswith "vpc" name = false ->
  Py.str_startswith "subnet" name = false ->
  _load_config name m = (Ok None, m).
Proof.
  intros H Hv Hs. unfold _load_config, bind, open_read, lift, ret.
  rewrite H. cbn [json_load]. now rewrite Hv, Hs.
Qed.

(** Loading reads; it leaves the machine as it was. *)
Lemma load_config_machine name m : after (_load_config name) m = m.
Proof.
  unfold after, _load_config, bind, open_read, lift, ret.
  destruct (files m !! name) as [[j|raw]|]; cbn [json_load]; try reflexivity.
  destruct (Py.str_startswith "vpc" name).
  - now destruct (VpcConfig.from_config j).
  - destruct (Py.str_startswith "subnet" name); [|reflexivity].
    now destruct (SubnetConfig.from_config j).
Qed.

Lemma load_config_eq name m :
  _load_config name m = (outcome (_load_config name) m, m).
Proof.
  rewrite <- (load_config_machine name m) at 3.
  unfold outcome, after. now destruct (_load_config name m).
Qed.

(** Under a VPC file name the loader gives a VPC record or raises. *)
Lemma load_config_vpc_kind vpc_name m :
  (exists e, outcome (_load_config (_parse_config_file_name vpc_name "vpc")) m = Error e) \/
  (exists c, outcome (_load_config (_parse_config_file_name vpc_name "vpc")) m
               = Ok (Some (IsVpc c))).
Proof.
  set (name := _parse_config_file_name vpc_name "vpc").
  destruct (files m !! name) as [[j|raw]|] eqn:E.
  - unfold outcome. rewrite (load_config_vpc name m j E (vpc_name_prefix vpc_name)).
    destruct (VpcConfig.from_config j); [right | left]; eexists; reflexivity.
  - left. unfold outcome. rewrite (load_config_unparsable name m raw E). now eexists.
  - left. unfold outcome. rewrite (load_config_missing name m E). now eexists.
Qed.

Lemma load_config_subnet_kind subnet_name m :
  (exists e, outcome (_load_config (_parse_config_file_name subnet_name "subnet")) m
               = Error e) \/
  (exists c, outcome (_load_config (_parse_config_file_name subnet_name "subnet")) m
               = Ok (Some (IsSubnet c))).
Proof.
  set (name := _parse_config_file_name subnet_name "subnet").
  destruct (subnet_name_prefix subnet_name) as [Hv Hs].
  destruct (files m !! name) as [[j|raw]|] eqn:E.
  - unfold outcome. rewrite (load_config_subnet name m j E Hv Hs).
    destruct (SubnetConfig.from_config j); [right | left]; eexists; reflexivity.
  - left. unfold outcome. rewrite (load_config_unparsable name m raw E). now eexists.
  - left. unfold outcome. rewrite (load_config_missing name m E). now eexists.
Qed.

(** A subnet record that was loaded has its third octet in range. *)
Lemma load_config_subnet_valid name m (c : SubnetConfig.t) :
  outcome (_load_config name) m = Ok (Some (IsSubnet c)) -> SubnetConfig.valid c.
Proof.
  unfold outcome, _load_config, bind, open_read, lift, ret.
  destruct (files m !! name) as [[j|raw]|]; cbn [json_load fst]; try discriminate.
  destruct (Py.str_startswith "vpc" name).
  - destruct (VpcConfig.from_config j); discriminate.
  - destruct (Py.str_startswith "subnet" name); [|discriminate].
    destruct (SubnetConfig.from_config j) as [c'|] eqn:E; [|discriminate].
    cbn [fst]. intros [= <-]. exact (subnet_from_config_valid j c' E).
Qed.

End Loader.

(** C2.  Writing a record to the file name computed from its
    name succeeds whenever the file system takes that name, and loading the
    file name then gives back the record itself, field for field; this for
    every VPC record and for every subnet record of the data model (third
    octet in range), fully populated or not.  When the file system does
    not take the name, the write raises its error and writes nothing.  The
    write is [json.dump] of the record's [__dict__]; the read is
    [_load_config]. *)
Theorem store_round_trip :
  (forall (c : VpcConfig.t) (m : machine),
     let name := _parse_config_file_name (VpcConfig.vpc_name c) "vpc" in
     let write := json_dump name (VpcConfig.to_dict c) in
     refused m name = None ->
     outcome write m = Ok tt /\
     _load_config name (after write m) = (Ok (Some (IsVpc c)), after write m)) /\
  (forall (c : SubnetConfig.t) (m : machine),
     let name := _parse_config_file_name (SubnetConfig.subnet_name c) "subnet" in
     let write := json_dump name (SubnetConfig.to_dict c) in
     SubnetConfig.valid c ->
     refused m name = None ->
     outcome write m = Ok tt /\
     _load_config name (after write m) = (Ok (Some (IsSubnet c)), after write m)) /\
  (forall (name : string) (d : list (string * json)) (m : machine) (e : error),
     refused m name = Some e -> json_dump name d m = (Error e, m)).
Proof.
  split; [|split].
  - intros c m name write R.
    assert (W : write m =
                  (Ok tt, {| files := <[name := Document (JObj (VpcConfig.to_dict c))]>
                                        (files m);
                             refused := refused m; calls := calls m |})).
    { unfold write, json_dump. now rewrite R. }
    unfold outcome, after. rewrite W. cbn [fst snd]. split; [reflexivity|].
    rewrite (load_config_vpc name _ (JObj (VpcConfig.to_dict c))).
    + now rewrite vpc_from_config_to_dict.
    + apply lookup_insert_eq.
    + apply vpc_name_prefix.
  - intros c m name write Hc R.
    assert (W : write m =
                  (Ok tt, {| files := <[name := Document (JObj (SubnetConfig.to_dict c))]>
                                        (files m);
                             refused := refused m; calls := calls m |})).
    { unfold write, json_dump. now rewrite R. }
    unfold outcome, after. rewrite W. cbn [fst snd]. split; [reflexivity|].
    destruct (subnet_name_prefix (SubnetConfig.subnet_name c)) as [Hv Hs].
    rewrite (load_config_subnet name _ (JObj (SubnetConfig.to_dict c))).
    + now rewrite (subnet_from_config_to_dict c Hc).
    + apply lookup_insert_eq.
    + exact Hv.
    + exact Hs.
  - intros name d m e R. unfold json_dump. now rewrite R.
Qed.

Lemma store_round_trip_witness :
  (refused empty_machine (_parse_config_file_name (VpcConfig.vpc_name demo_vpc) "vpc")
     = None /\
   outcome (json_dump "vpc_demo_config.json" (VpcConfig.to_dict demo_vpc))
     empty_machine = Ok tt /\
   _load_config "vpc_demo_config.json"
     (after (json_dump "vpc_demo_config.json" (VpcConfig.to_dict demo_vpc))
        empty_machine)
   = (Ok (Some (IsVpc demo_vpc)),
      after (json_dump "vpc_demo_config.json" (VpcConfig.to_dict demo_vpc))
        empty_machine)) /\
  (SubnetConfig.valid demo_subnet /\
   outcome (json_dump "subnet_demo_net_config.json" (SubnetConfig.to_dict demo_subnet))
     empty_machine = Ok tt /\
   _load_config "subnet_demo_net_config.json"
     (after (json_dump "subnet_demo_net_config.json" (SubnetConfig.to_dict demo_subnet))
        empty_machine)
   = (Ok (Some (IsSubnet demo_subnet)),
      after (json_dump "subnet_demo_net_config.json" (SubnetConfig.to_dict demo_subnet))
        empty_machine)) /\
  (refused empty_machine (_parse_config_file_name long_name "vpc")
     = Some NameTooLongError /\
   json_dump (_parse_config_file_name long_name "vpc") (VpcConfig.to_dict demo_vpc)
     empty_machine = (Error NameTooLongError, empty_machine)).
Proof.
  destruct store_round_trip as (Hv & Hs & Hr).
  split; [|split].
  - split; [reflexivity|]. exact (Hv demo_vpc empty_machine eq_refl).
  - split; [reflexivity|]. exact (Hs demo_subnet empty_machine eq_refl eq_refl).
  - assert (R : refused empty_machine (_parse_config_file_name long_name "vpc")
                = Some NameTooLongError) by (vm_compute; reflexivity).
    split; [exact R|]. exact (Hr _ _ _ _ R).
Defined.

(** C2 does not hold for every fully populated record: a VPC record whose
    name leads through a subdirectory cannot be written to its computed
    path in a directory without subdirectories, and reading the path back
    gives no record. *)
Lemma store_round_trip_nested_name :
  VpcConfig.fully_populated nested_vpc /\
  outcome (json_dump (_parse_config_file_name (VpcConfig.vpc_name nested_vpc) "vpc")
             (VpcConfig.to_dict nested_vpc)) empty_machine = Error NotFoundError /\
  _load_config (_parse_config_file_name (VpcConfig.vpc_name nested_vpc) "vpc")
    (after (json_dump (_parse_config_file_name (VpcConfig.vpc_name nested_vpc) "vpc")
              (VpcConfig.to_dict nested_vpc)) empty_machine)
  = (Error NotFoundError, empty_machine) /\
  ~ (outcome (json_dump (_parse_config_file_name (VpcConfig.vpc_name nested_vpc) "vpc")
                (VpcConfig.to_dict nested_vpc)) empty_machine = Ok tt /\
     _load_config (_parse_config_file_name (VpcConfig.vpc_name nested_vpc) "vpc")
       (after (json_dump (_parse_config_file_name (VpcConfig.vpc_name nested_vpc) "vpc")
                 (VpcConfig.to_dict nested_vpc)) empty_machine)
     = (Ok (Some (IsVpc nested_vpc)),
        after (json_dump (_parse_config_file_name (VpcConfig.vpc_name nested_vpc) "vpc")
                 (VpcConfig.to_dict nested_vpc)) empty_machine)).
Proof.
  split; [repeat split; eexists; reflexivity|].
  split; [reflexivity|]. split; [reflexivity|].
  intros [H _]. discriminate H.
Qed.

(** C3.  For a file name the file system takes, loading fails
    with [NotFoundError] when the directory has no such file; for a name it
    does not take, loading fails with the error of the file system.  For
    every file name, loading fails with [MalformedConfigError] when the file
    is there but its text is not JSON, or is JSON that does not have the
    shape of the record its prefix announces ([vpc]: a VPC record; otherwise
    [subnet]: a subnet record).  In each case the machine is left as it
    was. *)
Theorem load_config_failures (name : string) (m : machine) :
  (files m !! name = None -> refused m name = None ->
     _load_config name m = (Error NotFoundError, m)) /\
  (forall e, files m !! name = None -> refused m name = Some e ->
     _load_config name m = (Error e, m)) /\
  (forall raw, files m !! name = Some (Unparsable raw) ->
     _load_config name m = (Error MalformedConfigError, m)) /\
  (forall j, files m !! name = Some (Document j) ->
     Py.str_startswith "vpc" name = true -> vpc_shape j = false ->
     _load_config name m = (Error MalformedConfigError, m)) /\
  (forall j, files m !! name = Some (Document j) ->
     Py.str_startswith "vpc" name = false ->
     Py.str_startswith "subnet" name = true -> subnet_shape j = false ->
     _load_config name m = (Error MalformedConfigError, m)).
Proof.
  split; [|split; [|split; [|split]]].
  - apply load_config_not_found.
  - intros e. apply load_config_refused.
  - intros raw. apply load_config_unparsable.
  - intros j H Hp Hs. rewrite (load_config_vpc name m j H Hp).
    now rewrite (vpc_from_config_malformed j Hs).
  - intros j H Hv Hp Hs. rewrite (load_config_subnet name m j H Hv Hp).
    now rewrite (subnet_from_config_malformed j Hs).
Qed.

(** C3 does not hold for every file name: with no file under them, the
    empty name and an over-long name make the load fail with the error of
    the file system, not with [NotFoundError]. *)
Lemma load_config_unusable_names :
  (files empty_machine !! "" = None /\
   _load_config "" empty_machine = (Error IsADirectoryError, empty_machine) /\
   _load_config "" empty_machine <> (Error NotFoundError, empty_machine)) /\
  (files empty_machine !! _parse_config_file_name long_name "vpc" = None /\
   _load_config (_parse_config_file_name long_name "vpc") empty_machine
     = (Error NameTooLongError, empty_machine) /\
   _load_config (_parse_config_file_name long_name "vpc") empty_machine
     <> (Error NotFoundError, empty_machine)).
Proof.
  assert (E1 : _load_config "" empty_machine = (Error IsADirectoryError, empty_machine))
    by (vm_compute; reflexivity).
  assert (E2 : _load_config (_parse_config_file_name long_name "vpc") empty_machine
               = (Error NameTooLongError, empty_machine)) by (vm_compute; reflexivity).
  split; (split; [vm_compute; reflexivity|split]); try assumption.
  - rewrite E1. discriminate.
  - rewrite E2. discriminate.
Qed.
(** ** Runs of the commands *)

(** Unfolding one command step. *)
Ltac run_steps :=
  cbv [bind lift ret raise the_vpc the_subnet json_dump os_remove
       commands.create_vpc commands.create_vpc_security_group
       commands.create_internet_gateway commands.delete_internet_gateway
       commands.delete_security_group commands.delete_vpc
       commands.create_subnet commands.create_route_table
       commands.create_subnet_route_table_association
       commands.delete_subnet_route_table_association
       commands.delete_route_table commands.delete_subnet commands.request];
  cbn [files refused calls fst snd].

Section Observing.

Context {A : Type}.
Implicit Types (c : cmd A) (m : machine).

Lemma observed_same c m r :
  c m = (r, m) -> outcome c m = r /\ after c m = m /\ issued c m = [].
Proof.
  intros H. unfold issued, outcome, after. rewrite H. cbn [fst snd].
  repeat split. apply drop_all.
Qed.

Lemma observed_stop c m r fs sent :
  c m = (r, {| files := fs; refused := refused m; calls := calls m ++ sent |}) ->
  outcome c m = r /\ files (after c m) = fs /\ issued c m = sent.
Proof.
  intros H. unfold issued, outcome, after. rewrite H. cbn [fst snd files calls].
  repeat split. apply drop_app_length.
Qed.

(** Two commands that run alike from [m] are observed alike from [m]. *)
Lemma observed_ext c c' m :
  c m = c' m ->
  outcome c m = outcome c' m /\ after c m = after c' m /\ issued c m = issued c' m.
Proof. intros H. unfold issued, outcome, after. now rewrite H. Qed.

End Observing.

Section Chain.

Variables (ec2 : ec2_client) (k1 : remote_call) (k2 : string -> remote_call)
  (k3 : string -> string -> remote_call) (name : string)
  (update : string -> string -> string -> gmap string content -> gmap string content)
  (m : machine).

Let run : cmd unit := chain ec2 k1 k2 k3 name update.

Let stop (sent : list remote_call) : machine :=
  {| files := files m; refused := refused m; calls := calls m ++ sent |}.

(** The five ways a chain can go. *)
Lemma chain_cases :
  (exists e, ec2 (calls m) k1 = Error e /\ run m = (Error e, stop [k1])) \/
  (exists i1 e, ec2 (calls m) k1 = Ok i1 /\
     ec2 (calls m ++ [k1]) (k2 i1) = Error e /\
     run m = (Error e, stop [k1; k2 i1])) \/
  (exists i1 i2 e, ec2 (calls m) k1 = Ok i1 /\
     ec2 (calls m ++ [k1]) (k2 i1) = Ok i2 /\
     ec2 (calls m ++ [k1; k2 i1]) (k3 i1 i2) = Error e /\
     run m = (Error e, stop [k1; k2 i1; k3 i1 i2])) \/
  (exists i1 i2 i3 e, ec2 (calls m) k1 = Ok i1 /\
     ec2 (calls m ++ [k1]) (k2 i1) = Ok i2 /\
     ec2 (calls m ++ [k1; k2 i1]) (k3 i1 i2) = Ok i3 /\
     refused m name = Some e /\
     run m = (Error e, stop [k1; k2 i1; k3 i1 i2])) \/
  (exists i1 i2 i3, ec2 (calls m) k1 = Ok i1 /\
     ec2 (calls m ++ [k1]) (k2 i1) = Ok i2 /\
     ec2 (calls m ++ [k1; k2 i1]) (k3 i1 i2) = Ok i3 /\
     refused m name = None /\
     run m = (Ok tt, {| files := update i1 i2 i3 (files m);
                        refused := refused m;
                        calls := calls m ++ [k1; k2 i1; k3 i1 i2] |})).
Proof.
  unfold run, stop, chain.
  destruct (ec2 (calls m) k1) as [i1|e1] eqn:E1; [|left; eauto].
  destruct (ec2 (calls m ++ [k1]) (k2 i1)) as [i2|e2] eqn:E2;
    [|right; left; eauto].
  destruct (ec2 (calls m ++ [k1; k2 i1]) (k3 i1 i2)) as [i3|e3] eqn:E3;
    [|right; right; left; eauto 7].
  destruct (refused m name) as [e|] eqn:R.
  - right; right; right; left. exists i1, i2, i3, e.
    rewrite ?E2, ?E3, ?R. auto 10.
  - right; right; right; right. exists i1, i2, i3.
    rewrite ?E2, ?E3, ?R. auto 10.
Qed.

(** Case analysis on a chain, each case with what was observed. *)
Ltac chain_run H :=
  destruct chain_cases as [(e1 & H1 & H)|[(i1 & e2 & H1 & H2 & H)|
    [(i1 & i2 & e3 & H1 & H2 & H3 & H)|[(i1 & i2 & i3 & e4 & H1 & H2 & H3 & HR & H)|
      (i1 & i2 & i3 & H1 & H2 & H3 & HR & H)]]]];
  unfold stop in H.

Lemma chain_error_files e :
  outcome run m = Error e -> files (after run m) = files m.
Proof.
  chain_run H; apply observed_stop in H as (Ho & Hf & _); rewrite Ho, Hf;
    [reflexivity .. | discriminate].
Qed.

Lemma chain_ok :
  outcome run m = Ok tt ->
  exists i1 i2 i3,
    ec2 (calls m) k1 = Ok i1 /\
    ec2 (calls m ++ [k1]) (k2 i1) = Ok i2 /\
    ec2 (calls m ++ [k1; k2 i1]) (k3 i1 i2) = Ok i3 /\
    issued run m = [k1; k2 i1; k3 i1 i2] /\
    files (after run m) = update i1 i2 i3 (files m).
Proof.
  chain_run H; apply observed_stop in H as (Ho & Hf & Hi); rewrite Ho;
    try discriminate.
  intros _. exists i1, i2, i3. auto.
Qed.

(** A chain that succeeded changed a file under a name the file system
    takes. *)
Lemma chain_ok_name : outcome run m = Ok tt -> refused m name = None.
Proof.
  chain_run H; apply observed_stop in H as (Ho & _ & _); rewrite Ho;
    try discriminate.
  intros _. exact HR.
Qed.

(** The calls issued are the calls of the chain, up to the first that
    raised. *)
Lemma chain_first : issued run m !! 0 = Some k1.
Proof.
  chain_run H; apply observed_stop in H as (_ & _ & ->); reflexivity.
Qed.

Lemma chain_second call :
  issued run m !! 1 = Some call ->
  exists i1, ec2 (calls m) k1 = Ok i1 /\ call = k2 i1.
Proof.
  chain_run H; apply observed_stop in H as (_ & _ & ->); cbn; intros [= <-];
    eauto.
Qed.

Lemma chain_third call :
  issued run m !! 2 = Some call ->
  exists i1 i2, ec2 (calls m) k1 = Ok i1 /\
    ec2 (calls m ++ [k1]) (k2 i1) = Ok i2 /\ call = k3 i1 i2.
Proof.
  chain_run H; apply observed_stop in H as (_ & _ & ->); cbn; intros [= <-];
    eauto.
Qed.

(** A chain leaves the file system what it is. *)
Lemma chain_refused : refused (after run m) = refused m.
Proof.
  chain_run H; unfold after; rewrite H; reflexivity.
Qed.

(** A chain whose last step adds no file but the one it names keeps a
    consistent machine consistent. *)
Lemma chain_consistent :
  (forall i1 i2 i3 fs other,
     is_Some (update i1 i2 i3 fs !! other) -> other = name \/ is_Some (fs !! other)) ->
  consistent m -> consistent (after run m).
Proof.
  intros Hupd Hc other.
  chain_run H; unfold after; rewrite H; cbn [snd files refused]; try apply Hc.
  intros [-> | Hs]%Hupd; [exact HR | now apply Hc].
Qed.

(** Conversely, a request that returned is followed by the next one, made
    with what it returned. *)
Lemma chain_second_sent j1 :
  ec2 (calls m) k1 = Ok j1 -> issued run m !! 1 = Some (k2 j1).
Proof.
  intros E.
  chain_run H; apply observed_stop in H as (_ & _ & ->); rewrite E in H1;
    try discriminate H1; injection H1 as <-; reflexivity.
Qed.

Lemma chain_third_sent j1 j2 :
  ec2 (calls m) k1 = Ok j1 -> ec2 (calls m ++ [k1]) (k2 j1) = Ok j2 ->
  issued run m !! 2 = Some (k3 j1 j2).
Proof.
  intros E1 E2.
  chain_run H; apply observed_stop in H as (_ & _ & ->); rewrite E1 in H1;
    try discriminate H1; injection H1 as <-; rewrite E2 in H2;
    try discriminate H2; injection H2 as <-; reflexivity.
Qed.

Lemma chain_length : length (issued run m) <= 3.
Proof.
  chain_run H; apply observed_stop in H as (_ & _ & ->); cbn; lia.
Qed.

Lemma chain_prefix (sent : list remote_call) :
  (forall i1 i2, [k1; k2 i1; k3 i1 i2] = sent) -> issued run m `prefix_of` sent.
Proof.
  intros Hs.
  chain_run H; apply observed_stop in H as (_ & _ & ->).
  - rewrite <- (Hs "" ""). now exists [k2 ""; k3 "" ""].
  - rewrite <- (Hs i1 ""). now exists [k3 i1 ""].
  - rewrite <- (Hs i1 i2). now exists [].
  - rewrite <- (Hs i1 i2). now exists [].
  - rewrite <- (Hs i1 i2). now exists [].
Qed.

(** A request that raised is the last one issued; its error is the
    outcome, and the directory is as it was. *)
Lemma chain_raised k e :
  raised_at ec2 (calls m) (issued run m) k e ->
  outcome run m = Error e /\ length (issued run m) = S k /\
  files (after run m) = files m.
Proof.
  unfold raised_at.
  chain_run H; apply observed_stop in H as (-> & -> & ->);
    intros (call & Hk & He);
    destruct k as [|[|[|k]]]; cbn in Hk; try discriminate Hk;
    injection Hk as <-; cbn [take] in He; rewrite ?app_nil_r in He;
    try congruence; repeat split; congruence.
Qed.

Lemma chain_ok_all_returned :
  outcome run m = Ok tt ->
  length (issued run m) = 3 /\ all_returned ec2 (calls m) (issued run m).
Proof.
  intros (i1 & i2 & i3 & H1 & H2 & H3 & -> & _)%chain_ok.
  split; [reflexivity|]. intros k call Hk.
  destruct k as [|[|[|k]]]; cbn in Hk; try discriminate Hk;
    injection Hk as <-; cbn [take]; rewrite ?app_nil_r; eauto.
Qed.

(** A chain leaves alone every file its last step leaves alone. *)
Lemma chain_frame (other : string) :
  (forall i1 i2 i3 fs, update i1 i2 i3 fs !! other = fs !! other) ->
  files (after run m) !! other = files m !! other.
Proof.
  intros Hu.
  chain_run H; apply observed_stop in H as (_ & -> & _); auto.
Qed.

(** All requests of a chain are of one kind when its three steps are. *)
Lemma chain_actions (a : action) :
  action_of k1 = a -> (forall i1, action_of (k2 i1) = a) ->
  (forall i1 i2, action_of (k3 i1 i2) = a) ->
  Forall (fun k => action_of k = a) (issued run m).
Proof.
  intros A1 A2 A3.
  chain_run H; apply observed_stop in H as (_ & _ & ->); repeat constructor; auto.
Qed.

(** The requests of a chain depend on the trace alone; its outcome depends
    besides on whether the file system takes the name. *)
Lemma chain_same_trace (m' : machine) :
  calls m' = calls m ->
  issued (chain ec2 k1 k2 k3 name update) m' = issued run m /\
  (refused m' name = refused m name ->
   outcome (chain ec2 k1 k2 k3 name update) m' = outcome run m).
Proof.
  intros Hc. unfold run, outcome, issued, after, chain. rewrite Hc.
  destruct (ec2 (calls m) k1) as [i1|]; cbn [fst snd calls];
    [|split; [now rewrite !drop_app_length | reflexivity]].
  destruct (ec2 (calls m ++ [k1]) (k2 i1)) as [i2|]; cbn [fst snd calls];
    [|split; [now rewrite !drop_app_length | reflexivity]].
  destruct (ec2 (calls m ++ [k1; k2 i1]) (k3 i1 i2)); cbn [fst snd calls];
    [|split; [now rewrite !drop_app_length | reflexivity]].
  split.
  - destruct (refused m' name), (refused m name); cbn [fst snd calls];
      now rewrite !drop_app_length.
  - intros ->. now destruct (refused m name).
Qed.

End Chain.

Section Runs.

Variable aws : boto3.
Implicit Types (m : machine) (e : error).

(** A file that loads is a file that is there. *)
Lemma load_config_ok_file name m loaded :
  outcome (_load_config name) m = Ok loaded -> is_Some (files m !! name).
Proof.
  destruct (files m !! name) eqn:E; [now eexists|].
  unfold outcome. now rewrite (load_config_missing name m E).
Qed.

(** *** [remove_vpc] *)

Lemma remove_vpc_load_error profile_name vpc_name m e :
  outcome (_load_config (_parse_config_file_name vpc_name "vpc")) m = Error e ->
  remove_vpc aws profile_name vpc_name m = (Error e, m).
Proof.
  intros H. unfold remove_vpc, bind at 1.
  now rewrite load_config_eq, H.
Qed.

Lemma remove_vpc_loaded profile_name vpc_name m c :
  let name := _parse_config_file_name vpc_name "vpc" in
  outcome (_load_config name) m = Ok (Some (IsVpc c)) ->
  remove_vpc aws profile_name vpc_name m =
    match Session_client aws profile_name (VpcConfig.region c) with
    | Error e => (Error e, m)
    | Ok ec2 =>
        chain ec2 (Call_delete_internet_gateway c)
          (fun _ => Call_delete_security_group c)
          (fun _ _ => Call_delete_vpc c)
          name (fun _ _ _ => delete name) m
    end.
Proof.
  intros name H. destruct (load_config_ok_file name m _ H) as [x Hx].
  unfold remove_vpc, bind at 1. fold name.
  rewrite load_config_eq, H. unfold chain. run_steps.
  destruct (Session_client aws profile_name (VpcConfig.region c)) as [ec2|e];
    [|reflexivity].
  rewrite <- !app_assoc. cbn [app].
  repeat (match goal with
          | |- context [match ec2 ?h ?k with _ => _ end] => destruct (ec2 h k)
          end; [|reflexivity]).
  destruct (refused m name); [reflexivity|]. now rewrite Hx.
Qed.

(** *** [remove_subnet] *)

Lemma remove_subnet_load_error profile_name subnet_name m e :
  outcome (_load_config (_parse_config_file_name subnet_name "subnet")) m = Error e ->
  remove_subnet aws profile_name subnet_name m = (Error e, m).
Proof.
  intros H. unfold remove_subnet, bind at 1.
  now rewrite load_config_eq, H.
Qed.

Lemma remove_subnet_loaded profile_name subnet_name m c :
  let name := _parse_config_file_name subnet_name "subnet" in
  outcome (_load_config name) m = Ok (Some (IsSubnet c)) ->
  remove_subnet aws profile_name subnet_name m =
    match Session_client aws profile_name (SubnetConfig.region c) with
    | Error e => (Error e, m)
    | Ok ec2 =>
        chain ec2 (Call_delete_subnet_route_table_association c)
          (fun _ => Call_delete_route_table c)
          (fun _ _ => Call_delete_subnet c)
          name (fun _ _ _ => delete name) m
    end.
Proof.
  intros name H. destruct (load_config_ok_file name m _ H) as [x Hx].
  unfold remove_subnet, bind at 1. fold name.
  rewrite load_config_eq, H. unfold chain. run_steps.
  destruct (Session_client aws profile_name (SubnetConfig.region c)) as [ec2|e];
    [|reflexivity].
  rewrite <- !app_assoc. cbn [app].
  repeat (match goal with
          | |- context [match ec2 ?h ?k with _ => _ end] => destruct (ec2 h k)
          end; [|reflexivity]).
  destruct (refused m name); [reflexivity|]. now rewrite Hx.
Qed.

(** *** [configure_vpc] *)

Lemma configure_vpc_run profile_name region vpc_cidr vpc_name sg_name igw_name m :
  let c0 := VpcConfig.mk region vpc_cidr vpc_name sg_name igw_name None None None in
  configure_vpc aws profile_name region vpc_cidr vpc_name sg_name igw_name m =
    match Session_client aws profile_name region with
    | Error e => (Error e, m)
    | Ok ec2 =>
        chain ec2 (Call_create_vpc c0)
          (fun i1 =>
             Call_create_vpc_security_group
               (VpcConfig.mk region vpc_cidr vpc_name sg_name igw_name
                  (Some i1) None None))
          (fun i1 i2 =>
             Call_create_internet_gateway
               (VpcConfig.mk region vpc_cidr vpc_name sg_name igw_name
                  (Some i1) (Some i2) None))
          (_parse_config_file_name vpc_name "vpc")
          (fun i1 i2 i3 =>
             insert (_parse_config_file_name vpc_name "vpc")
               (Document (JObj (VpcConfig.to_dict
                  (VpcConfig.mk region vpc_cidr vpc_name sg_name igw_name
                     (Some i1) (Some i2) (Some i3)))))) m
    end.
Proof.
  intros c0. unfold configure_vpc, chain. run_steps.
  change (VpcConfig.region (VpcConfig.init region vpc_cidr vpc_name sg_name igw_name))
    with region.
  destruct (Session_client aws profile_name region) as [ec2|e]; [|reflexivity].
  change (VpcConfig.init region vpc_cidr vpc_name sg_name igw_name) with c0.
  destruct (ec2 (calls m) (Call_create_vpc c0)) as [i1|]; [|reflexivity].
  change (VpcConfig.set_vpc_id c0 i1)
    with (VpcConfig.mk region vpc_cidr vpc_name sg_name igw_name (Some i1) None None).
  destruct (ec2 _ (Call_create_vpc_security_group _)) as [i2|];
    rewrite <- ?app_assoc; cbn [app]; [|reflexivity].
  change (VpcConfig.set_sg_id
            (VpcConfig.mk region vpc_cidr vpc_name sg_name igw_name (Some i1) None None)
            i2)
    with (VpcConfig.mk region vpc_cidr vpc_name sg_name igw_name
            (Some i1) (Some i2) None).
  destruct (ec2 _ (Call_create_internet_gateway _)) as [i3|]; [|reflexivity].
  destruct (refused m (_parse_config_file_name vpc_name "vpc")); reflexivity.
Qed.

(** *** [configure_subnet] *)

Lemma configure_subnet_load_error profile_name vpc_name subnet_name
    cidr_substitute az rt is_public m e :
  outcome (_load_config (_parse_config_file_name vpc_name "vpc")) m = Error e ->
  configure_subnet aws profile_name vpc_name subnet_name cidr_substitute az rt
    is_public m = (Error e, m).
Proof.
  intros H. unfold configure_subnet, bind at 1.
  now rewrite load_config_eq, H.
Qed.

Lemma configure_subnet_loaded profile_name vpc_name subnet_name
    cidr_substitute az rt is_public m v :
  outcome (_load_config (_parse_config_file_name vpc_name "vpc")) m
    = Ok (Some (IsVpc v)) ->
  configure_subnet aws profile_name vpc_name subnet_name cidr_substitute az rt
    is_public m =
    match Session_client aws profile_name (VpcConfig.region v) with
    | Error e => (Error e, m)
    | Ok ec2 =>
        if octet_in_range cidr_substitute then
          chain ec2
            (Call_create_subnet
               (SubnetConfig.mk v subnet_name cidr_substitute az rt None None None))
            (fun i1 =>
               Call_create_route_table
                 (SubnetConfig.mk v subnet_name cidr_substitute az rt
                    (Some i1) None None) is_public)
            (fun i1 i2 =>
               Call_create_subnet_route_table_association
                 (SubnetConfig.mk v subnet_name cidr_substitute az rt
                    (Some i1) (Some i2) None))
            (_parse_config_file_name subnet_name "subnet")
            (fun i1 i2 i3 =>
               insert (_parse_config_file_name subnet_name "subnet")
                 (Document (JObj (SubnetConfig.to_dict
                    (SubnetConfig.mk v subnet_name cidr_substitute az rt
                       (Some i1) (Some i2) (Some i3)))))) m
        else (Error ValueError, m)
    end.
Proof.
  intros H. unfold configure_subnet, bind at 1.
  rewrite load_config_eq, H. unfold chain, SubnetConfig.init. run_steps.
  destruct (Session_client aws profile_name (VpcConfig.region v)) as [ec2|e];
    [|reflexivity].
  destruct (octet_in_range cidr_substitute); [|reflexivity].
  destruct (ec2 (calls m) (Call_create_subnet _)) as [i1|]; [|reflexivity].
  destruct (ec2 _ (Call_create_route_table _ _)) as [i2|];
    rewrite <- ?app_assoc; cbn [app]; [|reflexivity].
  destruct (ec2 _ (Call_create_subnet_route_table_association _)) as [i3|];
    [|reflexivity].
  destruct (refused m (_parse_config_file_name subnet_name "subnet")); reflexivity.
Qed.

End Runs.
(** ** The four commands, case by case *)

Section Cases.

Variable aws : boto3.
Implicit Types (m : machine) (e : error).

(** A command either stops before its first request, leaving the machine
    untouched, or is a chain of three requests for the record it loaded or
    constructed. *)
Lemma remove_vpc_cases profile_name vpc_name m :
  let name := _parse_config_file_name vpc_name "vpc" in
  (exists e, remove_vpc aws profile_name vpc_name m = (Error e, m)) \/
  (exists c ec2,
     outcome (_load_config name) m = Ok (Some (IsVpc c)) /\
     Session_client aws profile_name (VpcConfig.region c) = Ok ec2 /\
     remove_vpc aws profile_name vpc_name m =
       chain ec2 (Call_delete_internet_gateway c)
         (fun _ => Call_delete_security_group c) (fun _ _ => Call_delete_vpc c)
         name (fun _ _ _ => delete name) m).
Proof.
  intros name. destruct (load_config_vpc_kind vpc_name m) as [[e H]|[c H]].
  - left. exists e. now apply remove_vpc_load_error.
  - pose proof (remove_vpc_loaded aws profile_name vpc_name m c H) as R.
    destruct (Session_client aws profile_name (VpcConfig.region c)) as [ec2|e] eqn:S.
    + right. exists c, ec2. auto.
    + left. now exists e.
Qed.

Lemma remove_subnet_cases profile_name subnet_name m :
  let name := _parse_config_file_name subnet_name "subnet" in
  (exists e, remove_subnet aws profile_name subnet_name m = (Error e, m)) \/
  (exists c ec2,
     outcome (_load_config name) m = Ok (Some (IsSubnet c)) /\
     Session_client aws profile_name (SubnetConfig.region c) = Ok ec2 /\
     remove_subnet aws profile_name subnet_name m =
       chain ec2 (Call_delete_subnet_route_table_association c)
         (fun _ => Call_delete_route_table c) (fun _ _ => Call_delete_subnet c)
         name (fun _ _ _ => delete name) m).
Proof.
  intros name. destruct (load_config_subnet_kind subnet_name m) as [[e H]|[c H]].
  - left. exists e. now apply remove_subnet_load_error.
  - pose proof (remove_subnet_loaded aws profile_name subnet_name m c H) as R.
    destruct (Session_client aws profile_name (SubnetConfig.region c))
      as [ec2|e] eqn:S.
    + right. exists c, ec2. auto.
    + left. now exists e.
Qed.

Lemma configure_vpc_cases profile_name region vpc_cidr vpc_name sg_name igw_name m :
  (exists e, configure_vpc aws profile_name region vpc_cidr vpc_name sg_name
               igw_name m = (Error e, m)) \/
  (exists ec2,
     Session_client aws profile_name region = Ok ec2 /\
     configure_vpc aws profile_name region vpc_cidr vpc_name sg_name igw_name m =
       chain ec2
         (Call_create_vpc
            (VpcConfig.mk region vpc_cidr vpc_name sg_name igw_name None None None))
         (fun i1 =>
            Call_create_vpc_security_group
              (VpcConfig.mk region vpc_cidr vpc_name sg_name igw_name
                 (Some i1) None None))
         (fun i1 i2 =>
            Call_create_internet_gateway
              (VpcConfig.mk region vpc_cidr vpc_name sg_name igw_name
                 (Some i1) (Some i2) None))
         (_parse_config_file_name vpc_name "vpc")
         (fun i1 i2 i3 =>
            insert (_parse_config_file_name vpc_name "vpc")
              (Document (JObj (VpcConfig.to_dict
                 (VpcConfig.mk region vpc_cidr vpc_name sg_name igw_name
                    (Some i1) (Some i2) (Some i3)))))) m).
Proof.
  pose proof (configure_vpc_run aws profile_name region vpc_cidr vpc_name
                sg_name igw_name m) as R.
  cbv zeta in R.
  destruct (Session_client aws profile_name region) as [ec2|e] eqn:S.
  - right. exists ec2. auto.
  - left. now exists e.
Qed.

Lemma configure_subnet_cases profile_name vpc_name subnet_name cidr_substitute
    az rt is_public m :
  (exists e, configure_subnet aws profile_name vpc_name subnet_name
               cidr_substitute az rt is_public m = (Error e, m)) \/
  (exists v ec2,
     outcome (_load_config (_parse_config_file_name vpc_name "vpc")) m
       = Ok (Some (IsVpc v)) /\
     Session_client aws profile_name (VpcConfig.region v) = Ok ec2 /\
     octet_in_range cidr_substitute = true /\
     configure_subnet aws profile_name vpc_name subnet_name cidr_substitute az rt
       is_public m =
       chain ec2
         (Call_create_subnet
            (SubnetConfig.mk v subnet_name cidr_substitute az rt None None None))
         (fun i1 =>
            Call_create_route_table
              (SubnetConfig.mk v subnet_name cidr_substitute az rt
                 (Some i1) None None) is_public)
         (fun i1 i2 =>
            Call_create_subnet_route_table_association
              (SubnetConfig.mk v subnet_name cidr_substitute az rt
                 (Some i1) (Some i2) None))
         (_parse_config_file_name subnet_name "subnet")
         (fun i1 i2 i3 =>
            insert (_parse_config_file_name subnet_name "subnet")
              (Document (JObj (SubnetConfig.to_dict
                 (SubnetConfig.mk v subnet_name cidr_substitute az rt
                    (Some i1) (Some i2) (Some i3)))))) m).
Proof.
  destruct (load_config_vpc_kind vpc_name m) as [[e H]|[v H]].
  - left. exists e. now apply configure_subnet_load_error.
  - pose proof (configure_subnet_loaded aws profile_name vpc_name subnet_name
                  cidr_substitute az rt is_public m v H) as R.
    destruct (Session_client aws profile_name (VpcConfig.region v)) as [ec2|e] eqn:S.
    + destruct (octet_in_range cidr_substitute) eqn:O.
      * right. exists v, ec2. auto.
      * left. now exists ValueError.
    + left. now exists e.
Qed.

End Cases.
(** Rewriting the observations of a command into those of its chain. *)
Ltac to_chain R :=
  let Ho := fresh "Ho" in
  let Ha := fresh "Ha" in
  let Hi := fresh "Hi" in
  apply observed_ext in R as (Ho & Ha & Hi); rewrite ?Ho, ?Ha, ?Hi.

Ltac stopped R :=
  let Ho := fresh "Ho" in
  let Ha := fresh "Ha" in
  let Hi := fresh "Hi" in
  apply observed_same in R as (Ho & Ha & Hi); rewrite ?Ho, ?Ha, ?Hi.

(** ** Missing files *)

(** C4.  When the directory holds no config file for the VPC
    name, [remove-vpc] fails before any remote call: it issues none (it
    does not even open a session) and leaves the machine as it was.  The
    error is [NotFoundError] when the file system takes the file name, and
    the error of the file system when it does not. *)
Theorem remove_vpc_missing_file (aws : boto3) (profile_name vpc_name : string)
    (m : machine) :
  files m !! _parse_config_file_name vpc_name "vpc" = None ->
  (refused m (_parse_config_file_name vpc_name "vpc") = None ->
   remove_vpc aws profile_name vpc_name m = (Error NotFoundError, m)) /\
  (forall e, refused m (_parse_config_file_name vpc_name "vpc") = Some e ->
   remove_vpc aws profile_name vpc_name m = (Error e, m)) /\
  issued (remove_vpc aws profile_name vpc_name) m = [] /\
  after (remove_vpc aws profile_name vpc_name) m = m.
Proof.
  intros H.
  assert (E : remove_vpc aws profile_name vpc_name m
              = (Error (no_such_file m (_parse_config_file_name vpc_name "vpc")), m)).
  { apply remove_vpc_load_error. unfold outcome.
    now rewrite (load_config_missing _ _ H). }
  split; [|split; [|split]].
  - intros R. rewrite E. unfold no_such_file. now rewrite R.
  - intros e R. rewrite E. unfold no_such_file. now rewrite R.
  - now apply observed_same in E.
  - now apply observed_same in E.
Qed.

Lemma remove_vpc_missing_file_witness :
  (files demo_machine !! _parse_config_file_name "staging" "vpc" = None /\
   refused demo_machine (_parse_config_file_name "staging" "vpc") = None /\
   remove_vpc aws_ok "admin" "staging" demo_machine
     = (Error NotFoundError, demo_machine) /\
   issued (remove_vpc aws_ok "admin" "staging") demo_machine = []) /\
  (files demo_machine !! _parse_config_file_name long_name "vpc" = None /\
   refused demo_machine (_parse_config_file_name long_name "vpc")
     = Some NameTooLongError /\
   remove_vpc aws_ok "admin" long_name demo_machine
     = (Error NameTooLongError, demo_machine) /\
   issued (remove_vpc aws_ok "admin" long_name) demo_machine = []).
Proof.
  split.
  - assert (H : files demo_machine !! _parse_config_file_name "staging" "vpc" = None)
      by (vm_compute; reflexivity).
    assert (R : refused demo_machine (_parse_config_file_name "staging" "vpc") = None)
      by (vm_compute; reflexivity).
    destruct (remove_vpc_missing_file aws_ok "admin" "staging" demo_machine H)
      as (Hn & _ & Hi & _).
    split; [exact H|]. split; [exact R|]. split; [exact (Hn R) | exact Hi].
  - assert (H : files demo_machine !! _parse_config_file_name long_name "vpc" = None)
      by (vm_compute; reflexivity).
    assert (R : refused demo_machine (_parse_config_file_name long_name "vpc")
                = Some NameTooLongError) by (vm_compute; reflexivity).
    destruct (remove_vpc_missing_file aws_ok "admin" long_name demo_machine H)
      as (_ & He & Hi & _).
    split; [exact H|]. split; [exact R|]. split; [exact (He _ R) | exact Hi].
Defined.

(** C4 does not hold for every VPC name: for an over-long name there is
    no config file, and [remove-vpc] fails with the [OSError] of the file
    system, not with [NotFoundError]. *)
Lemma remove_vpc_long_name :
  files empty_machine !! _parse_config_file_name long_name "vpc" = None /\
  outcome (remove_vpc aws_ok "admin" long_name) empty_machine = Error NameTooLongError /\
  outcome (remove_vpc aws_ok "admin" long_name) empty_machine <> Error NotFoundError.
Proof.
  assert (E : outcome (remove_vpc aws_ok "admin" long_name) empty_machine
              = Error NameTooLongError) by (vm_compute; reflexivity).
  split; [vm_compute; reflexivity|]. split; [exact E|].
  rewrite E. discriminate.
Qed.

(** C5.  When the directory holds no config file for the VPC
    name it refers to, [configure-subnet] fails before any remote call:
    nothing is issued and the machine is as it was.  The error is
    [NotFoundError] when the file system takes the file name, and the error
    of the file system when it does not. *)
Theorem configure_subnet_missing_vpc (aws : boto3)
    (profile_name vpc_name subnet_name cidr_substitute az rt : string)
    (is_public : bool) (m : machine) :
  files m !! _parse_config_file_name vpc_name "vpc" = None ->
  let run := configure_subnet aws profile_name vpc_name subnet_name
               cidr_substitute az rt is_public in
  (refused m (_parse_config_file_name vpc_name "vpc") = None ->
   run m = (Error NotFoundError, m)) /\
  (forall e, refused m (_parse_config_file_name vpc_name "vpc") = Some e ->
   run m = (Error e, m)) /\
  issued run m = [] /\ after run m = m.
Proof.
  intros H run.
  assert (E : run m
              = (Error (no_such_file m (_parse_config_file_name vpc_name "vpc")), m)).
  { apply configure_subnet_load_error. unfold outcome.
    now rewrite (load_config_missing _ _ H). }
  split; [|split; [|split]].
  - intros R. rewrite E. unfold no_such_file. now rewrite R.
  - intros e R. rewrite E. unfold no_such_file. now rewrite R.
  - now apply observed_same in E.
  - now apply observed_same in E.
Qed.

Lemma configure_subnet_missing_vpc_witness :
  (files empty_machine !! _parse_config_file_name "demo" "vpc" = None /\
   refused empty_machine (_parse_config_file_name "demo" "vpc") = None /\
   configure_subnet aws_ok "admin" "demo" "demo-net" "7" "a" "demo-rt" true
     empty_machine = (Error NotFoundError, empty_machine) /\
   issued (configure_subnet aws_ok "admin" "demo" "demo-net" "7" "a" "demo-rt" true)
     empty_machine = []) /\
  (files empty_machine !! _parse_config_file_name long_name "vpc" = None /\
   refused empty_machine (_parse_config_file_name long_name "vpc")
     = Some NameTooLongError /\
   configure_subnet aws_ok "admin" long_name "demo-net" "7" "a" "demo-rt" true
     empty_machine = (Error NameTooLongError, empty_machine)).
Proof.
  split.
  - assert (H : files empty_machine !! _parse_config_file_name "demo" "vpc" = None)
      by (vm_compute; reflexivity).
    assert (R : refused empty_machine (_parse_config_file_name "demo" "vpc") = None)
      by (vm_compute; reflexivity).
    destruct (configure_subnet_missing_vpc aws_ok "admin" "demo" "demo-net" "7" "a"
                "demo-rt" true empty_machine H) as (Hn & _ & Hi & _).
    split; [exact H|]. split; [exact R|]. split; [exact (Hn R) | exact Hi].
  - assert (H : files empty_machine !! _parse_config_file_name long_name "vpc" = None)
      by (vm_compute; reflexivity).
    assert (R : refused empty_machine (_parse_config_file_name long_name "vpc")
                = Some NameTooLongError) by (vm_compute; reflexivity).
    destruct (configure_subnet_missing_vpc aws_ok "admin" long_name "demo-net" "7" "a"
                "demo-rt" true empty_machine H) as (_ & He & _ & _).
    split; [exact H|]. split; [exact R|]. exact (He _ R).
Defined.

(** C5 does not hold for every VPC name: for an over-long name there is
    no saved record, and [configure-subnet] fails with the [OSError] of the
    file system, not with [NotFoundError]. *)
Lemma configure_subnet_long_vpc_name :
  files empty_machine !! _parse_config_file_name long_name "vpc" = None /\
  outcome (configure_subnet aws_ok "admin" long_name "demo-net" "7" "a" "demo-rt" true)
    empty_machine = Error NameTooLongError /\
  outcome (configure_subnet aws_ok "admin" long_name "demo-net" "7" "a" "demo-rt" true)
    empty_machine <> Error NotFoundError.
Proof.
  assert (E : outcome (configure_subnet aws_ok "admin" long_name "demo-net" "7" "a"
                         "demo-rt" true) empty_machine = Error NameTooLongError)
    by (vm_compute; reflexivity).
  split; [vm_compute; reflexivity|]. split; [exact E|].
  rewrite E. discriminate.
Qed.

Lemma load_config_failures_witness :
  (files empty_machine !! "vpc_demo_config.json" = None /\
   refused empty_machine "vpc_demo_config.json" = None /\
   _load_config "vpc_demo_config.json" empty_machine
     = (Error NotFoundError, empty_machine)) /\
  (files empty_machine !! "" = None /\
   refused empty_machine "" = Some IsADirectoryError /\
   _load_config "" empty_machine = (Error IsADirectoryError, empty_machine)) /\
  (files truncated_machine !! "vpc_demo_config.json" = Some (Unparsable "{") /\
   _load_config "vpc_demo_config.json" truncated_machine
     = (Error MalformedConfigError, truncated_machine)) /\
  (vpc_shape (JArr []) = false /\
   _load_config "vpc_demo_config.json" misshapen_machine
     = (Error MalformedConfigError, misshapen_machine)) /\
  (subnet_shape (JObj (VpcConfig.to_dict demo_vpc)) = false /\
   _load_config "subnet_demo_net_config.json" misshapen_machine
     = (Error MalformedConfigError, misshapen_machine)).
Proof.
  split; [|split; [|split; [|split]]].
  - assert (H : files empty_machine !! "vpc_demo_config.json" = None)
      by (vm_compute; reflexivity).
    split; [exact H|]. split; [reflexivity|].
    exact (proj1 (load_config_failures "vpc_demo_config.json" empty_machine) H
             eq_refl).
  - assert (H : files empty_machine !! "" = None) by (vm_compute; reflexivity).
    split; [exact H|]. split; [reflexivity|].
    exact (proj1 (proj2 (load_config_failures "" empty_machine))
             IsADirectoryError H eq_refl).
  - assert (H : files truncated_machine !! "vpc_demo_config.json"
                = Some (Unparsable "{")) by (vm_compute; reflexivity).
    split; [exact H|].
    exact (proj1 (proj2 (proj2 (load_config_failures "vpc_demo_config.json"
                                  truncated_machine))) "{" H).
  - split; [reflexivity|].
    apply (proj1 (proj2 (proj2 (proj2 (load_config_failures "vpc_demo_config.json"
                                         misshapen_machine)))) (JArr [])).
    + vm_compute; reflexivity.
    + reflexivity.
    + reflexivity.
  - split; [reflexivity|].
    apply (proj2 (proj2 (proj2 (proj2 (load_config_failures
                                         "subnet_demo_net_config.json"
                                         misshapen_machine))))
             (JObj (VpcConfig.to_dict demo_vpc))).
    + vm_compute; reflexivity.
    + reflexivity.
    + reflexivity.
    + reflexivity.
Defined.

(** ** Successful runs *)

Section Success.

Variable aws : boto3.
Implicit Types (m : machine).

Lemma remove_vpc_ok profile_name vpc_name m :
  let name := _parse_config_file_name vpc_name "vpc" in
  let run := remove_vpc aws profile_name vpc_name in
  outcome run m = Ok tt ->
  exists c ec2,
    outcome (_load_config name) m = Ok (Some (IsVpc c)) /\
    Session_client aws profile_name (VpcConfig.region c) = Ok ec2 /\
    issued run m = vpc_removal c /\
    all_returned ec2 (calls m) (vpc_removal c) /\
    files (after run m) = delete name (files m).
Proof.
  intros name run.
  destruct (remove_vpc_cases aws profile_name vpc_name m)
    as [[e R]|(c & ec2 & L & S & R)]; fold run in R.
  - stopped R. discriminate.
  - to_chain R. intros Hok. exists c, ec2.
    destruct (chain_ok_all_returned _ _ _ _ _ _ _ Hok) as [_ Hall].
    destruct (chain_ok _ _ _ _ _ _ _ Hok) as (i1 & i2 & i3 & _ & _ & _ & Hs & Hf).
    rewrite Hs in Hall. auto.
Qed.

(** A removal that succeeded removed a file under a name the file system
    takes. *)
Lemma remove_vpc_ok_name profile_name vpc_name m :
  outcome (remove_vpc aws profile_name vpc_name) m = Ok tt ->
  refused m (_parse_config_file_name vpc_name "vpc") = None.
Proof.
  destruct (remove_vpc_cases aws profile_name vpc_name m)
    as [[e R]|(c & ec2 & L & S & R)].
  - stopped R. discriminate.
  - to_chain R. apply chain_ok_name.
Qed.

Lemma remove_subnet_ok profile_name subnet_name m :
  let name := _parse_config_file_name subnet_name "subnet" in
  let run := remove_subnet aws profile_name subnet_name in
  outcome run m = Ok tt ->
  exists c ec2,
    outcome (_load_config name) m = Ok (Some (IsSubnet c)) /\
    Session_client aws profile_name (SubnetConfig.region c) = Ok ec2 /\
    issued run m = subnet_removal c /\
    all_returned ec2 (calls m) (subnet_removal c) /\
    files (after run m) = delete name (files m).
Proof.
  intros name run.
  destruct (remove_subnet_cases aws profile_name subnet_name m)
    as [[e R]|(c & ec2 & L & S & R)]; fold run in R.
  - stopped R. discriminate.
  - to_chain R. intros Hok. exists c, ec2.
    destruct (chain_ok_all_returned _ _ _ _ _ _ _ Hok) as [_ Hall].
    destruct (chain_ok _ _ _ _ _ _ _ Hok) as (i1 & i2 & i3 & _ & _ & _ & Hs & Hf).
    rewrite Hs in Hall. auto.
Qed.

Lemma remove_subnet_ok_name profile_name subnet_name m :
  outcome (remove_subnet aws profile_name subnet_name) m = Ok tt ->
  refused m (_parse_config_file_name subnet_name "subnet") = None.
Proof.
  destruct (remove_subnet_cases aws profile_name subnet_name m)
    as [[e R]|(c & ec2 & L & S & R)].
  - stopped R. discriminate.
  - to_chain R. apply chain_ok_name.
Qed.

(** A successful [configure_vpc]: the client, the three identifiers it
    returned, each to the call made with the earlier ones in the record, and
    the file written. *)
Lemma configure_vpc_ok profile_name region vpc_cidr vpc_name sg_name igw_name m :
  let run := configure_vpc aws profile_name region vpc_cidr vpc_name sg_name
               igw_name in
  let rec := VpcConfig.mk region vpc_cidr vpc_name sg_name igw_name in
  outcome run m = Ok tt ->
  exists ec2 i1 i2 i3,
    Session_client aws profile_name region = Ok ec2 /\
    ec2 (calls m) (Call_create_vpc (rec None None None)) = Ok i1 /\
    ec2 (calls m ++ [Call_create_vpc (rec None None None)])
      (Call_create_vpc_security_group (rec (Some i1) None None)) = Ok i2 /\
    ec2 (calls m ++ [Call_create_vpc (rec None None None);
                     Call_create_vpc_security_group (rec (Some i1) None None)])
      (Call_create_internet_gateway (rec (Some i1) (Some i2) None)) = Ok i3 /\
    issued run m =
      [Call_create_vpc (rec None None None);
       Call_create_vpc_security_group (rec (Some i1) None None);
       Call_create_internet_gateway (rec (Some i1) (Some i2) None)] /\
    files (after run m) =
      <[_parse_config_file_name vpc_name "vpc" :=
          Document (JObj (VpcConfig.to_dict (rec (Some i1) (Some i2) (Some i3))))]>
        (files m).
Proof.
  intros run rec.
  destruct (configure_vpc_cases aws profile_name region vpc_cidr vpc_name
              sg_name igw_name m) as [[e R]|(ec2 & S & R)]; fold run in R.
  - stopped R. discriminate.
  - to_chain R. intros Hok. exists ec2.
    destruct (chain_ok _ _ _ _ _ _ _ Hok) as (i1 & i2 & i3 & H1 & H2 & H3 & Hs & Hf).
    exists i1, i2, i3. auto 7.
Qed.

(** A successful [configure_subnet], likewise. *)
Lemma configure_subnet_ok profile_name vpc_name subnet_name cidr_substitute
    az rt is_public m :
  let run := configure_subnet aws profile_name vpc_name subnet_name
               cidr_substitute az rt is_public in
  outcome run m = Ok tt ->
  exists v ec2 i1 i2 i3,
    let rec := SubnetConfig.mk v subnet_name cidr_substitute az rt in
    outcome (_load_config (_parse_config_file_name vpc_name "vpc")) m
      = Ok (Some (IsVpc v)) /\
    Session_client aws profile_name (VpcConfig.region v) = Ok ec2 /\
    octet_in_range cidr_substitute = true /\
    ec2 (calls m) (Call_create_subnet (rec None None None)) = Ok i1 /\
    ec2 (calls m ++ [Call_create_subnet (rec None None None)])
      (Call_create_route_table (rec (Some i1) None None) is_public) = Ok i2 /\
    ec2 (calls m ++ [Call_create_subnet (rec None None None);
                     Call_create_route_table (rec (Some i1) None None) is_public])
      (Call_create_subnet_route_table_association (rec (Some i1) (Some i2) None))
      = Ok i3 /\
    issued run m =
      [Call_create_subnet (rec None None None);
       Call_create_route_table (rec (Some i1) None None) is_public;
       Call_create_subnet_route_table_association (rec (Some i1) (Some i2) None)] /\
    files (after run m) =
      <[_parse_config_file_name subnet_name "subnet" :=
          Document (JObj (SubnetConfig.to_dict (rec (Some i1) (Some i2) (Some i3))))]>
        (files m).
Proof.
  intros run.
  destruct (configure_subnet_cases aws profile_name vpc_name subnet_name
              cidr_substitute az rt is_public m)
    as [[e R]|(v & ec2 & L & S & O & R)]; fold run in R.
  - stopped R. discriminate.
  - to_chain R. intros Hok. exists v, ec2.
    destruct (chain_ok _ _ _ _ _ _ _ Hok) as (i1 & i2 & i3 & H1 & H2 & H3 & Hs & Hf).
    exists i1, i2, i3. cbv zeta. auto 10.
Qed.

End Success.

(** ** The file system *)

Section Refused.

Variable aws : boto3.
Implicit Types (m : machine).

(** No command changes which names the file system takes. *)
Lemma configure_vpc_refused profile_name region vpc_cidr vpc_name sg_name igw_name m :
  refused (after (configure_vpc aws profile_name region vpc_cidr vpc_name sg_name
                    igw_name) m) = refused m.
Proof.
  destruct (configure_vpc_cases aws profile_name region vpc_cidr vpc_name
              sg_name igw_name m) as [[e R]|(ec2 & S & R)].
  - now stopped R.
  - to_chain R. apply chain_refused.
Qed.

Lemma remove_vpc_refused profile_name vpc_name m :
  refused (after (remove_vpc aws profile_name vpc_name) m) = refused m.
Proof.
  destruct (remove_vpc_cases aws profile_name vpc_name m)
    as [[e R]|(c & ec2 & L & S & R)].
  - now stopped R.
  - to_chain R. apply chain_refused.
Qed.

Lemma configure_subnet_refused profile_name vpc_name subnet_name cidr_substitute
    az rt is_public m :
  refused (after (configure_subnet aws profile_name vpc_name subnet_name
                    cidr_substitute az rt is_public) m) = refused m.
Proof.
  destruct (configure_subnet_cases aws profile_name vpc_name subnet_name
              cidr_substitute az rt is_public m)
    as [[e R]|(v & ec2 & L & S & O & R)].
  - now stopped R.
  - to_chain R. apply chain_refused.
Qed.

Lemma remove_subnet_refused profile_name subnet_name m :
  refused (after (remove_subnet aws profile_name subnet_name) m) = refused m.
Proof.
  destruct (remove_subnet_cases aws profile_name subnet_name m)
    as [[e R]|(c & ec2 & L & S & R)].
  - now stopped R.
  - to_chain R. apply chain_refused.
Qed.

(** No command puts a file under a name the file system does not take. *)
Lemma insert_adds_one (name other : string) (c : content) (fs : gmap string content) :
  is_Some (<[name := c]> fs !! other) -> other = name \/ is_Some (fs !! other).
Proof.
  destruct (decide (name = other)) as [<- | Hne]; [now left|].
  rewrite lookup_insert_ne by exact Hne. now right.
Qed.

Lemma delete_adds_none (name other : string) (fs : gmap string content) :
  is_Some (delete name fs !! other) -> other = name \/ is_Some (fs !! other).
Proof.
  destruct (decide (name = other)) as [<- | Hne]; [now left|].
  rewrite lookup_delete_ne by exact Hne. now right.
Qed.

Lemma configure_vpc_consistent profile_name region vpc_cidr vpc_name sg_name igw_name m :
  consistent m ->
  consistent (after (configure_vpc aws profile_name region vpc_cidr vpc_name sg_name
                       igw_name) m).
Proof.
  destruct (configure_vpc_cases aws profile_name region vpc_cidr vpc_name
              sg_name igw_name m) as [[e R]|(ec2 & S & R)].
  - now stopped R.
  - to_chain R. apply chain_consistent. intros i1 i2 i3 fs other.
    apply insert_adds_one.
Qed.

Lemma remove_vpc_consistent profile_name vpc_name m :
  consistent m -> consistent (after (remove_vpc aws profile_name vpc_name) m).
Proof.
  destruct (remove_vpc_cases aws profile_name vpc_name m)
    as [[e R]|(c & ec2 & L & S & R)].
  - now stopped R.
  - to_chain R. apply chain_consistent. intros i1 i2 i3 fs other.
    apply delete_adds_none.
Qed.

Lemma configure_subnet_consistent profile_name vpc_name subnet_name cidr_substitute
    az rt is_public m :
  consistent m ->
  consistent (after (configure_subnet aws profile_name vpc_name subnet_name
                       cidr_substitute az rt is_public) m).
Proof.
  destruct (configure_subnet_cases aws profile_name vpc_name subnet_name
              cidr_substitute az rt is_public m)
    as [[e R]|(v & ec2 & L & S & O & R)].
  - now stopped R.
  - to_chain R. apply chain_consistent. intros i1 i2 i3 fs other.
    apply insert_adds_one.
Qed.

Lemma remove_subnet_consistent profile_name subnet_name m :
  consistent m -> consistent (after (remove_subnet aws profile_name subnet_name) m).
Proof.
  destruct (remove_subnet_cases aws profile_name subnet_name m)
    as [[e R]|(c & ec2 & L & S & R)].
  - now stopped R.
  - to_chain R. apply chain_consistent. intros i1 i2 i3 fs other.
    apply delete_adds_none.
Qed.

(** On a consistent machine [open] may as well look at the name first. *)
Lemma open_read_consistent name m :
  consistent m ->
  open_read name m =
    match refused m name with
    | Some e => (Error e, m)
    | None =>
        match files m !! name with
        | Some c => (Ok c, m)
        | None => (Error NotFoundError, m)
        end
    end.
Proof.
  intros Hc. unfold open_read, no_such_file.
  destruct (files m !! name) as [c|] eqn:E.
  - now rewrite (Hc name (ex_intro _ c E)).
  - now destruct (refused m name).
Qed.

End Refused.

(** The sample machines are consistent. *)
Lemma sample_machines_consistent :
  consistent empty_machine /\ consistent demo_machine /\ consistent demo_subnet_machine.
Proof.
  assert (H0 : consistent empty_machine).
  { intros name [c Hc]. unfold empty_machine, on_disk in Hc. cbn [files] in Hc.
    now rewrite lookup_empty in Hc. }
  assert (H1 : consistent demo_machine).
  { unfold demo_machine. now apply (configure_vpc_consistent aws_ok). }
  split; [exact H0|]. split; [exact H1|].
  unfold demo_subnet_machine. now apply (configure_subnet_consistent aws_ok).
Qed.

(** ** Files that were written *)

Section Written.

Implicit Types (m : machine).

(** A file that holds the document of a record loads as that record. *)
Lemma load_written_vpc vpc_name m (c : VpcConfig.t) :
  files m !! _parse_config_file_name vpc_name "vpc"
    = Some (Document (JObj (VpcConfig.to_dict c))) ->
  outcome (_load_config (_parse_config_file_name vpc_name "vpc")) m
    = Ok (Some (IsVpc c)).
Proof.
  intros H. unfold outcome.
  rewrite (load_config_vpc _ m _ H (vpc_name_prefix vpc_name)).
  now rewrite vpc_from_config_to_dict.
Qed.

Lemma load_written_subnet subnet_name m (c : SubnetConfig.t) :
  SubnetConfig.valid c ->
  files m !! _parse_config_file_name subnet_name "subnet"
    = Some (Document (JObj (SubnetConfig.to_dict c))) ->
  outcome (_load_config (_parse_config_file_name subnet_name "subnet")) m
    = Ok (Some (IsSubnet c)).
Proof.
  intros Hc H. unfold outcome.
  destruct (subnet_name_prefix subnet_name) as [Hv Hs].
  rewrite (load_config_subnet _ m _ H Hv Hs).
  now rewrite (subnet_from_config_to_dict c Hc).
Qed.

(** Names with one canonical form have one file name. *)
Lemma same_canonical_same_file (n1 n2 t : string) :
  canonical n1 = canonical n2 ->
  _parse_config_file_name n1 t = _parse_config_file_name n2 t.
Proof. intros H. unfold _parse_config_file_name. now rewrite H. Qed.

(** Two file names of different tags are different. *)
Lemma vpc_subnet_names_differ (vpc_name subnet_name : string) :
  _parse_config_file_name vpc_name "vpc" <> _parse_config_file_name subnet_name "subnet".
Proof.
  intros H. apply file_name_inj in H as [H _]; [discriminate H | now left | now right].
Qed.

End Written.

(** ** Removal *)

(** C6.  [remove-vpc] issues its delete calls in the order internet
    gateway, security group, VPC, and [remove-subnet] in the order
    association, route table, subnet: whatever happens, the calls issued are
    an initial part of that list, and all of it when the command succeeds.
    Set against any successful creation run, the resources of a successful
    removal run are those of the creation run in reverse order, all calls
    being deletes on one side and creates on the other. *)
Theorem removal_order (aws : boto3) (profile_name : string) (m : machine) :
  (forall vpc_name c,
     outcome (_load_config (_parse_config_file_name vpc_name "vpc")) m
       = Ok (Some (IsVpc c)) ->
     let run := remove_vpc aws profile_name vpc_name in
     issued run m `prefix_of` vpc_removal c /\
     (outcome run m = Ok tt -> issued run m = vpc_removal c)) /\
  (forall subnet_name c,
     outcome (_load_config (_parse_config_file_name subnet_name "subnet")) m
       = Ok (Some (IsSubnet c)) ->
     let run := remove_subnet aws profile_name subnet_name in
     issued run m `prefix_of` subnet_removal c /\
     (outcome run m = Ok tt -> issued run m = subnet_removal c)) /\
  (forall vpc_name aws' profile_name' region vpc_cidr vpc_name' sg_name igw_name m',
     let removal := remove_vpc aws profile_name vpc_name in
     let creation := configure_vpc aws' profile_name' region vpc_cidr vpc_name'
                       sg_name igw_name in
     outcome removal m = Ok tt -> outcome creation m' = Ok tt ->
     map resource_of (issued removal m) = rev (map resource_of (issued creation m')) /\
     Forall (fun k => action_of k = Delete) (issued removal m) /\
     Forall (fun k => action_of k = Create) (issued creation m')) /\
  (forall subnet_name aws' profile_name' vpc_name subnet_name' cidr_substitute az rt
          is_public m',
     let removal := remove_subnet aws profile_name subnet_name in
     let creation := configure_subnet aws' profile_name' vpc_name subnet_name'
                       cidr_substitute az rt is_public in
     outcome removal m = Ok tt -> outcome creation m' = Ok tt ->
     map resource_of (issued removal m) = rev (map resource_of (issued creation m')) /\
     Forall (fun k => action_of k = Delete) (issued removal m) /\
     Forall (fun k => action_of k = Create) (issued creation m')).
Proof.
  split; [|split; [|split]].
  - intros vpc_name c L run.
    destruct (remove_vpc_cases aws profile_name vpc_name m)
      as [[e R]|(c' & ec2 & L' & S & R)]; fold run in R.
    + stopped R. split; [apply prefix_nil | discriminate].
    + rewrite L in L'. injection L' as <-. to_chain R. split.
      * now apply chain_prefix.
      * intros (i1 & i2 & i3 & _ & _ & _ & Hs & _)%chain_ok. exact Hs.
  - intros subnet_name c L run.
    destruct (remove_subnet_cases aws profile_name subnet_name m)
      as [[e R]|(c' & ec2 & L' & S & R)]; fold run in R.
    + stopped R. split; [apply prefix_nil | discriminate].
    + rewrite L in L'. injection L' as <-. to_chain R. split.
      * now apply chain_prefix.
      * intros (i1 & i2 & i3 & _ & _ & _ & Hs & _)%chain_ok. exact Hs.
  - intros vpc_name aws' profile_name' region vpc_cidr vpc_name' sg_name igw_name m'
      removal creation Hr Hc.
    apply remove_vpc_ok in Hr as (c & _ & _ & _ & Hr & _).
    apply configure_vpc_ok in Hc as (_ & i1 & i2 & _ & _ & _ & _ & _ & Hc & _).
    fold removal in Hr. fold creation in Hc. rewrite Hr, Hc.
    split; [reflexivity|]. split; repeat constructor.
  - intros subnet_name aws' profile_name' vpc_name subnet_name' cidr_substitute az rt
      is_public m' removal creation Hr Hc.
    apply remove_subnet_ok in Hr as (c & _ & _ & _ & Hr & _).
    apply configure_subnet_ok in Hc as (v & _ & i1 & i2 & _ & _ & _ & _ & _ & _ & _ & Hc & _).
    fold removal in Hr. fold creation in Hc. rewrite Hr, Hc.
    split; [reflexivity|]. split; repeat constructor.
Qed.

Lemma removal_order_witness :
  (issued (demo_remove_vpc (aws_failing_at 7)) demo_subnet_machine
     `prefix_of` vpc_removal demo_vpc /\
   issued (demo_remove_vpc aws_ok) demo_subnet_machine = vpc_removal demo_vpc) /\
  (issued (demo_remove_subnet (aws_failing_at 7)) demo_subnet_machine
     `prefix_of` subnet_removal demo_subnet /\
   issued (demo_remove_subnet aws_ok) demo_subnet_machine = subnet_removal demo_subnet) /\
  (map resource_of (issued (demo_remove_vpc aws_ok) demo_subnet_machine)
     = rev (map resource_of (issued (demo_configure_vpc aws_ok) empty_machine)) /\
   Forall (fun k => action_of k = Delete)
     (issued (demo_remove_vpc aws_ok) demo_subnet_machine) /\
   Forall (fun k => action_of k = Create)
     (issued (demo_configure_vpc aws_ok) empty_machine)) /\
  (map resource_of (issued (demo_remove_subnet aws_ok) demo_subnet_machine)
     = rev (map resource_of (issued (demo_configure_subnet aws_ok) demo_machine)) /\
   Forall (fun k => action_of k = Delete)
     (issued (demo_remove_subnet aws_ok) demo_subnet_machine) /\
   Forall (fun k => action_of k = Create)
     (issued (demo_configure_subnet aws_ok) demo_machine)).
Proof.
  unfold demo_remove_vpc, demo_remove_subnet, demo_configure_vpc,
    demo_configure_subnet.
  destruct (removal_order aws_ok "admin" demo_subnet_machine) as (Hv & Hs & Hrv & Hrs).
  destruct (removal_order (aws_failing_at 7) "admin" demo_subnet_machine)
    as (Hv7 & Hs7 & _ & _).
  assert (Lv : outcome (_load_config (_parse_config_file_name "demo" "vpc"))
                 demo_subnet_machine = Ok (Some (IsVpc demo_vpc)))
    by (vm_compute; reflexivity).
  assert (Ls : outcome (_load_config (_parse_config_file_name "demo-net" "subnet"))
                 demo_subnet_machine = Ok (Some (IsSubnet demo_subnet)))
    by (vm_compute; reflexivity).
  split; [|split; [|split]].
  - split.
    + exact (proj1 (Hv7 "demo" demo_vpc Lv)).
    + apply (proj2 (Hv "demo" demo_vpc Lv)). vm_compute; reflexivity.
  - split.
    + exact (proj1 (Hs7 "demo-net" demo_subnet Ls)).
    + apply (proj2 (Hs "demo-net" demo_subnet Ls)). vm_compute; reflexivity.
  - apply (Hrv "demo" aws_ok "admin" "eu-west-1" "10.0.0.0/16" "demo" "demo-sg"
             "demo-igw" empty_machine); vm_compute; reflexivity.
  - apply (Hrs "demo-net" aws_ok "admin" "demo" "demo-net" "7" "a" "demo-rt" true
             demo_machine); vm_compute; reflexivity.
Defined.

(** C7.  A removal command deletes its config file only after its three
    delete calls have all returned.  If the command ends in an error, the
    directory is exactly as it was.  If one of the calls it issued raised,
    that error is the outcome, the call is the last one issued (nothing is
    retried, nothing further is attempted) and the file is still in place.
    When the command succeeds, all three calls were issued and returned, and
    only the one file is gone. *)
Theorem removal_deletes_file_last (aws : boto3) (profile_name : string) (m : machine) :
  (forall vpc_name,
     let name := _parse_config_file_name vpc_name "vpc" in
     let run := remove_vpc aws profile_name vpc_name in
     (forall e, outcome run m = Error e -> files (after run m) = files m) /\
     (forall c ec2 k e,
        outcome (_load_config name) m = Ok (Some (IsVpc c)) ->
        Session_client aws profile_name (VpcConfig.region c) = Ok ec2 ->
        raised_at ec2 (calls m) (issued run m) k e ->
        outcome run m = Error e /\ length (issued run m) = S k /\
        files (after run m) = files m /\ is_Some (files (after run m) !! name)) /\
     (outcome run m = Ok tt ->
        exists c ec2,
          outcome (_load_config name) m = Ok (Some (IsVpc c)) /\
          Session_client aws profile_name (VpcConfig.region c) = Ok ec2 /\
          issued run m = vpc_removal c /\
          all_returned ec2 (calls m) (vpc_removal c) /\
          files (after run m) = delete name (files m))) /\
  (forall subnet_name,
     let name := _parse_config_file_name subnet_name "subnet" in
     let run := remove_subnet aws profile_name subnet_name in
     (forall e, outcome run m = Error e -> files (after run m) = files m) /\
     (forall c ec2 k e,
        outcome (_load_config name) m = Ok (Some (IsSubnet c)) ->
        Session_client aws profile_name (SubnetConfig.region c) = Ok ec2 ->
        raised_at ec2 (calls m) (issued run m) k e ->
        outcome run m = Error e /\ length (issued run m) = S k /\
        files (after run m) = files m /\ is_Some (files (after run m) !! name)) /\
     (outcome run m = Ok tt ->
        exists c ec2,
          outcome (_load_config name) m = Ok (Some (IsSubnet c)) /\
          Session_client aws profile_name (SubnetConfig.region c) = Ok ec2 /\
          issued run m = subnet_removal c /\
          all_returned ec2 (calls m) (subnet_removal c) /\
          files (after run m) = delete name (files m))).
Proof.
  split.
  - intros vpc_name name run. split; [|split].
    + intros e.
      destruct (remove_vpc_cases aws profile_name vpc_name m)
        as [[e' R]|(c & ec2 & L & S & R)]; fold run in R.
      * now stopped R.
      * to_chain R. apply chain_error_files.
    + intros c ec2 k e L S.
      pose proof (remove_vpc_loaded aws profile_name vpc_name m c L) as R.
      fold run in R. cbv zeta in R. rewrite S in R. to_chain R.
      intros (Hout & Hlen & Hf)%chain_raised. rewrite Hf.
      repeat split; try assumption. exact (load_config_ok_file _ _ _ L).
    + apply remove_vpc_ok.
  - intros subnet_name name run. split; [|split].
    + intros e.
      destruct (remove_subnet_cases aws profile_name subnet_name m)
        as [[e' R]|(c & ec2 & L & S & R)]; fold run in R.
      * now stopped R.
      * to_chain R. apply chain_error_files.
    + intros c ec2 k e L S.
      pose proof (remove_subnet_loaded aws profile_name subnet_name m c L) as R.
      fold run in R. cbv zeta in R. rewrite S in R. to_chain R.
      intros (Hout & Hlen & Hf)%chain_raised. rewrite Hf.
      repeat split; try assumption. exact (load_config_ok_file _ _ _ L).
    + apply remove_subnet_ok.
Qed.

Lemma removal_deletes_file_last_witness :
  (files (after (demo_remove_vpc (aws_failing_at 6)) demo_subnet_machine)
     = files demo_subnet_machine /\
   (outcome (demo_remove_vpc (aws_failing_at 8)) demo_subnet_machine = Error throttled /\
    length (issued (demo_remove_vpc (aws_failing_at 8)) demo_subnet_machine) = 3 /\
    files (after (demo_remove_vpc (aws_failing_at 8)) demo_subnet_machine)
      = files demo_subnet_machine /\
    is_Some (files (after (demo_remove_vpc (aws_failing_at 8)) demo_subnet_machine)
               !! "vpc_demo_config.json")) /\
   exists c ec2,
     outcome (_load_config "vpc_demo_config.json") demo_subnet_machine
       = Ok (Some (IsVpc c)) /\
     Session_client aws_ok "admin" (VpcConfig.region c) = Ok ec2 /\
     issued (demo_remove_vpc aws_ok) demo_subnet_machine = vpc_removal c /\
     all_returned ec2 (calls demo_subnet_machine) (vpc_removal c) /\
     files (after (demo_remove_vpc aws_ok) demo_subnet_machine)
       = delete "vpc_demo_config.json" (files demo_subnet_machine)) /\
  (files (after (demo_remove_subnet (aws_failing_at 6)) demo_subnet_machine)
     = files demo_subnet_machine /\
   (outcome (demo_remove_subnet (aws_failing_at 7)) demo_subnet_machine
      = Error throttled /\
    length (issued (demo_remove_subnet (aws_failing_at 7)) demo_subnet_machine) = 2 /\
    files (after (demo_remove_subnet (aws_failing_at 7)) demo_subnet_machine)
      = files demo_subnet_machine /\
    is_Some (files (after (demo_remove_subnet (aws_failing_at 7)) demo_subnet_machine)
               !! "subnet_demo_net_config.json")) /\
   exists c ec2,
     outcome (_load_config "subnet_demo_net_config.json") demo_subnet_machine
       = Ok (Some (IsSubnet c)) /\
     Session_client aws_ok "admin" (SubnetConfig.region c) = Ok ec2 /\
     issued (demo_remove_subnet aws_ok) demo_subnet_machine = subnet_removal c /\
     all_returned ec2 (calls demo_subnet_machine) (subnet_removal c) /\
     files (after (demo_remove_subnet aws_ok) demo_subnet_machine)
       = delete "subnet_demo_net_config.json" (files demo_subnet_machine)).
Proof.
  unfold demo_remove_vpc, demo_remove_subnet, throttled.
  pose proof (removal_deletes_file_last (aws_failing_at 6) "admin" demo_subnet_machine)
    as [V6 S6].
  pose proof (removal_deletes_file_last (aws_failing_at 7) "admin" demo_subnet_machine)
    as [_ S7].
  pose proof (removal_deletes_file_last (aws_failing_at 8) "admin" demo_subnet_machine)
    as [V8 _].
  pose proof (removal_deletes_file_last aws_ok "admin" demo_subnet_machine) as [V S].
  split; (split; [|split]).
  - apply (proj1 (V6 "demo") (RemoteAPIError "RequestLimitExceeded")).
    vm_compute; reflexivity.
  - apply (proj1 (proj2 (V8 "demo")) demo_vpc (ec2_failing_at 8) 2
             (RemoteAPIError "RequestLimitExceeded")).
    + vm_compute; reflexivity.
    + reflexivity.
    + exists (Call_delete_vpc demo_vpc). split; vm_compute; reflexivity.
  - apply (proj2 (proj2 (V "demo"))). vm_compute; reflexivity.
  - apply (proj1 (S6 "demo-net") (RemoteAPIError "RequestLimitExceeded")).
    vm_compute; reflexivity.
  - apply (proj1 (proj2 (S7 "demo-net")) demo_subnet (ec2_failing_at 7) 1
             (RemoteAPIError "RequestLimitExceeded")).
    + vm_compute; reflexivity.
    + reflexivity.
    + exists (Call_delete_route_table demo_subnet). split; vm_compute; reflexivity.
  - apply (proj2 (proj2 (S "demo-net"))). vm_compute; reflexivity.
Defined.

(** ** Creation *)

(** C8.  A creation command issues its three create calls one after the
    other, and each identifier returned is in the record handed to the next
    call.  [configure-vpc]: the first call creates the VPC from the record
    without identifiers; the security group call is issued exactly when the
    VPC call has returned, on the record whose [vpc_id] is the identifier
    that call returned; the internet gateway call is issued exactly when the
    security group call has returned, on the record whose [vpc_id] and
    [sg_id] are the two identifiers returned.  [configure-subnet], for a
    third octet the record takes: subnet, route table, association, in the
    same way.  Nothing else is issued, and a successful run writes the
    document of the record with the three identifiers returned. *)
Theorem creation_sequential (aws : boto3) (profile_name : string) (m : machine) :
  (forall region vpc_cidr vpc_name sg_name igw_name ec2,
     Session_client aws profile_name region = Ok ec2 ->
     let run := configure_vpc aws profile_name region vpc_cidr vpc_name sg_name
                  igw_name in
     let rec := VpcConfig.mk region vpc_cidr vpc_name sg_name igw_name in
     let first := Call_create_vpc (rec None None None) in
     let second i1 := Call_create_vpc_security_group (rec (Some i1) None None) in
     let third i1 i2 := Call_create_internet_gateway (rec (Some i1) (Some i2) None) in
     issued run m !! 0 = Some first /\
     (forall call, issued run m !! 1 = Some call <->
        exists i1, ec2 (calls m) first = Ok i1 /\ call = second i1) /\
     (forall call, issued run m !! 2 = Some call <->
        exists i1 i2,
          ec2 (calls m) first = Ok i1 /\
          ec2 (calls m ++ [first]) (second i1) = Ok i2 /\
          call = third i1 i2) /\
     length (issued run m) <= 3 /\
     (outcome run m = Ok tt ->
        exists i1 i2 i3,
          ec2 (calls m) first = Ok i1 /\
          ec2 (calls m ++ [first]) (second i1) = Ok i2 /\
          ec2 (calls m ++ [first; second i1]) (third i1 i2) = Ok i3 /\
          issued run m = [first; second i1; third i1 i2] /\
          files (after run m) !! _parse_config_file_name vpc_name "vpc" =
            Some (Document (JObj
              [ ("region", JStr region); ("vpc_cidr", JStr vpc_cidr);
                ("vpc_name", JStr vpc_name); ("sg_name", JStr sg_name);
                ("igw_name", JStr igw_name); ("vpc_id", JStr i1);
                ("sg_id", JStr i2); ("igw_id", JStr i3) ])))) /\
  (forall vpc_name subnet_name cidr_substitute az rt is_public v ec2,
     outcome (_load_config (_parse_config_file_name vpc_name "vpc")) m
       = Ok (Some (IsVpc v)) ->
     Session_client aws profile_name (VpcConfig.region v) = Ok ec2 ->
     octet_in_range cidr_substitute = true ->
     let run := configure_subnet aws profile_name vpc_name subnet_name
                  cidr_substitute az rt is_public in
     let rec := SubnetConfig.mk v subnet_name cidr_substitute az rt in
     let first := Call_create_subnet (rec None None None) in
     let second i1 := Call_create_route_table (rec (Some i1) None None) is_public in
     let third i1 i2 :=
       Call_create_subnet_route_table_association (rec (Some i1) (Some i2) None) in
     issued run m !! 0 = Some first /\
     (forall call, issued run m !! 1 = Some call <->
        exists i1, ec2 (calls m) first = Ok i1 /\ call = second i1) /\
     (forall call, issued run m !! 2 = Some call <->
        exists i1 i2,
          ec2 (calls m) first = Ok i1 /\
          ec2 (calls m ++ [first]) (second i1) = Ok i2 /\
          call = third i1 i2) /\
     length (issued run m) <= 3 /\
     (outcome run m = Ok tt ->
        exists i1 i2 i3,
          ec2 (calls m) first = Ok i1 /\
          ec2 (calls m ++ [first]) (second i1) = Ok i2 /\
          ec2 (calls m ++ [first; second i1]) (third i1 i2) = Ok i3 /\
          issued run m = [first; second i1; third i1 i2] /\
          files (after run m) !! _parse_config_file_name subnet_name "subnet" =
            Some (Document (JObj (VpcConfig.to_dict v ++
              [ ("subnet_name", JStr subnet_name);
                ("cidr_substitute", JStr cidr_substitute);
                ("az_postfix", JStr az); ("rt_name", JStr rt);
                ("subnet_id", JStr i1); ("rt_id", JStr i2);
                ("subnet_rt_association_id", JStr i3) ]))))).
Proof.
  split.
  - intros region vpc_cidr vpc_name sg_name igw_name ec2 S run rec first second third.
    pose proof (configure_vpc_run aws profile_name region vpc_cidr vpc_name
                  sg_name igw_name m) as R.
    fold run in R. cbv zeta in R. rewrite S in R. to_chain R.
    split; [apply chain_first|]. split; [|split; [|split; [apply chain_length|]]].
    + intros call. split; [apply chain_second|].
      intros (i1 & H1 & ->). now apply chain_second_sent.
    + intros call. split; [apply chain_third|].
      intros (i1 & i2 & H1 & H2 & ->). now apply chain_third_sent.
    + intros (i1 & i2 & i3 & H1 & H2 & H3 & Hs & Hf)%chain_ok.
      exists i1, i2, i3. rewrite Hf. split; [exact H1|]. split; [exact H2|].
      split; [exact H3|]. split; [exact Hs|]. apply lookup_insert_eq.
  - intros vpc_name subnet_name cidr_substitute az rt is_public v ec2 L S O run rec
      first second third.
    pose proof (configure_subnet_loaded aws profile_name vpc_name subnet_name
                  cidr_substitute az rt is_public m v L) as R.
    fold run in R. cbv zeta in R. rewrite S, O in R. to_chain R.
    split; [apply chain_first|]. split; [|split; [|split; [apply chain_length|]]].
    + intros call. split; [apply chain_second|].
      intros (i1 & H1 & ->). now apply chain_second_sent.
    + intros call. split; [apply chain_third|].
      intros (i1 & i2 & H1 & H2 & ->). now apply chain_third_sent.
    + intros (i1 & i2 & i3 & H1 & H2 & H3 & Hs & Hf)%chain_ok.
      exists i1, i2, i3. rewrite Hf. split; [exact H1|]. split; [exact H2|].
      split; [exact H3|]. split; [exact Hs|]. apply lookup_insert_eq.
Qed.

Lemma creation_sequential_witness :
  (issued (demo_configure_vpc aws_ok) empty_machine
     = [ Call_create_vpc demo_vpc_init;
         Call_create_vpc_security_group
           (VpcConfig.mk "eu-west-1" "10.0.0.0/16" "demo" "demo-sg" "demo-igw"
              (Some "vpc-0a1") None None);
         Call_create_internet_gateway
           (VpcConfig.mk "eu-west-1" "10.0.0.0/16" "demo" "demo-sg" "demo-igw"
              (Some "vpc-0a1") (Some "sg-0b2") None) ] /\
   files (after (demo_configure_vpc aws_ok) empty_machine) !! "vpc_demo_config.json"
     = Some (Document (JObj
         [ ("region", JStr "eu-west-1"); ("vpc_cidr", JStr "10.0.0.0/16");
           ("vpc_name", JStr "demo"); ("sg_name", JStr "demo-sg");
           ("igw_name", JStr "demo-igw"); ("vpc_id", JStr "vpc-0a1");
           ("sg_id", JStr "sg-0b2"); ("igw_id", JStr "igw-0c3") ]))) /\
  (issued (demo_configure_subnet (aws_failing_at 1)) demo_machine !! 1
     = Some (Call_create_route_table
               (SubnetConfig.mk demo_vpc "demo-net" "7" "a" "demo-rt"
                  (Some "subnet-0d4") None None) true) /\
   issued (demo_configure_subnet aws_ok) demo_machine
     = [ Call_create_subnet demo_subnet_init;
         Call_create_route_table
           (SubnetConfig.mk demo_vpc "demo-net" "7" "a" "demo-rt"
              (Some "subnet-0d4") None None) true;
         Call_create_subnet_route_table_association
           (SubnetConfig.mk demo_vpc "demo-net" "7" "a" "demo-rt"
              (Some "subnet-0d4") (Some "rtb-0e5") None) ] /\
   files (after (demo_configure_subnet aws_ok) demo_machine)
     !! "subnet_demo_net_config.json"
     = Some (Document (JObj
         [ ("region", JStr "eu-west-1"); ("vpc_cidr", JStr "10.0.0.0/16");
           ("vpc_name", JStr "demo"); ("sg_name", JStr "demo-sg");
           ("igw_name", JStr "demo-igw"); ("vpc_id", JStr "vpc-0a1");
           ("sg_id", JStr "sg-0b2"); ("igw_id", JStr "igw-0c3");
           ("subnet_name", JStr "demo-net"); ("cidr_substitute", JStr "7");
           ("az_postfix", JStr "a"); ("rt_name", JStr "demo-rt");
           ("subnet_id", JStr "subnet-0d4"); ("rt_id", JStr "rtb-0e5");
           ("subnet_rt_association_id", JStr "rtbassoc-0f6") ]))).
Proof.
  unfold demo_configure_vpc, demo_configure_subnet, demo_vpc_init, demo_subnet_init.
  split.
  - destruct (creation_sequential aws_ok "admin" empty_machine) as [Hv _].
    destruct (Hv "eu-west-1" "10.0.0.0/16" "demo" "demo-sg" "demo-igw" ec2_ok eq_refl)
      as (_ & _ & _ & _ & Hok).
    destruct Hok as (i1 & i2 & i3 & E1 & E2 & E3 & Hs & Hf);
      [vm_compute; reflexivity|].
    injection E1 as <-. injection E2 as <-. injection E3 as <-.
    split; [exact Hs | exact Hf].
  - assert (L : outcome (_load_config (_parse_config_file_name "demo" "vpc"))
                  demo_machine = Ok (Some (IsVpc demo_vpc)))
      by (vm_compute; reflexivity).
    destruct (creation_sequential (aws_failing_at 1) "admin" demo_machine) as [_ Hf1].
    destruct (Hf1 "demo" "demo-net" "7" "a" "demo-rt" true demo_vpc (ec2_failing_at 1)
                L eq_refl eq_refl) as (_ & H1 & _).
    destruct (creation_sequential aws_ok "admin" demo_machine) as [_ Hs].
    destruct (Hs "demo" "demo-net" "7" "a" "demo-rt" true demo_vpc ec2_ok L eq_refl
                eq_refl) as (_ & _ & _ & _ & Hok).
    destruct Hok as (i1 & i2 & i3 & E1 & E2 & E3 & Hi & Hf);
      [vm_compute; reflexivity|].
    injection E1 as <-. injection E2 as <-. injection E3 as <-.
    split; [|split; [exact Hi | exact Hf]].
    apply H1. exists "subnet-0d4". split; reflexivity.
Defined.

(** C10.  A creation command writes its config file only after its three
    create calls have all returned.  If the command ends in an error, the
    directory is exactly as it was: no file created, none modified.  If one
    of the calls it issued raised, that error is the outcome and the call is
    the last one issued.  A run that changed the directory succeeded, with
    three calls issued and all three answered. *)
Theorem creation_writes_file_last (aws : boto3) (profile_name : string) (m : machine) :
  (forall region vpc_cidr vpc_name sg_name igw_name,
     let run := configure_vpc aws profile_name region vpc_cidr vpc_name sg_name
                  igw_name in
     (forall e, outcome run m = Error e -> files (after run m) = files m) /\
     (forall ec2 k e,
        Session_client aws profile_name region = Ok ec2 ->
        raised_at ec2 (calls m) (issued run m) k e ->
        outcome run m = Error e /\ length (issued run m) = S k /\
        files (after run m) = files m) /\
     (files (after run m) <> files m -> outcome run m = Ok tt) /\
     (outcome run m = Ok tt ->
        exists ec2,
          Session_client aws profile_name region = Ok ec2 /\
          length (issued run m) = 3 /\
          all_returned ec2 (calls m) (issued run m))) /\
  (forall vpc_name subnet_name cidr_substitute az rt is_public,
     let run := configure_subnet aws profile_name vpc_name subnet_name
                  cidr_substitute az rt is_public in
     (forall e, outcome run m = Error e -> files (after run m) = files m) /\
     (forall v ec2 k e,
        outcome (_load_config (_parse_config_file_name vpc_name "vpc")) m
          = Ok (Some (IsVpc v)) ->
        Session_client aws profile_name (VpcConfig.region v) = Ok ec2 ->
        raised_at ec2 (calls m) (issued run m) k e ->
        outcome run m = Error e /\ length (issued run m) = S k /\
        files (after run m) = files m) /\
     (files (after run m) <> files m -> outcome run m = Ok tt) /\
     (outcome run m = Ok tt ->
        exists v ec2,
          outcome (_load_config (_parse_config_file_name vpc_name "vpc")) m
            = Ok (Some (IsVpc v)) /\
          Session_client aws profile_name (VpcConfig.region v) = Ok ec2 /\
          length (issued run m) = 3 /\
          all_returned ec2 (calls m) (issued run m))).
Proof.
  split.
  - intros region vpc_cidr vpc_name sg_name igw_name run.
    assert (Herr : forall e, outcome run m = Error e -> files (after run m) = files m).
    { intros e.
      destruct (configure_vpc_cases aws profile_name region vpc_cidr vpc_name
                  sg_name igw_name m) as [[e' R]|(ec2 & S & R)]; fold run in R.
      - now stopped R.
      - to_chain R. apply chain_error_files. }
    split; [exact Herr|]. split; [|split].
    + intros ec2 k e S.
      pose proof (configure_vpc_run aws profile_name region vpc_cidr vpc_name
                    sg_name igw_name m) as R.
      fold run in R. cbv zeta in R. rewrite S in R. to_chain R.
      apply chain_raised.
    + intros Hne. destruct (outcome run m) as [[]|e] eqn:E; [reflexivity|].
      destruct Hne. exact (Herr e eq_refl).
    + destruct (configure_vpc_cases aws profile_name region vpc_cidr vpc_name
                  sg_name igw_name m) as [[e' R]|(ec2 & S & R)]; fold run in R.
      * stopped R. discriminate.
      * to_chain R. intros Hok. exists ec2. split; [exact S|].
        now apply chain_ok_all_returned in Hok.
  - intros vpc_name subnet_name cidr_substitute az rt is_public run.
    assert (Herr : forall e, outcome run m = Error e -> files (after run m) = files m).
    { intros e.
      destruct (configure_subnet_cases aws profile_name vpc_name subnet_name
                  cidr_substitute az rt is_public m)
        as [[e' R]|(v & ec2 & L & S & O & R)]; fold run in R.
      - now stopped R.
      - to_chain R. apply chain_error_files. }
    split; [exact Herr|]. split; [|split].
    + intros v ec2 k e L S.
      pose proof (configure_subnet_loaded aws profile_name vpc_name subnet_name
                    cidr_substitute az rt is_public m v L) as R.
      fold run in R. cbv zeta in R. rewrite S in R.
      destruct (octet_in_range cidr_substitute).
      * to_chain R. apply chain_raised.
      * stopped R. intros (call & Hk & _). destruct k; discriminate Hk.
    + intros Hne. destruct (outcome run m) as [[]|e] eqn:E; [reflexivity|].
      destruct Hne. exact (Herr e eq_refl).
    + destruct (configure_subnet_cases aws profile_name vpc_name subnet_name
                  cidr_substitute az rt is_public m)
        as [[e' R]|(v & ec2 & L & S & O & R)]; fold run in R.
      * stopped R. discriminate.
      * to_chain R. intros Hok. exists v, ec2.
        split; [exact L|]. split; [exact S|].
        now apply chain_ok_all_returned in Hok.
Qed.

Lemma creation_writes_file_last_witness :
  (files (after (demo_configure_vpc (aws_failing_at 0)) empty_machine)
     = files empty_machine /\
   (outcome (demo_configure_vpc (aws_failing_at 1)) empty_machine = Error throttled /\
    length (issued (demo_configure_vpc (aws_failing_at 1)) empty_machine) = 2 /\
    files (after (demo_configure_vpc (aws_failing_at 1)) empty_machine)
      = files empty_machine) /\
   outcome (demo_configure_vpc aws_ok) empty_machine = Ok tt /\
   exists ec2,
     Session_client aws_ok "admin" "eu-west-1" = Ok ec2 /\
     length (issued (demo_configure_vpc aws_ok) empty_machine) = 3 /\
     all_returned ec2 (calls empty_machine)
       (issued (demo_configure_vpc aws_ok) empty_machine)) /\
  (files (after (demo_configure_subnet (aws_failing_at 3)) demo_machine)
     = files demo_machine /\
   (outcome (demo_configure_subnet (aws_failing_at 5)) demo_machine = Error throttled /\
    length (issued (demo_configure_subnet (aws_failing_at 5)) demo_machine) = 3 /\
    files (after (demo_configure_subnet (aws_failing_at 5)) demo_machine)
      = files demo_machine) /\
   outcome (demo_configure_subnet aws_ok) demo_machine = Ok tt /\
   exists v ec2,
     outcome (_load_config (_parse_config_file_name "demo" "vpc")) demo_machine
       = Ok (Some (IsVpc v)) /\
     Session_client aws_ok "admin" (VpcConfig.region v) = Ok ec2 /\
     length (issued (demo_configure_subnet aws_ok) demo_machine) = 3 /\
     all_returned ec2 (calls demo_machine)
       (issued (demo_configure_subnet aws_ok) demo_machine)).
Proof.
  unfold demo_configure_vpc, demo_configure_subnet, throttled.
  split.
  - destruct (creation_writes_file_last (aws_failing_at 0) "admin" empty_machine)
      as [V0 _].
    destruct (creation_writes_file_last (aws_failing_at 1) "admin" empty_machine)
      as [V1 _].
    destruct (creation_writes_file_last aws_ok "admin" empty_machine) as [V _].
    destruct (V0 "eu-west-1" "10.0.0.0/16" "demo" "demo-sg" "demo-igw")
      as (Herr & _).
    destruct (V1 "eu-west-1" "10.0.0.0/16" "demo" "demo-sg" "demo-igw")
      as (_ & Hraised & _).
    destruct (V "eu-west-1" "10.0.0.0/16" "demo" "demo-sg" "demo-igw")
      as (_ & _ & Hchanged & Hok).
    split; [|split; [|split]].
    + apply (Herr (RemoteAPIError "RequestLimitExceeded")). vm_compute; reflexivity.
    + apply (Hraised (ec2_failing_at 1) 1 (RemoteAPIError "RequestLimitExceeded")).
      * reflexivity.
      * exists (Call_create_vpc_security_group
                  (VpcConfig.mk "eu-west-1" "10.0.0.0/16" "demo" "demo-sg" "demo-igw"
                     (Some "vpc-0a1") None None)).
        split; vm_compute; reflexivity.
    + apply Hchanged. intros H.
      apply (f_equal (fun fs => fs !! "vpc_demo_config.json")) in H.
      vm_compute in H. discriminate H.
    + apply Hok. vm_compute; reflexivity.
  - destruct (creation_writes_file_last (aws_failing_at 3) "admin" demo_machine)
      as [_ S3].
    destruct (creation_writes_file_last (aws_failing_at 5) "admin" demo_machine)
      as [_ S5].
    destruct (creation_writes_file_last aws_ok "admin" demo_machine) as [_ S].
    destruct (S3 "demo" "demo-net" "7" "a" "demo-rt" true) as (Herr & _).
    destruct (S5 "demo" "demo-net" "7" "a" "demo-rt" true) as (_ & Hraised & _).
    destruct (S "demo" "demo-net" "7" "a" "demo-rt" true) as (_ & _ & Hchanged & Hok).
    split; [|split; [|split]].
    + apply (Herr (RemoteAPIError "RequestLimitExceeded")). vm_compute; reflexivity.
    + apply (Hraised demo_vpc (ec2_failing_at 5) 2
               (RemoteAPIError "RequestLimitExceeded")).
      * vm_compute; reflexivity.
      * reflexivity.
      * exists (Call_create_subnet_route_table_association
                  (SubnetConfig.mk demo_vpc "demo-net" "7" "a" "demo-rt"
                     (Some "subnet-0d4") (Some "rtb-0e5") None)).
        split; vm_compute; reflexivity.
    + apply Hchanged. intros H.
      apply (f_equal (fun fs => fs !! "subnet_demo_net_config.json")) in H.
      vm_compute in H. discriminate H.
    + apply Hok. vm_compute; reflexivity.
Defined.

(** ** The third octet *)

(** C9.  The third octet of every subnet record is an integer from 5 to
    254: of every record the constructor builds, of every record decoded
    from a document, and so of every record the load operation returns.  A
    [configure-subnet] run whose [cidr_substitute] is outside the range, or
    no integer, ends in an error without a remote call and with the
    directory as it was, the error being [ValueError] when the VPC record
    and the session were there; no subnet record loaded afterwards, under
    any name, holds that value.  A run that succeeded was given a value in
    the range and persisted a record holding it. *)
Theorem cidr_substitute_constrained (aws : boto3) (profile_name : string)
    (m : machine) :
  (forall v subnet_name cidr_substitute az rt c,
     SubnetConfig.init v subnet_name cidr_substitute az rt = Ok c ->
     SubnetConfig.valid c /\ SubnetConfig.cidr_substitute c = cidr_substitute) /\
  (forall j c, SubnetConfig.from_config j = Ok c -> SubnetConfig.valid c) /\
  (forall name c,
     outcome (_load_config name) m = Ok (Some (IsSubnet c)) -> SubnetConfig.valid c) /\
  (forall vpc_name subnet_name cidr_substitute az rt is_public,
     let run := configure_subnet aws profile_name vpc_name subnet_name
                  cidr_substitute az rt is_public in
     (octet_in_range cidr_substitute = false ->
        (exists e, outcome run m = Error e) /\
        (forall v ec2,
           outcome (_load_config (_parse_config_file_name vpc_name "vpc")) m
             = Ok (Some (IsVpc v)) ->
           Session_client aws profile_name (VpcConfig.region v) = Ok ec2 ->
           outcome run m = Error ValueError) /\
        issued run m = [] /\
        after run m = m /\
        (forall name c,
           outcome (_load_config name) (after run m) = Ok (Some (IsSubnet c)) ->
           SubnetConfig.cidr_substitute c <> cidr_substitute)) /\
     (outcome run m = Ok tt ->
        octet_in_range cidr_substitute = true /\
        exists c,
          files (after run m) !! _parse_config_file_name subnet_name "subnet"
            = Some (Document (JObj (SubnetConfig.to_dict c))) /\
          SubnetConfig.cidr_substitute c = cidr_substitute /\
          SubnetConfig.valid c)).
Proof.
  split; [|split; [|split]].
  - intros v subnet_name cidr_substitute az rt c H.
    apply subnet_init_valid in H as [Hv ->]. split; [exact Hv | reflexivity].
  - exact subnet_from_config_valid.
  - intros name c. apply load_config_subnet_valid.
  - intros vpc_name subnet_name cidr_substitute az rt is_public run. split.
    + intros O.
      assert (R : exists e, run m = (Error e, m)).
      { destruct (configure_subnet_cases aws profile_name vpc_name subnet_name
                    cidr_substitute az rt is_public m)
          as [R|(v & ec2 & _ & _ & O' & _)]; [exact R | congruence]. }
      destruct R as [e R].
      split; [exists e; now apply observed_same in R|].
      split; [|split; [now apply observed_same in R|
               split; [now apply observed_same in R|]]].
      * intros v ec2 L S.
        pose proof (configure_subnet_loaded aws profile_name vpc_name subnet_name
                      cidr_substitute az rt is_public m v L) as R'.
        fold run in R'. rewrite S, O in R'. now apply observed_same in R'.
      * intros name c L Hc. apply load_config_subnet_valid in L.
        unfold SubnetConfig.valid in L. congruence.
    + intros Hok.
      apply configure_subnet_ok in Hok
        as (v & ec2 & i1 & i2 & i3 & _ & _ & O & _ & _ & _ & _ & Hf).
      split; [exact O|].
      exists (SubnetConfig.mk v subnet_name cidr_substitute az rt
                (Some i1) (Some i2) (Some i3)).
      fold run in Hf. rewrite Hf.
      split; [apply lookup_insert_eq|]. split; [reflexivity | exact O].
Qed.

Lemma cidr_substitute_constrained_witness :
  (SubnetConfig.valid demo_subnet_init /\
   SubnetConfig.cidr_substitute demo_subnet_init = "7") /\
  ((exists e, outcome (configure_subnet aws_ok "admin" "demo" "demo-net" "300" "a"
                         "demo-rt" true) demo_machine = Error e) /\
   outcome (configure_subnet aws_ok "admin" "demo" "demo-net" "300" "a" "demo-rt"
              true) demo_machine = Error ValueError /\
   issued (configure_subnet aws_ok "admin" "demo" "demo-net" "300" "a" "demo-rt"
             true) demo_machine = [] /\
   after (configure_subnet aws_ok "admin" "demo" "demo-net" "300" "a" "demo-rt"
            true) demo_machine = demo_machine) /\
  (octet_in_range "7" = true /\
   exists c,
     files (after (demo_configure_subnet aws_ok) demo_machine)
       !! _parse_config_file_name "demo-net" "subnet"
       = Some (Document (JObj (SubnetConfig.to_dict c))) /\
     SubnetConfig.cidr_substitute c = "7" /\
     SubnetConfig.valid c).
Proof.
  destruct (cidr_substitute_constrained aws_ok "admin" demo_machine)
    as (Hinit & _ & _ & Hrun).
  split; [|split].
  - apply (Hinit demo_vpc "demo-net" "7" "a" "demo-rt"). reflexivity.
  - destruct (Hrun "demo" "demo-net" "300" "a" "demo-rt" true) as [Hout _].
    destruct (Hout eq_refl) as (He & Hv & Hi & Ha & _).
    split; [exact He|]. split; [|split; [exact Hi | exact Ha]].
    apply (Hv demo_vpc ec2_ok); [vm_compute; reflexivity | reflexivity].
  - destruct (Hrun "demo" "demo-net" "7" "a" "demo-rt" true) as [_ Hok].
    apply Hok. vm_compute; reflexivity.
Defined.

(** Values at and around the ends of the range, and strings that are no
    integers. *)
Example octet_in_range_examples :
  octet_in_range "5" = true /\ octet_in_range "254" = true /\
  octet_in_range "4" = false /\ octet_in_range "255" = false /\
  octet_in_range "" = false /\ octet_in_range "abc" = false /\
  octet_in_range "3" = false /\ octet_in_range "300" = false.
Proof. repeat split. Qed.

(** A subnet file edited to hold an octet out of range does not load. *)
Example out_of_range_document_not_loaded :
  SubnetConfig.from_config out_of_range_document = Error MalformedConfigError /\
  outcome (_load_config "subnet_demo_net_config.json")
    (on_disk {[ "subnet_demo_net_config.json" := Document out_of_range_document ]})
  = Error MalformedConfigError.
Proof. split; vm_compute; reflexivity. Qed.

(** * Further properties of the commands *)

(** ** One command, one file *)

(** X1.  Each command changes at most the one file named after the
    resource it was called for: every other file of the directory is, after
    the run, exactly what it was before, whatever the outcome.  In
    particular [configure_subnet] leaves the VPC file it read as it was. *)
Theorem commands_leave_other_files (aws : boto3) (profile_name : string)
    (m : machine) (other : string) :
  (forall region vpc_cidr vpc_name sg_name igw_name,
     other <> _parse_config_file_name vpc_name "vpc" ->
     files (after (configure_vpc aws profile_name region vpc_cidr vpc_name sg_name
                     igw_name) m) !! other = files m !! other) /\
  (forall vpc_name,
     other <> _parse_config_file_name vpc_name "vpc" ->
     files (after (remove_vpc aws profile_name vpc_name) m) !! other
       = files m !! other) /\
  (forall vpc_name subnet_name cidr_substitute az rt is_public,
     other <> _parse_config_file_name subnet_name "subnet" ->
     files (after (configure_subnet aws profile_name vpc_name subnet_name
                     cidr_substitute az rt is_public) m) !! other
       = files m !! other) /\
  (forall subnet_name,
     other <> _parse_config_file_name subnet_name "subnet" ->
     files (after (remove_subnet aws profile_name subnet_name) m) !! other
       = files m !! other) /\
  (forall vpc_name subnet_name cidr_substitute az rt is_public,
     files (after (configure_subnet aws profile_name vpc_name subnet_name
                     cidr_substitute az rt is_public) m)
       !! _parse_config_file_name vpc_name "vpc"
     = files m !! _parse_config_file_name vpc_name "vpc").
Proof.
  assert (Hsub : forall o vpc_name subnet_name cidr_substitute az rt is_public,
            o <> _parse_config_file_name subnet_name "subnet" ->
            files (after (configure_subnet aws profile_name vpc_name subnet_name
                            cidr_substitute az rt is_public) m) !! o
              = files m !! o).
  { intros o vpc_name subnet_name cidr_substitute az rt is_public Hne.
    destruct (configure_subnet_cases aws profile_name vpc_name subnet_name
                cidr_substitute az rt is_public m)
      as [[e R]|(v & ec2 & _ & _ & _ & R)].
    - now stopped R.
    - cbv zeta in R. to_chain R. apply chain_frame.
      intros i1 i2 i3 fs. now apply lookup_insert_ne. }
  split; [|split; [|split; [|split]]].
  - intros region vpc_cidr vpc_name sg_name igw_name Hne.
    destruct (configure_vpc_cases aws profile_name region vpc_cidr vpc_name
                sg_name igw_name m) as [[e R]|(ec2 & _ & R)].
    + now stopped R.
    + to_chain R. apply chain_frame.
      intros i1 i2 i3 fs. now apply lookup_insert_ne.
  - intros vpc_name Hne.
    destruct (remove_vpc_cases aws profile_name vpc_name m)
      as [[e R]|(c & ec2 & _ & _ & R)].
    + now stopped R.
    + to_chain R. apply chain_frame.
      intros i1 i2 i3 fs. now apply lookup_delete_ne.
  - intros vpc_name subnet_name cidr_substitute az rt is_public.
    apply Hsub.
  - intros subnet_name Hne.
    destruct (remove_subnet_cases aws profile_name subnet_name m)
      as [[e R]|(c & ec2 & _ & _ & R)].
    + now stopped R.
    + to_chain R. apply chain_frame.
      intros i1 i2 i3 fs. now apply lookup_delete_ne.
  - intros vpc_name subnet_name cidr_substitute az rt is_public.
    apply Hsub. apply vpc_subnet_names_differ.
Qed.

Lemma commands_leave_other_files_witness :
  ("subnet_demo_net_config.json" <> _parse_config_file_name "demo" "vpc" /\
   files (after (demo_configure_vpc aws_ok) demo_subnet_machine)
     !! "subnet_demo_net_config.json"
   = files demo_subnet_machine !! "subnet_demo_net_config.json" /\
   files (after (demo_remove_vpc aws_ok) demo_subnet_machine)
     !! "subnet_demo_net_config.json"
   = files demo_subnet_machine !! "subnet_demo_net_config.json") /\
  ("vpc_demo_config.json" <> _parse_config_file_name "demo-net" "subnet" /\
   files (after (demo_configure_subnet aws_ok) demo_subnet_machine)
     !! "vpc_demo_config.json"
   = files demo_subnet_machine !! "vpc_demo_config.json" /\
   files (after (demo_remove_subnet aws_ok) demo_subnet_machine)
     !! "vpc_demo_config.json"
   = files demo_subnet_machine !! "vpc_demo_config.json").
Proof.
  unfold demo_configure_vpc, demo_remove_vpc, demo_configure_subnet,
    demo_remove_subnet.
  assert (H1 : "subnet_demo_net_config.json" <> _parse_config_file_name "demo" "vpc")
    by (intros H; discriminate H).
  assert (H2 : "vpc_demo_config.json" <> _parse_config_file_name "demo-net" "subnet")
    by (intros H; discriminate H).
  destruct (commands_leave_other_files aws_ok "admin" demo_subnet_machine
              "subnet_demo_net_config.json") as (Hcv & Hrv & _ & _ & _).
  destruct (commands_leave_other_files aws_ok "admin" demo_subnet_machine
              "vpc_demo_config.json") as (_ & _ & Hcs & Hrs & _).
  split; (split; [assumption|split]).
  - exact (Hcv "eu-west-1" "10.0.0.0/16" "demo" "demo-sg" "demo-igw" H1).
  - exact (Hrv "demo" H1).
  - exact (Hcs "demo" "demo-net" "7" "a" "demo-rt" true H2).
  - exact (Hrs "demo-net" H2).
Defined.

(** ** No rollback *)

(** X2.  Whatever the outcome, a creation command issues create calls
    only and a removal command delete calls only: when a step fails, nothing
    that was created is deleted again and nothing that was deleted is
    created again. *)
Theorem commands_never_roll_back (aws : boto3) (profile_name : string) (m : machine) :
  (forall region vpc_cidr vpc_name sg_name igw_name,
     Forall (fun k => action_of k = Create)
       (issued (configure_vpc aws profile_name region vpc_cidr vpc_name sg_name
                  igw_name) m)) /\
  (forall vpc_name subnet_name cidr_substitute az rt is_public,
     Forall (fun k => action_of k = Create)
       (issued (configure_subnet aws profile_name vpc_name subnet_name
                  cidr_substitute az rt is_public) m)) /\
  (forall vpc_name,
     Forall (fun k => action_of k = Delete)
       (issued (remove_vpc aws profile_name vpc_name) m)) /\
  (forall subnet_name,
     Forall (fun k => action_of k = Delete)
       (issued (remove_subnet aws profile_name subnet_name) m)).
Proof.
  split; [|split; [|split]].
  - intros region vpc_cidr vpc_name sg_name igw_name.
    destruct (configure_vpc_cases aws profile_name region vpc_cidr vpc_name
                sg_name igw_name m) as [[e R]|(ec2 & _ & R)].
    + stopped R. constructor.
    + to_chain R. now apply chain_actions.
  - intros vpc_name subnet_name cidr_substitute az rt is_public.
    destruct (configure_subnet_cases aws profile_name vpc_name subnet_name
                cidr_substitute az rt is_public m)
      as [[e R]|(v & ec2 & _ & _ & _ & R)].
    + stopped R. constructor.
    + cbv zeta in R. to_chain R. now apply chain_actions.
  - intros vpc_name.
    destruct (remove_vpc_cases aws profile_name vpc_name m)
      as [[e R]|(c & ec2 & _ & _ & R)].
    + stopped R. constructor.
    + to_chain R. now apply chain_actions.
  - intros subnet_name.
    destruct (remove_subnet_cases aws profile_name subnet_name m)
      as [[e R]|(c & ec2 & _ & _ & R)].
    + stopped R. constructor.
    + to_chain R. now apply chain_actions.
Qed.

(** ** The loader on other file names *)

(** X3.  Under a file name that begins neither with [vpc] nor with
    [subnet], [_load_config] still opens and decodes the file first: a text
    that is not JSON raises, but any JSON document at all, whatever its
    shape, is accepted and dropped, and the caller gets [None] instead of a
    record or an error.  The test is case-sensitive. *)
Theorem load_config_unknown_prefix (name : string) (m : machine) :
  Py.str_startswith "vpc" name = false ->
  Py.str_startswith "subnet" name = false ->
  (forall raw, files m !! name = Some (Unparsable raw) ->
     _load_config name m = (Error MalformedConfigError, m)) /\
  (forall j, files m !! name = Some (Document j) ->
     _load_config name m = (Ok None, m)).
Proof.
  intros Hv Hs. split.
  - intros raw H. exact (load_config_unparsable name m raw H).
  - intros j H. exact (load_config_other name m j H Hv Hs).
Qed.

Lemma load_config_unknown_prefix_witness :
  (Py.str_startswith "vpc" "notes.json" = false /\
   Py.str_startswith "subnet" "notes.json" = false /\
   _load_config "notes.json" stray_machine = (Ok None, stray_machine)) /\
  (Py.str_startswith "vpc" "README" = false /\
   Py.str_startswith "subnet" "README" = false /\
   _load_config "README" stray_machine = (Error MalformedConfigError, stray_machine)) /\
  (Py.str_startswith "vpc" "VPC_demo_config.json" = false /\
   Py.str_startswith "subnet" "VPC_demo_config.json" = false /\
   _load_config "VPC_demo_config.json" capitals_machine
   = (Ok None, capitals_machine)).
Proof.
  split; [|split]; (split; [reflexivity|split; [reflexivity|]]).
  - apply (proj2 (load_config_unknown_prefix "notes.json" stray_machine
                    eq_refl eq_refl) (JArr [JStr "todo"])).
    vm_compute; reflexivity.
  - apply (proj1 (load_config_unknown_prefix "README" stray_machine
                    eq_refl eq_refl) "params of the demo account").
    vm_compute; reflexivity.
  - apply (proj2 (load_config_unknown_prefix "VPC_demo_config.json" capitals_machine
                    eq_refl eq_refl) (JObj (VpcConfig.to_dict demo_vpc))).
    vm_compute; reflexivity.
Defined.

(** ** Stopping before the first request *)

(** X4.  When [boto3] refuses the session, the command stops with that
    error before any remote call and leaves the machine as it was.
    [configure_vpc] opens the session in the region of its [--region]
    option; the three other commands have no such option and open it in the
    region stored in the record they loaded. *)
Theorem session_error_stops_command (aws : boto3) (profile_name : string)
    (m : machine) (e : error) :
  (forall region vpc_cidr vpc_name sg_name igw_name,
     Session_client aws profile_name region = Error e ->
     configure_vpc aws profile_name region vpc_cidr vpc_name sg_name igw_name m
       = (Error e, m)) /\
  (forall vpc_name c,
     outcome (_load_config (_parse_config_file_name vpc_name "vpc")) m
       = Ok (Some (IsVpc c)) ->
     Session_client aws profile_name (VpcConfig.region c) = Error e ->
     remove_vpc aws profile_name vpc_name m = (Error e, m) /\
     forall subnet_name cidr_substitute az rt is_public,
       configure_subnet aws profile_name vpc_name subnet_name cidr_substitute az rt
         is_public m = (Error e, m)) /\
  (forall subnet_name c,
     outcome (_load_config (_parse_config_file_name subnet_name "subnet")) m
       = Ok (Some (IsSubnet c)) ->
     Session_client aws profile_name (SubnetConfig.region c) = Error e ->
     remove_subnet aws profile_name subnet_name m = (Error e, m)).
Proof.
  split; [|split].
  - intros region vpc_cidr vpc_name sg_name igw_name S.
    pose proof (configure_vpc_run aws profile_name region vpc_cidr vpc_name
                  sg_name igw_name m) as R.
    cbv zeta in R. now rewrite S in R.
  - intros vpc_name c L S. split.
    + pose proof (remove_vpc_loaded aws profile_name vpc_name m c L) as R.
      cbv zeta in R. now rewrite S in R.
    + intros subnet_name cidr_substitute az rt is_public.
      pose proof (configure_subnet_loaded aws profile_name vpc_name subnet_name
                    cidr_substitute az rt is_public m c L) as R.
      cbv zeta in R. now rewrite S in R.
  - intros subnet_name c L S.
    pose proof (remove_subnet_loaded aws profile_name subnet_name m c L) as R.
    cbv zeta in R. now rewrite S in R.
Qed.

Lemma session_error_stops_command_witness :
  demo_configure_vpc aws_no_profile empty_machine
    = (Error (ProfileError "admin"), empty_machine) /\
  (demo_remove_vpc aws_no_profile demo_subnet_machine
     = (Error (ProfileError "admin"), demo_subnet_machine) /\
   demo_configure_subnet aws_no_profile demo_subnet_machine
     = (Error (ProfileError "admin"), demo_subnet_machine)) /\
  demo_remove_subnet aws_no_profile demo_subnet_machine
    = (Error (ProfileError "admin"), demo_subnet_machine).
Proof.
  unfold demo_configure_vpc, demo_remove_vpc, demo_configure_subnet,
    demo_remove_subnet.
  destruct (session_error_stops_command aws_no_profile "admin" empty_machine
              (ProfileError "admin")) as (Hcv & _ & _).
  destruct (session_error_stops_command aws_no_profile "admin" demo_subnet_machine
              (ProfileError "admin")) as (_ & Hv & Hs).
  split; [|split].
  - exact (Hcv "eu-west-1" "10.0.0.0/16" "demo" "demo-sg" "demo-igw" eq_refl).
  - assert (L : outcome (_load_config (_parse_config_file_name "demo" "vpc"))
                  demo_subnet_machine = Ok (Some (IsVpc demo_vpc)))
      by (vm_compute; reflexivity).
    destruct (Hv "demo" demo_vpc L eq_refl) as [Hr Hc].
    split; [exact Hr|]. exact (Hc "demo-net" "7" "a" "demo-rt" true).
  - apply (Hs "demo-net" demo_subnet); [vm_compute; reflexivity | reflexivity].
Defined.

(** X5.  A config file whose text is not JSON blocks every command that
    has to read it: [remove_vpc] and [configure_subnet] on the VPC file,
    [remove_subnet] on the subnet file, stop with the decoding error before
    any remote call, and the file stays where it is. *)
Theorem undecodable_file_blocks_commands (aws : boto3) (profile_name : string)
    (m : machine) (raw : string) :
  (forall vpc_name,
     files m !! _parse_config_file_name vpc_name "vpc" = Some (Unparsable raw) ->
     remove_vpc aws profile_name vpc_name m = (Error MalformedConfigError, m) /\
     forall subnet_name cidr_substitute az rt is_public,
       configure_subnet aws profile_name vpc_name subnet_name cidr_substitute az rt
         is_public m = (Error MalformedConfigError, m)) /\
  (forall subnet_name,
     files m !! _parse_config_file_name subnet_name "subnet" = Some (Unparsable raw) ->
     remove_subnet aws profile_name subnet_name m = (Error MalformedConfigError, m)).
Proof.
  split.
  - intros vpc_name H.
    assert (L : outcome (_load_config (_parse_config_file_name vpc_name "vpc")) m
                = Error MalformedConfigError).
    { unfold outcome. now rewrite (load_config_unparsable _ _ _ H). }
    split.
    + now apply remove_vpc_load_error.
    + intros. now apply configure_subnet_load_error.
  - intros subnet_name H.
    apply remove_subnet_load_error.
    unfold outcome. now rewrite (load_config_unparsable _ _ _ H).
Qed.

Lemma undecodable_file_blocks_commands_witness :
  (files truncated_machine !! _parse_config_file_name "demo" "vpc"
     = Some (Unparsable "{") /\
   demo_remove_vpc aws_ok truncated_machine
     = (Error MalformedConfigError, truncated_machine) /\
   demo_configure_subnet aws_ok truncated_machine
     = (Error MalformedConfigError, truncated_machine)) /\
  (files truncated_subnet_machine !! _parse_config_file_name "demo-net" "subnet"
     = Some (Unparsable "{") /\
   demo_remove_subnet aws_ok truncated_subnet_machine
     = (Error MalformedConfigError, truncated_subnet_machine)).
Proof.
  unfold demo_remove_vpc, demo_configure_subnet, demo_remove_subnet.
  assert (Hv : files truncated_machine !! _parse_config_file_name "demo" "vpc"
               = Some (Unparsable "{")) by (vm_compute; reflexivity).
  assert (Hs : files truncated_subnet_machine
                 !! _parse_config_file_name "demo-net" "subnet"
               = Some (Unparsable "{")) by (vm_compute; reflexivity).
  split.
  - destruct (proj1 (undecodable_file_blocks_commands aws_ok "admin"
                       truncated_machine "{") "demo" Hv) as [Hr Hc].
    split; [exact Hv|]. split; [exact Hr|].
    exact (Hc "demo-net" "7" "a" "demo-rt" true).
  - split; [exact Hs|].
    exact (proj2 (undecodable_file_blocks_commands aws_ok "admin"
                    truncated_subnet_machine "{") "demo-net" Hs).
Defined.

(** X6.  When the directory holds no config file for the subnet name,
    [remove_subnet] fails before any remote call: it issues none and leaves
    the machine as it was.  The error is [NotFoundError] when the file
    system takes the file name, and the error of the file system when it
    does not. *)
Theorem remove_subnet_missing_file (aws : boto3) (profile_name subnet_name : string)
    (m : machine) :
  files m !! _parse_config_file_name subnet_name "subnet" = None ->
  (refused m (_parse_config_file_name subnet_name "subnet") = None ->
   remove_subnet aws profile_name subnet_name m = (Error NotFoundError, m)) /\
  (forall e, refused m (_parse_config_file_name subnet_name "subnet") = Some e ->
   remove_subnet aws profile_name subnet_name m = (Error e, m)) /\
  issued (remove_subnet aws profile_name subnet_name) m = [] /\
  after (remove_subnet aws profile_name subnet_name) m = m.
Proof.
  intros H.
  assert (E : remove_subnet aws profile_name subnet_name m
              = (Error (no_such_file m (_parse_config_file_name subnet_name "subnet")),
                 m)).
  { apply remove_subnet_load_error. unfold outcome.
    now rewrite (load_config_missing _ _ H). }
  split; [|split; [|split]].
  - intros R. rewrite E. unfold no_such_file. now rewrite R.
  - intros e R. rewrite E. unfold no_such_file. now rewrite R.
  - now apply observed_same in E.
  - now apply observed_same in E.
Qed.

Lemma remove_subnet_missing_file_witness :
  (files demo_machine !! _parse_config_file_name "demo-net" "subnet" = None /\
   remove_subnet aws_ok "admin" "demo-net" demo_machine
     = (Error NotFoundError, demo_machine) /\
   issued (remove_subnet aws_ok "admin" "demo-net") demo_machine = []) /\
  (files demo_machine !! _parse_config_file_name long_name "subnet" = None /\
   remove_subnet aws_ok "admin" long_name demo_machine
     = (Error NameTooLongError, demo_machine)) /\
  (files demo_machine !! _parse_config_file_name nested_name "subnet" = None /\
   remove_subnet aws_ok "admin" nested_name demo_machine
     = (Error NotFoundError, demo_machine)).
Proof.
  assert (H : files demo_machine !! _parse_config_file_name "demo-net" "subnet" = None)
    by (vm_compute; reflexivity).
  assert (Hl : files demo_machine !! _parse_config_file_name long_name "subnet" = None)
    by (vm_compute; reflexivity).
  assert (Hn : files demo_machine !! _parse_config_file_name nested_name "subnet" = None)
    by (vm_compute; reflexivity).
  destruct (remove_subnet_missing_file aws_ok "admin" "demo-net" demo_machine H)
    as (Hnone & _ & Hi & _).
  destruct (remove_subnet_missing_file aws_ok "admin" long_name demo_machine Hl)
    as (_ & Hlong & _).
  destruct (remove_subnet_missing_file aws_ok "admin" nested_name demo_machine Hn)
    as (_ & Hnested & _).
  split; [|split].
  - split; [exact H|]. split; [|exact Hi]. apply Hnone. vm_compute; reflexivity.
  - split; [exact Hl|]. apply Hlong. vm_compute; reflexivity.
  - split; [exact Hn|]. apply Hnested. vm_compute; reflexivity.
Defined.

(** ** Running a command twice *)

(** X7.  A removal that succeeded cannot be repeated: run again for the
    same name, with any profile, it finds no file, fails with
    [NotFoundError] and issues no remote call. *)
Theorem second_removal_not_found (aws aws' : boto3) (profile_name profile_name' : string)
    (m : machine) :
  (forall vpc_name,
     let first := remove_vpc aws profile_name vpc_name in
     let second := remove_vpc aws' profile_name' vpc_name in
     outcome first m = Ok tt ->
     second (after first m) = (Error NotFoundError, after first m) /\
     issued second (after first m) = []) /\
  (forall subnet_name,
     let first := remove_subnet aws profile_name subnet_name in
     let second := remove_subnet aws' profile_name' subnet_name in
     outcome first m = Ok tt ->
     second (after first m) = (Error NotFoundError, after first m) /\
     issued second (after first m) = []).
Proof.
  split.
  - intros vpc_name first second Hok.
    pose proof (remove_vpc_ok_name aws profile_name vpc_name m Hok) as Hn.
    pose proof (remove_vpc_refused aws profile_name vpc_name m) as Hr.
    apply remove_vpc_ok in Hok as (c & ec2 & _ & _ & _ & _ & Hf).
    fold first in Hf, Hr.
    assert (E : second (after first m) = (Error NotFoundError, after first m)).
    { apply remove_vpc_load_error. unfold outcome.
      rewrite load_config_not_found; [reflexivity| |].
      - rewrite Hf. apply lookup_delete_eq.
      - now rewrite Hr. }
    split; [exact E|]. now apply observed_same in E.
  - intros subnet_name first second Hok.
    pose proof (remove_subnet_ok_name aws profile_name subnet_name m Hok) as Hn.
    pose proof (remove_subnet_refused aws profile_name subnet_name m) as Hr.
    apply remove_subnet_ok in Hok as (c & ec2 & _ & _ & _ & _ & Hf).
    fold first in Hf, Hr.
    assert (E : second (after first m) = (Error NotFoundError, after first m)).
    { apply remove_subnet_load_error. unfold outcome.
      rewrite load_config_not_found; [reflexivity| |].
      - rewrite Hf. apply lookup_delete_eq.
      - now rewrite Hr. }
    split; [exact E|]. now apply observed_same in E.
Qed.

Lemma second_removal_not_found_witness :
  (outcome (demo_remove_vpc aws_ok) demo_subnet_machine = Ok tt /\
   demo_remove_vpc (aws_failing_at 0) (after (demo_remove_vpc aws_ok) demo_subnet_machine)
     = (Error NotFoundError, after (demo_remove_vpc aws_ok) demo_subnet_machine) /\
   issued (demo_remove_vpc (aws_failing_at 0))
     (after (demo_remove_vpc aws_ok) demo_subnet_machine) = []) /\
  (outcome (demo_remove_subnet aws_ok) demo_subnet_machine = Ok tt /\
   demo_remove_subnet aws_ok (after (demo_remove_subnet aws_ok) demo_subnet_machine)
     = (Error NotFoundError, after (demo_remove_subnet aws_ok) demo_subnet_machine) /\
   issued (demo_remove_subnet aws_ok)
     (after (demo_remove_subnet aws_ok) demo_subnet_machine) = []).
Proof.
  unfold demo_remove_vpc, demo_remove_subnet.
  assert (Hv : outcome (remove_vpc aws_ok "admin" "demo") demo_subnet_machine = Ok tt)
    by (vm_compute; reflexivity).
  assert (Hs : outcome (remove_subnet aws_ok "admin" "demo-net") demo_subnet_machine
               = Ok tt) by (vm_compute; reflexivity).
  split.
  - split; [exact Hv|].
    exact (proj1 (second_removal_not_found aws_ok (aws_failing_at 0) "admin" "admin"
                    demo_subnet_machine) "demo" Hv).
  - split; [exact Hs|].
    exact (proj2 (second_removal_not_found aws_ok aws_ok "admin" "admin"
                    demo_subnet_machine) "demo-net" Hs).
Defined.

(** ** Creation followed by another command *)

(** X8.  A successful creation followed by a successful removal of the
    same name: the removal issues its three delete calls on the record that
    holds exactly the identifiers the client returned to the three create
    calls, and the directory ends as it began, less any file the creation
    had overwritten (so, unchanged when the name was new). *)
Theorem creation_then_removal (aws aws' : boto3) (profile_name profile_name' : string)
    (m : machine) :
  (forall region vpc_cidr vpc_name sg_name igw_name,
     let name := _parse_config_file_name vpc_name "vpc" in
     let creation := configure_vpc aws profile_name region vpc_cidr vpc_name sg_name
                       igw_name in
     let removal := remove_vpc aws' profile_name' vpc_name in
     let rec := VpcConfig.mk region vpc_cidr vpc_name sg_name igw_name in
     outcome creation m = Ok tt ->
     outcome removal (after creation m) = Ok tt ->
     exists ec2 i1 i2 i3,
       Session_client aws profile_name region = Ok ec2 /\
       ec2 (calls m) (Call_create_vpc (rec None None None)) = Ok i1 /\
       ec2 (calls m ++ [Call_create_vpc (rec None None None)])
         (Call_create_vpc_security_group (rec (Some i1) None None)) = Ok i2 /\
       ec2 (calls m ++ [Call_create_vpc (rec None None None);
                        Call_create_vpc_security_group (rec (Some i1) None None)])
         (Call_create_internet_gateway (rec (Some i1) (Some i2) None)) = Ok i3 /\
       issued removal (after creation m) =
         [ Call_delete_internet_gateway (rec (Some i1) (Some i2) (Some i3));
           Call_delete_security_group (rec (Some i1) (Some i2) (Some i3));
           Call_delete_vpc (rec (Some i1) (Some i2) (Some i3)) ] /\
       files (after removal (after creation m)) = delete name (files m) /\
       (files m !! name = None -> files (after removal (after creation m)) = files m)) /\
  (forall vpc_name subnet_name cidr_substitute az rt is_public,
     let name := _parse_config_file_name subnet_name "subnet" in
     let creation := configure_subnet aws profile_name vpc_name subnet_name
                       cidr_substitute az rt is_public in
     let removal := remove_subnet aws' profile_name' subnet_name in
     outcome creation m = Ok tt ->
     outcome removal (after creation m) = Ok tt ->
     exists v ec2 i1 i2 i3,
       let rec := SubnetConfig.mk v subnet_name cidr_substitute az rt in
       outcome (_load_config (_parse_config_file_name vpc_name "vpc")) m
         = Ok (Some (IsVpc v)) /\
       Session_client aws profile_name (VpcConfig.region v) = Ok ec2 /\
       ec2 (calls m) (Call_create_subnet (rec None None None)) = Ok i1 /\
       ec2 (calls m ++ [Call_create_subnet (rec None None None)])
         (Call_create_route_table (rec (Some i1) None None) is_public) = Ok i2 /\
       ec2 (calls m ++ [Call_create_subnet (rec None None None);
                        Call_create_route_table (rec (Some i1) None None) is_public])
         (Call_create_subnet_route_table_association (rec (Some i1) (Some i2) None))
         = Ok i3 /\
       issued removal (after creation m) =
         [ Call_delete_subnet_route_table_association
             (rec (Some i1) (Some i2) (Some i3));
           Call_delete_route_table (rec (Some i1) (Some i2) (Some i3));
           Call_delete_subnet (rec (Some i1) (Some i2) (Some i3)) ] /\
       files (after removal (after creation m)) = delete name (files m) /\
       (files m !! name = None -> files (after removal (after creation m)) = files m)).
Proof.
  split.
  - intros region vpc_cidr vpc_name sg_name igw_name name creation removal rec Hc Hr.
    apply configure_vpc_ok in Hc as (ec2 & i1 & i2 & i3 & S & H1 & H2 & H3 & _ & Hf).
    apply remove_vpc_ok in Hr as (c & ec2' & L & _ & Hi' & _ & Hd).
    fold creation in Hf, L, Hi', Hd. fold removal in Hi', Hd. fold rec in H1, H2, H3, Hf.
    fold name in Hf, Hd.
    rewrite (load_written_vpc vpc_name (after creation m)
               (rec (Some i1) (Some i2) (Some i3))) in L
      by (rewrite Hf; apply lookup_insert_eq).
    injection L as <-.
    exists ec2, i1, i2, i3. rewrite Hd, Hf, delete_insert_eq.
    split; [exact S|]. split; [exact H1|]. split; [exact H2|]. split; [exact H3|].
    split; [exact Hi'|]. split; [reflexivity|]. apply delete_id.
  - intros vpc_name subnet_name cidr_substitute az rt is_public name creation removal
      Hc Hr.
    apply configure_subnet_ok in Hc
      as (v & ec2 & i1 & i2 & i3 & Lv & S & O & H1 & H2 & H3 & _ & Hf).
    apply remove_subnet_ok in Hr as (c & ec2' & L & _ & Hi' & _ & Hd).
    fold creation in Hf, L, Hi', Hd. fold removal in Hi', Hd. fold name in Hf, Hd.
    rewrite (load_written_subnet subnet_name (after creation m)
               (SubnetConfig.mk v subnet_name cidr_substitute az rt
                  (Some i1) (Some i2) (Some i3)) O) in L
      by (rewrite Hf; apply lookup_insert_eq).
    injection L as <-.
    exists v, ec2, i1, i2, i3. cbv zeta. rewrite Hd, Hf, delete_insert_eq.
    split; [exact Lv|]. split; [exact S|]. split; [exact H1|]. split; [exact H2|].
    split; [exact H3|]. split; [exact Hi'|]. split; [reflexivity|]. apply delete_id.
Qed.

Lemma creation_then_removal_witness :
  (outcome (demo_configure_vpc aws_ok) empty_machine = Ok tt /\
   outcome (demo_remove_vpc aws_ok) (after (demo_configure_vpc aws_ok) empty_machine)
     = Ok tt /\
   files empty_machine !! _parse_config_file_name "demo" "vpc" = None /\
   issued (demo_remove_vpc aws_ok) (after (demo_configure_vpc aws_ok) empty_machine)
     = [ Call_delete_internet_gateway demo_vpc; Call_delete_security_group demo_vpc;
         Call_delete_vpc demo_vpc ] /\
   files (after (demo_remove_vpc aws_ok)
            (after (demo_configure_vpc aws_ok) empty_machine)) = files empty_machine) /\
  (outcome (demo_configure_subnet aws_ok) demo_machine = Ok tt /\
   outcome (demo_remove_subnet aws_ok) (after (demo_configure_subnet aws_ok) demo_machine)
     = Ok tt /\
   files demo_machine !! _parse_config_file_name "demo-net" "subnet" = None /\
   issued (demo_remove_subnet aws_ok)
     (after (demo_configure_subnet aws_ok) demo_machine)
     = [ Call_delete_subnet_route_table_association demo_subnet;
         Call_delete_route_table demo_subnet; Call_delete_subnet demo_subnet ] /\
   files (after (demo_remove_subnet aws_ok)
            (after (demo_configure_subnet aws_ok) demo_machine)) = files demo_machine).
Proof.
  unfold demo_configure_vpc, demo_remove_vpc, demo_configure_subnet,
    demo_remove_subnet, demo_vpc, demo_subnet.
  split.
  - assert (Hc : outcome (configure_vpc aws_ok "admin" "eu-west-1" "10.0.0.0/16" "demo"
                            "demo-sg" "demo-igw") empty_machine = Ok tt)
      by (vm_compute; reflexivity).
    assert (Hr : outcome (remove_vpc aws_ok "admin" "demo")
                   (after (configure_vpc aws_ok "admin" "eu-west-1" "10.0.0.0/16"
                             "demo" "demo-sg" "demo-igw") empty_machine) = Ok tt)
      by (vm_compute; reflexivity).
    assert (Hn : files empty_machine !! _parse_config_file_name "demo" "vpc" = None)
      by (vm_compute; reflexivity).
    destruct (proj1 (creation_then_removal aws_ok aws_ok "admin" "admin" empty_machine)
                "eu-west-1" "10.0.0.0/16" "demo" "demo-sg" "demo-igw" Hc Hr)
      as (ec2 & i1 & i2 & i3 & S & E1 & E2 & E3 & Hi & _ & Hfresh).
    injection S as <-. injection E1 as <-. injection E2 as <-. injection E3 as <-.
    split; [exact Hc|]. split; [exact Hr|]. split; [exact Hn|].
    split; [exact Hi | exact (Hfresh Hn)].
  - assert (Hc : outcome (configure_subnet aws_ok "admin" "demo" "demo-net" "7" "a"
                            "demo-rt" true) demo_machine = Ok tt)
      by (vm_compute; reflexivity).
    assert (Hr : outcome (remove_subnet aws_ok "admin" "demo-net")
                   (after (configure_subnet aws_ok "admin" "demo" "demo-net" "7" "a"
                             "demo-rt" true) demo_machine) = Ok tt)
      by (vm_compute; reflexivity).
    assert (Hn : files demo_machine !! _parse_config_file_name "demo-net" "subnet"
                 = None) by (vm_compute; reflexivity).
    destruct (proj2 (creation_then_removal aws_ok aws_ok "admin" "admin" demo_machine)
                "demo" "demo-net" "7" "a" "demo-rt" true Hc Hr)
      as (v & ec2 & i1 & i2 & i3 & L & S & E1 & E2 & E3 & Hi & _ & Hfresh).
    assert (Lv : outcome (_load_config (_parse_config_file_name "demo" "vpc"))
                   demo_machine = Ok (Some (IsVpc demo_vpc)))
      by (vm_compute; reflexivity).
    rewrite Lv in L. injection L as <-.
    injection S as <-. injection E1 as <-. injection E2 as <-. injection E3 as <-.
    split; [exact Hc|]. split; [exact Hr|]. split; [exact Hn|].
    split; [exact Hi | exact (Hfresh Hn)].
Defined.



(** X10.  A subnet is built on the VPC record as stored: after a
    successful [configure_vpc], the VPC file loads as the record with the
    three identifiers the client returned to the three create calls; a
    [configure_subnet] that names this VPC opens its session in the region
    the VPC was created in, hands [create_subnet] a record that embeds that
    very VPC record, and on success persists the subnet record with that
    VPC record inside, the options it was given and the three identifiers
    its own calls returned. *)
Theorem subnet_built_on_stored_vpc (aws aws' : boto3)
    (profile_name profile_name' : string) (m : machine) :
  forall region vpc_cidr vpc_name sg_name igw_name,
    let creation := configure_vpc aws profile_name region vpc_cidr vpc_name sg_name
                      igw_name in
    let rec := VpcConfig.mk region vpc_cidr vpc_name sg_name igw_name in
    outcome creation m = Ok tt ->
    exists ec2 i1 i2 i3,
      Session_client aws profile_name region = Ok ec2 /\
      ec2 (calls m) (Call_create_vpc (rec None None None)) = Ok i1 /\
      ec2 (calls m ++ [Call_create_vpc (rec None None None)])
        (Call_create_vpc_security_group (rec (Some i1) None None)) = Ok i2 /\
      ec2 (calls m ++ [Call_create_vpc (rec None None None);
                       Call_create_vpc_security_group (rec (Some i1) None None)])
        (Call_create_internet_gateway (rec (Some i1) (Some i2) None)) = Ok i3 /\
      let v := rec (Some i1) (Some i2) (Some i3) in
      outcome (_load_config (_parse_config_file_name vpc_name "vpc"))
        (after creation m) = Ok (Some (IsVpc v)) /\
      forall subnet_name cidr_substitute az rt is_public,
        let run := configure_subnet aws' profile_name' vpc_name subnet_name
                     cidr_substitute az rt is_public in
        let srec := SubnetConfig.mk v subnet_name cidr_substitute az rt in
        (forall e, Session_client aws' profile_name' region = Error e ->
           run (after creation m) = (Error e, after creation m)) /\
        (forall ec2', Session_client aws' profile_name' region = Ok ec2' ->
           octet_in_range cidr_substitute = true ->
           issued run (after creation m) !! 0 =
             Some (Call_create_subnet (srec None None None))) /\
        (outcome run (after creation m) = Ok tt ->
           exists ec2' j1 j2 j3,
             Session_client aws' profile_name' region = Ok ec2' /\
             ec2' (calls (after creation m)) (Call_create_subnet (srec None None None))
               = Ok j1 /\
             ec2' (calls (after creation m) ++ [Call_create_subnet (srec None None None)])
               (Call_create_route_table (srec (Some j1) None None) is_public)
               = Ok j2 /\
             ec2' (calls (after creation m) ++
                     [Call_create_subnet (srec None None None);
                      Call_create_route_table (srec (Some j1) None None) is_public])
               (Call_create_subnet_route_table_association
                  (srec (Some j1) (Some j2) None)) = Ok j3 /\
             files (after run (after creation m))
               !! _parse_config_file_name subnet_name "subnet"
               = Some (Document (JObj (SubnetConfig.to_dict
                                         (srec (Some j1) (Some j2) (Some j3)))))).
Proof.
  intros region vpc_cidr vpc_name sg_name igw_name creation rec Hok.
  apply configure_vpc_ok in Hok as (ec & i1 & i2 & i3 & S & H1 & H2 & H3 & _ & Hf).
  fold creation in Hf. fold rec in H1, H2, H3, Hf.
  exists ec, i1, i2, i3.
  split; [exact S|]. split; [exact H1|]. split; [exact H2|]. split; [exact H3|].
  intros v.
  assert (L : outcome (_load_config (_parse_config_file_name vpc_name "vpc"))
                (after creation m) = Ok (Some (IsVpc v))).
  { apply load_written_vpc. rewrite Hf. apply lookup_insert_eq. }
  split; [exact L|].
  intros subnet_name cidr_substitute az rt is_public run srec.
  pose proof (configure_subnet_loaded aws' profile_name' vpc_name subnet_name
                cidr_substitute az rt is_public (after creation m) v L) as R.
  fold run in R. cbv zeta in R. change (VpcConfig.region v) with region in R.
  split; [|split].
  - intros e S'. now rewrite S' in R.
  - intros ec2' S' O. rewrite S', O in R. to_chain R. apply chain_first.
  - intros Hrun.
    apply configure_subnet_ok in Hrun
      as (v' & ec2' & j1 & j2 & j3 & L' & S' & _ & E1 & E2 & E3 & _ & Hf').
    fold run in Hf'. rewrite L in L'. injection L' as <-.
    exists ec2', j1, j2, j3.
    split; [exact S'|]. split; [exact E1|]. split; [exact E2|]. split; [exact E3|].
    rewrite Hf'. apply lookup_insert_eq.
Qed.

Lemma subnet_built_on_stored_vpc_witness :
  outcome (demo_configure_vpc aws_ok) empty_machine = Ok tt /\
  outcome (_load_config (_parse_config_file_name "demo" "vpc")) demo_machine
    = Ok (Some (IsVpc demo_vpc)) /\
  demo_configure_subnet aws_no_profile demo_machine
    = (Error (ProfileError "admin"), demo_machine) /\
  issued (demo_configure_subnet aws_ok) demo_machine !! 0
    = Some (Call_create_subnet
              (SubnetConfig.mk demo_vpc "demo-net" "7" "a" "demo-rt" None None None)) /\
  files (after (demo_configure_subnet aws_ok) demo_machine)
    !! _parse_config_file_name "demo-net" "subnet"
    = Some (Document (JObj (SubnetConfig.to_dict demo_subnet))).
Proof.
  unfold demo_configure_vpc, demo_configure_subnet, demo_machine, demo_subnet,
    demo_vpc.
  assert (H : outcome (configure_vpc aws_ok "admin" "eu-west-1" "10.0.0.0/16" "demo"
                         "demo-sg" "demo-igw") empty_machine = Ok tt)
    by (vm_compute; reflexivity).
  split; [exact H|].
  destruct (subnet_built_on_stored_vpc aws_ok aws_no_profile "admin" "admin"
              empty_machine "eu-west-1" "10.0.0.0/16" "demo" "demo-sg" "demo-igw" H)
    as (ec & i1 & i2 & i3 & S & E1 & E2 & E3 & L & Hno).
  injection S as <-. injection E1 as <-. injection E2 as <-. injection E3 as <-.
  destruct (subnet_built_on_stored_vpc aws_ok aws_ok "admin" "admin"
              empty_machine "eu-west-1" "10.0.0.0/16" "demo" "demo-sg" "demo-igw" H)
    as (ec & i1 & i2 & i3 & S & E1 & E2 & E3 & _ & Hsub).
  injection S as <-. injection E1 as <-. injection E2 as <-. injection E3 as <-.
  destruct (Hsub "demo-net" "7" "a" "demo-rt" true) as (_ & Hfirst & Hdone).
  split; [exact L|].
  split; [exact (proj1 (Hno "demo-net" "7" "a" "demo-rt" true) (ProfileError "admin")
                   eq_refl)|].
  split; [exact (Hfirst ec2_ok eq_refl eq_refl)|].
  destruct Hdone as (ec2' & j1 & j2 & j3 & S' & F1 & F2 & F3 & Hf);
    [vm_compute; reflexivity|].
  injection S' as <-. injection F1 as <-. injection F2 as <-. injection F3 as <-.
  exact Hf.
Defined.

(** X11.  [configure_vpc] never reads the directory: run on two machines
    with the same trace, it issues the same calls, whatever files either
    directory holds, a record of the same name included, and whatever
    names either file system takes; and it ends with the same outcome when
    the two file systems agree on the one file name it writes. *)
Theorem configure_vpc_ignores_directory (aws : boto3)
    (profile_name region vpc_cidr vpc_name sg_name igw_name : string)
    (m m' : machine) :
  let run := configure_vpc aws profile_name region vpc_cidr vpc_name sg_name igw_name in
  let name := _parse_config_file_name vpc_name "vpc" in
  calls m' = calls m ->
  issued run m' = issued run m /\
  (refused m' name = refused m name -> outcome run m' = outcome run m).
Proof.
  intros run name Hc.
  pose proof (configure_vpc_run aws profile_name region vpc_cidr vpc_name sg_name
                igw_name m) as R.
  pose proof (configure_vpc_run aws profile_name region vpc_cidr vpc_name sg_name
                igw_name m') as R'.
  fold run in R, R'. cbv zeta in R, R'.
  destruct (Session_client aws profile_name region) as [ec2|e].
  - to_chain R. to_chain R'. now apply chain_same_trace.
  - stopped R. stopped R'. split; reflexivity.
Qed.

Lemma configure_vpc_ignores_directory_witness :
  calls truncated_machine = calls empty_machine /\
  files truncated_machine !! _parse_config_file_name "demo" "vpc"
    = Some (Unparsable "{") /\
  issued (demo_configure_vpc (aws_failing_at 1)) truncated_machine
    = issued (demo_configure_vpc (aws_failing_at 1)) empty_machine /\
  issued (demo_configure_vpc aws_ok) truncated_machine
    = issued (demo_configure_vpc aws_ok) empty_machine /\
  outcome (demo_configure_vpc aws_ok) truncated_machine
    = outcome (demo_configure_vpc aws_ok) empty_machine.
Proof.
  unfold demo_configure_vpc.
  destruct (configure_vpc_ignores_directory (aws_failing_at 1) "admin" "eu-west-1"
              "10.0.0.0/16" "demo" "demo-sg" "demo-igw" empty_machine
              truncated_machine eq_refl) as [Hi1 _].
  destruct (configure_vpc_ignores_directory aws_ok "admin" "eu-west-1"
              "10.0.0.0/16" "demo" "demo-sg" "demo-igw" empty_machine
              truncated_machine eq_refl) as [Hi Ho].
  split; [reflexivity|]. split; [vm_compute; reflexivity|].
  split; [exact Hi1|]. split; [exact Hi|]. apply Ho. reflexivity.
Defined.

(** ** The shape of file names *)

Section FileNames.

Lemma str_contains_append (c : ascii) (s t : string) :
  Py.str_contains c (s +:+ t) = Py.str_contains c s || Py.str_contains c t.
Proof.
  induction s as [|a s IH]; [reflexivity|].
  change (String a s +:+ t) with (String a (s +:+ t)).
  cbn [Py.str_contains]. now rewrite IH, orb_assoc.
Qed.

End FileNames.

(** X12.  For the tags [vpc] and [subnet], a file name never contains a
    hyphen, is 13 characters longer than tag and name together, and is the
    same for a name and for its canonical form: the name can be read back
    from the file name only up to hyphens and underscores. *)
Theorem file_name_canonical_form (t n : string) :
  is_type_tag t ->
  Py.str_contains hyphen (_parse_config_file_name n t) = false /\
  String.length (_parse_config_file_name n t) = String.length t + String.length n + 13 /\
  _parse_config_file_name (canonical n) t = _parse_config_file_name n t.
Proof.
  intros Ht. split; [|split].
  - unfold _parse_config_file_name.
    rewrite !str_contains_append, canonical_no_hyphen.
    destruct Ht as [-> | ->]; reflexivity.
  - unfold _parse_config_file_name.
    rewrite !length_append, canonical_length.
    destruct Ht as [-> | ->]; cbn; lia.
  - apply same_canonical_same_file, canonical_idempotent.
Qed.

Lemma file_name_canonical_form_witness :
  is_type_tag "subnet" /\
  Py.str_contains hyphen (_parse_config_file_name "web-tier-a" "subnet") = false /\
  String.length (_parse_config_file_name "web-tier-a" "subnet") = 6 + 10 + 13 /\
  _parse_config_file_name (canonical "web-tier-a") "subnet"
    = _parse_config_file_name "web-tier-a" "subnet".
Proof.
  assert (Ht : is_type_tag "subnet") by (right; reflexivity).
  split; [exact Ht|].
  exact (file_name_canonical_form "subnet" "web-tier-a" Ht).
Defined.

